(** * Intake Version Tracker: versioning, audit and visibility rules

    A shallow embedding of [core/models.py], [core/roles.py],
    [core/repository.py] and of the save path of [app.py], with the
    properties of the versioning and audit protocol proved about it.

    Conventions of the embedding.
    - A Python [str] is a [string]; each character stands for one code
      point below 256.
    - A Python [int] is a [Z].
    - A JSON-like Python value (what [json.loads] yields, floating-point
      numbers left out) is a [pyval]; a [dict] is an association list in
      insertion order whose keys are pairwise distinct.
    - A table of the SQLite file is the list of its rows in insertion order.
      A [TEXT] column holding [json.dumps] of a value is modelled by the
      value itself, and a [TEXT] column holding [isoformat()] of a
      timestamp by that text.
    - [uuid.uuid4()] and the system clock are inputs: every mutating
      operation takes an [Env] with the identifiers and the instant it
      observes during the call.
    - A connection carries the committed database and its own uncommitted
      view of it; only [commit] publishes the view. *)

From Stdlib Require Import List String Ascii ZArith Lia Bool.
From Stdlib Require Import Sorted Permutation RelationClasses OrdersEx.
Import ListNotations.

Local Open Scope string_scope.
Local Open Scope Z_scope.

(* ===================================================================== *)
(** ** Python values                                                      *)
(* ===================================================================== *)

#[warnings="-register-all"]
Inductive pyval : Type :=
| PyNone
| PyBool (b : bool)
| PyInt (n : Z)
| PyStr (s : string)
| PyList (l : list pyval)
| PyDict (d : list (string * pyval)).

Definition pydict : Type := list (string * pyval).

(** [bool(v)]: the truth value Python's [or], [not] and [if] test. *)
Definition truthy (v : pyval) : bool :=
  match v with
  | PyNone => false
  | PyBool b => b
  | PyInt n => negb (n =? 0)
  | PyStr s => negb (String.eqb s "")
  | PyList l => match l with [] => false | _ :: _ => true end
  | PyDict d => match d with [] => false | _ :: _ => true end
  end.

(** [a or b]. *)
Definition py_or (a b : pyval) : pyval := if truthy a then a else b.

Fixpoint lookup {A : Type} (k : string) (d : list (string * A)) : option A :=
  match d with
  | [] => None
  | (k', v) :: d' => if String.eqb k k' then Some v else lookup k d'
  end.

(** [d.get(k, default)]. *)
Definition dict_get (d : pydict) (k : string) (default : pyval) : pyval :=
  match lookup k d with
  | Some v => v
  | None => default
  end.

(** Comparison of containers, given the comparison of their elements:
    lists compare element by element in order, dicts compare as finite
    maps (same number of keys, and every key of the one is in the other
    with an equal value). *)
Section Containers.
Context {A : Type} (eq : A -> A -> bool).

Fixpoint list_eq (xs ys : list A) {struct xs} : bool :=
  match xs, ys with
  | [], [] => true
  | x :: xs', y :: ys' => eq x y && list_eq xs' ys'
  | _, _ => false
  end.

Definition item_in (e : list (string * A)) (kv : string * A) : bool :=
  match kv with
  | (k, v) => match lookup k e with Some w => eq v w | None => false end
  end.

Definition dict_eq (d e : list (string * A)) : bool :=
  Nat.eqb (List.length d) (List.length e) && forallb (item_in e) d.
End Containers.

(** [a == b] on Python values; [bool] is a subtype of [int]. *)
Fixpoint py_eq (a b : pyval) {struct a} : bool :=
  match a, b with
  | PyNone, PyNone => true
  | PyBool x, PyBool y => Bool.eqb x y
  | PyBool x, PyInt n => Z.b2z x =? n
  | PyInt n, PyBool y => n =? Z.b2z y
  | PyInt n, PyInt m => n =? m
  | PyStr s, PyStr t => String.eqb s t
  | PyList xs, PyList ys => list_eq py_eq xs ys
  | PyDict d, PyDict e => dict_eq py_eq d e
  | _, _ => false
  end.

(** [a != b]. *)
Definition py_ne (a b : pyval) : bool := negb (py_eq a b).

(** A well-formed Python value: every dict in it has pairwise distinct
    keys. *)
Fixpoint distinct_keys {A : Type} (d : list (string * A)) : bool :=
  match d with
  | [] => true
  | (k, _) :: d' =>
      match lookup k d' with Some _ => false | None => true end
      && distinct_keys d'
  end.

Fixpoint wf_pyval (v : pyval) : bool :=
  match v with
  | PyList l => forallb wf_pyval l
  | PyDict d =>
      distinct_keys d
      && forallb (fun kv => match kv with (_, w) => wf_pyval w end) d
  | _ => true
  end.

(** Induction on Python values, with the hypothesis available for every
    element of a list and every value of a dict. *)
Section PyvalInd.
Variable P : pyval -> Prop.
Hypothesis HNone : P PyNone.
Hypothesis HBool : forall b, P (PyBool b).
Hypothesis HInt : forall n, P (PyInt n).
Hypothesis HStr : forall s, P (PyStr s).
Hypothesis HList : forall l, Forall P l -> P (PyList l).
Hypothesis HDict : forall d, Forall (fun kv => P (snd kv)) d -> P (PyDict d).

Fixpoint pyval_nested_ind (v : pyval) : P v :=
  match v with
  | PyNone => HNone
  | PyBool b => HBool b
  | PyInt n => HInt n
  | PyStr s => HStr s
  | PyList l =>
      HList l
        ((fix elements (l : list pyval) : Forall P l :=
            match l with
            | [] => Forall_nil P
            | x :: l' => Forall_cons x (pyval_nested_ind x) (elements l')
            end) l)
  | PyDict d =>
      HDict d
        ((fix items (d : list (string * pyval))
            : Forall (fun kv => P (snd kv)) d :=
            match d with
            | [] => Forall_nil _
            | kv :: d' =>
                Forall_cons kv (pyval_nested_ind (snd kv)) (items d')
            end) d)
  end.
End PyvalInd.

Definition wf_pydict (d : pydict) : bool := wf_pyval (PyDict d).

(* ===================================================================== *)
(** ** Strings: [strip] and [split]                                     *)
(* ===================================================================== *)

(** [c.isspace()] for the code points below 256. *)
Definition isspace (c : ascii) : bool :=
  let n := nat_of_ascii c in
  ((9 <=? n) && (n <=? 13) || (28 <=? n) && (n <=? 32)
   || (n =? 133) || (n =? 160))%nat.

Fixpoint lstrip (s : string) : string :=
  match s with
  | EmptyString => EmptyString
  | String c s' => if isspace c then lstrip s' else s
  end.

Fixpoint rstrip (s : string) : string :=
  match s with
  | EmptyString => EmptyString
  | String c s' =>
      match rstrip s' with
      | EmptyString => if isspace c then EmptyString else String c EmptyString
      | t => String c t
      end
  end.

(** [s.strip()]. *)
Definition strip (s : string) : string := rstrip (lstrip s).

(** [s.split(sep)] for a one-character separator: the pieces between the
    separators, empty pieces included. *)
Fixpoint split (sep : ascii) (s : string) : list string :=
  match s with
  | EmptyString => [EmptyString]
  | String c s' =>
      if Ascii.eqb c sep then EmptyString :: split sep s'
      else match split sep s' with
           | [] => [String c EmptyString]
           | piece :: rest => String c piece :: rest
           end
  end.

(** [[t.strip() for t in s.split(",") if t.strip()]]. *)
Definition parse_tags (s : string) : list string :=
  map strip (filter (fun t => negb (String.eqb (strip t) "")) (split "," s)).

(* ===================================================================== *)
(** ** Timestamps                                                         *)
(* ===================================================================== *)

(** A [datetime]: its calendar fields and, when it is timezone-aware, the
    UTC offset of its [tzinfo] in seconds. *)
Record datetime : Type := mkDatetime {
  year : Z; month : Z; day : Z;
  hour : Z; minute : Z; second : Z; microsecond : Z;
  utcoffset : option Z
}.

Definition digit (n : Z) : ascii := ascii_of_nat (48 + Z.to_nat (n mod 10)).

Definition pad2 (n : Z) : string :=
  String (digit (n / 10)) (String (digit n) EmptyString).

Definition pad4 (n : Z) : string := pad2 (n / 100) ++ pad2 n.

Definition pad6 (n : Z) : string := pad2 (n / 10000) ++ pad4 n.

Definition format_offset (off : Z) : string :=
  let a := Z.abs off in
  (if off <? 0 then "-" else "+") ++ pad2 (a / 3600) ++ ":" ++ pad2 (a / 60 mod 60)
  ++ (if a mod 60 =? 0 then "" else ":" ++ pad2 (a mod 60)).

(** [d.isoformat()]. *)
Definition isoformat (d : datetime) : string :=
  pad4 (year d) ++ "-" ++ pad2 (month d) ++ "-" ++ pad2 (day d) ++ "T"
  ++ pad2 (hour d) ++ ":" ++ pad2 (minute d) ++ ":" ++ pad2 (second d)
  ++ (if microsecond d =? 0 then "" else "." ++ pad6 (microsecond d))
  ++ match utcoffset d with
     | Some off => format_offset off
     | None => ""
     end.

(** Days since 1970-01-01 to the proleptic Gregorian (year, month, day). *)
Definition civil_from_days (days : Z) : Z * Z * Z :=
  let z := days + 719468 in
  let era := z / 146097 in
  let doe := z mod 146097 in
  let yoe := (doe - doe / 1460 + doe / 36524 - doe / 146096) / 365 in
  let doy := doe - (365 * yoe + yoe / 4 - yoe / 100) in
  let mp := (5 * doy + 2) / 153 in
  let d := doy - (153 * mp + 2) / 5 + 1 in
  let m := if mp <? 10 then mp + 3 else mp - 9 in
  let y := yoe + era * 400 + (if m <=? 2 then 1 else 0) in
  (y, m, d).

(** The wall-clock fields of the instant [us] (microseconds since the
    epoch) as seen [off] seconds east of UTC. *)
Definition wall_clock (us : Z) (off : Z) (tz : option Z) : datetime :=
  let local := us + off * 1000000 in
  let secs := local / 1000000 in
  let '(y, m, d) := civil_from_days (secs / 86400) in
  let sod := secs mod 86400 in
  mkDatetime y m d (sod / 3600) (sod / 60 mod 60) (sod mod 60)
             (local mod 1000000) tz.

(** What one call observes of its surroundings: the successive results of
    [uuid.uuid4()], the instant read from the system clock (microseconds
    since the epoch, UTC), and the UTC offset in seconds that the time-zone
    database gives for [America/Toronto] at that instant. *)
Record Env : Type := mkEnv {
  uuid4 : nat -> string;
  clock_us : Z;
  toronto_utcoffset : Z
}.

(** [datetime.now(TORONTO_TZ)]. *)
Definition datetime_now_toronto (env : Env) : datetime :=
  wall_clock (clock_us env) (toronto_utcoffset env) (Some (toronto_utcoffset env)).

(** [datetime.utcnow()]: the UTC wall clock, without [tzinfo]. *)
Definition datetime_utcnow (env : Env) : datetime :=
  wall_clock (clock_us env) 0 None.

(** Whether an ISO text ends in a UTC offset [+HH:MM] or [-HH:MM]. *)
Definition is_digit (c : ascii) : bool :=
  let n := nat_of_ascii c in ((48 <=? n) && (n <=? 57))%nat.

Fixpoint last_chars (n : nat) (s : string) : string :=
  if (String.length s <=? n)%nat then s
  else match s with
       | EmptyString => EmptyString
       | String _ s' => last_chars n s'
       end.

Definition embeds_utcoffset (s : string) : bool :=
  match last_chars 6 s with
  | String sg (String h1 (String h2 (String c (String m1 (String m2 EmptyString))))) =>
      (Ascii.eqb sg "+" || Ascii.eqb sg "-") && is_digit h1 && is_digit h2
      && Ascii.eqb c ":" && is_digit m1 && is_digit m2
  | _ => false
  end.

(** [now_toronto_iso()]. *)
Definition now_toronto_iso (env : Env) : string :=
  isoformat (datetime_now_toronto env).

(* ===================================================================== *)
(** ** core/models.py                                                     *)
(* ===================================================================== *)

Record User : Type := mkUser {
  u_id : string;
  display_name : string;
  email : string;
  role : string
}.

(** The class [Record]. *)
Record Record_ : Type := mkRecord {
  r_id : string;
  title : string;
  record_type : string;
  current_version_id : option string;
  r_created_by : string;
  r_created_at : string;
  status : string
}.

Record RecordVersion : Type := mkRecordVersion {
  v_id : string;
  v_record_id : string;
  version_number : Z;
  content : pydict;
  v_created_by : string;
  created_by_name : string;
  v_created_at : string;
  version_type : string;
  parent_version_id : option string
}.

Record OverrideEvent : Type := mkOverrideEvent {
  e_id : string;
  e_record_id : string;
  e_version_id : string;
  field_path : string;
  original_value : pyval;
  new_value : pyval;
  overridden_by : string;
  overridden_by_name : string;
  overridden_at : string
}.

Record Comment : Type := mkComment {
  c_id : string;
  c_record_id : string;
  c_version_id : option string;
  author_id : string;
  author_name : string;
  c_role : string;
  text : string;
  c_created_at : string
}.

(* ===================================================================== *)
(** ** core/roles.py                                                      *)
(* ===================================================================== *)

Module roles.
Definition USER : string := "user".
Definition ADMIN : string := "admin".
Definition VIEWER : string := "viewer".

Definition is_user (user : User) : bool := String.eqb (role user) USER.
Definition is_admin (user : User) : bool := String.eqb (role user) ADMIN.
Definition is_viewer (user : User) : bool := String.eqb (role user) VIEWER.
End roles.

(* ===================================================================== *)
(** ** core/auth.py                                                       *)
(* ===================================================================== *)

Definition get_mock_users : list User :=
  [ mkUser "user-1" "Akshat (User)" "akshat.user@example.com" "user";
    mkUser "user-2" "OPS Admin" "admin@example.com" "admin";
    mkUser "user-3" "OPS Viewer (Read-only)" "viewer@example.com" "viewer" ].

(* ===================================================================== *)
(** ** The database and its connections                                   *)
(* ===================================================================== *)

(** The four tables [init_db] creates, each in insertion order. *)
Record Store : Type := mkStore {
  records : list Record_;
  record_versions : list RecordVersion;
  comments : list Comment;
  override_events : list OverrideEvent
}.

Definition empty_db : Store := mkStore [] [] [] [].

Inductive exn : Type :=
| ValueError (msg : string)
| IntegrityError (msg : string)
| AttributeError
| TypeError
| OverflowError.

Inductive result (A : Type) : Type :=
| Ok (a : A)
| Raise (e : exn).
Arguments Ok {A} a.
Arguments Raise {A} e.

(** Code that reads and writes a state [S] and may raise: the state reached
    so far survives the exception. *)
Definition M (S A : Type) : Type := S -> result A * S.

Definition ret {S A : Type} (a : A) : M S A := fun s => (Ok a, s).

Definition raise {S A : Type} (e : exn) : M S A := fun s => (Raise e, s).

Definition bind {S A B : Type} (m : M S A) (k : A -> M S B) : M S B :=
  fun s =>
    match m s with
    | (Ok a, s') => k a s'
    | (Raise e, s') => (Raise e, s')
    end.

Declare Scope py_scope.
Delimit Scope py_scope with py.
Notation "x <- m ;; k" := (bind m (fun x => k))
  (at level 61, m at next level, right associativity) : py_scope.
Notation "m ;; k" := (bind m (fun _ => k))
  (at level 61, right associativity) : py_scope.
Local Open Scope py_scope.

(** An open connection: the database as committed, and the database as
    this connection sees it with its own uncommitted statements applied. *)
Record Connection : Type := mkConnection {
  committed : Store;
  view : Store
}.

Definition get_connection (db : Store) : Connection := mkConnection db db.

(** [conn.commit()]. *)
Definition commit : M Connection unit :=
  fun c => (Ok tt, mkConnection (view c) (view c)).

(** [conn.close()]: what was not committed is rolled back. *)
Definition close : M Connection unit :=
  fun c => (Ok tt, mkConnection (committed c) (committed c)).

(** A function body that opens its own connection: whatever way the body is
    left, the database afterwards is what the connection had committed. *)
Definition with_connection {A : Type} (body : M Connection A) : M Store A :=
  fun db => let (r, c) := body (get_connection db) in (r, committed c).

(** A [SELECT]: a function of the connection's view. *)
Definition select {A : Type} (q : Store -> A) : M Connection A :=
  fun c => (Ok (q (view c)), c).

(** An [UPDATE] or [DELETE]: a change of the connection's view. *)
Definition execute (f : Store -> Store) : M Connection unit :=
  fun c => (Ok tt, mkConnection (committed c) (f (view c))).

(** An [INSERT]: the [PRIMARY KEY] constraint on [id] rejects a row whose id
    is already in the table. *)
Definition insert_into {R : Type} (table : Store -> list R) (id : R -> string)
    (add : R -> Store -> Store) (table_name : string) (row : R)
  : M Connection unit :=
  fun c =>
    if existsb (fun r => String.eqb (id r) (id row)) (table (view c))
    then (Raise (IntegrityError ("UNIQUE constraint failed: " ++ table_name ++ ".id")), c)
    else (Ok tt, mkConnection (committed c) (add row (view c))).

Definition set_records (f : list Record_ -> list Record_) (db : Store) : Store :=
  mkStore (f (records db)) (record_versions db) (comments db) (override_events db).

Definition set_record_versions (f : list RecordVersion -> list RecordVersion)
    (db : Store) : Store :=
  mkStore (records db) (f (record_versions db)) (comments db) (override_events db).

Definition set_comments (f : list Comment -> list Comment) (db : Store) : Store :=
  mkStore (records db) (record_versions db) (f (comments db)) (override_events db).

Definition set_override_events (f : list OverrideEvent -> list OverrideEvent)
    (db : Store) : Store :=
  mkStore (records db) (record_versions db) (comments db) (f (override_events db)).

(** The integers SQLite stores are 64-bit and signed.  Binding any other
    Python [int] to a parameter of a statement raises [OverflowError],
    before the statement runs. *)
Definition sqlite_integer (n : Z) : bool :=
  (-9223372036854775808 <=? n) && (n <=? 9223372036854775807).
Arguments sqlite_integer : simpl never.

Definition bind_integer (n : Z) : M Connection unit :=
  if sqlite_integer n then ret tt else raise OverflowError.

Definition insert_record : Record_ -> M Connection unit :=
  insert_into records r_id (fun r => set_records (fun t => (t ++ [r])%list)) "records".

Definition insert_record_version : RecordVersion -> M Connection unit :=
  insert_into record_versions v_id
    (fun v => set_record_versions (fun t => (t ++ [v])%list)) "record_versions".

Definition insert_comment : Comment -> M Connection unit :=
  insert_into comments c_id (fun x => set_comments (fun t => (t ++ [x])%list)) "comments".

Definition insert_override_event : OverrideEvent -> M Connection unit :=
  insert_into override_events e_id
    (fun e => set_override_events (fun t => (t ++ [e])%list)) "override_events".

(** [ORDER BY]: a stable insertion sort; [le x y] says that [x] may come
    before [y]. *)
Section OrderBy.
Context {A : Type} (le : A -> A -> bool).

Fixpoint insert_row (x : A) (l : list A) : list A :=
  match l with
  | [] => [x]
  | y :: l' => if le x y then x :: l else y :: insert_row x l'
  end.

Definition order_by (l : list A) : list A := fold_right insert_row [] l.
End OrderBy.

(** [ORDER BY created_at DESC] on [records]: the column is [TEXT], compared
    character by character. *)
Definition created_at_desc (r1 r2 : Record_) : bool :=
  String.leb (r_created_at r2) (r_created_at r1).

(** [ORDER BY version_number ASC] on [record_versions]. *)
Definition version_number_asc (v1 v2 : RecordVersion) : bool :=
  version_number v1 <=? version_number v2.

Definition comment_created_at_asc (c1 c2 : Comment) : bool :=
  String.leb (c_created_at c1) (c_created_at c2).

Definition overridden_at_asc (e1 e2 : OverrideEvent) : bool :=
  String.leb (overridden_at e1) (overridden_at e2).

(* ===================================================================== *)
(** ** core/repository.py                                                 *)
(* ===================================================================== *)

Module repository.

Definition has_id (id : string) (r : Record_) : bool := String.eqb (r_id r) id.

Definition of_record (record_id : string) (v : RecordVersion) : bool :=
  String.eqb (v_record_id v) record_id.

Definition create_record_with_initial_version
    (env : Env) (title record_type : string) (content : pydict)
    (user : User) (status : string) : M Store Record_ :=
  with_connection (
    let now := now_toronto_iso env in
    let record_id := uuid4 env 0%nat in
    let version_id := uuid4 env 1%nat in
    insert_record
      (mkRecord record_id title record_type (Some version_id)
                (u_id user) now status) ;;
    insert_record_version
      (mkRecordVersion version_id record_id 1 content
                       (u_id user) (display_name user) now "draft" None) ;;
    commit ;;
    close ;;
    ret (mkRecord record_id title record_type (Some version_id)
                  (u_id user) now status)).

Definition list_records_for_user (user : User) : M Store (list Record_) :=
  with_connection (
    rows <- (if roles.is_admin user then
               select (fun db => order_by created_at_desc (records db))
             else if roles.is_user user then
               select (fun db =>
                 order_by created_at_desc
                   (filter (fun r => String.eqb (r_created_by r) (u_id user))
                           (records db)))
             else
               select (fun db =>
                 order_by created_at_desc
                   (filter (fun r => negb (String.eqb (status r) "draft"))
                           (records db)))) ;;
    close ;;
    ret rows).

Definition count_records : M Store Z :=
  with_connection (
    c <- select (fun db => Z.of_nat (List.length (records db))) ;;
    close ;;
    ret c).

Definition get_record_by_id (record_id : string) : M Store (option Record_) :=
  with_connection (
    row <- select (fun db => find (has_id record_id) (records db)) ;;
    close ;;
    ret row).

Definition get_current_version (record_id : string)
  : M Store (option RecordVersion) :=
  with_connection (
    row <- select (fun db => find (has_id record_id) (records db)) ;;
    match row with
    | None => close ;; ret None
    | Some r =>
        match current_version_id r with
        | None => close ;; ret None
        | Some version_id =>
            vrow <- select (fun db =>
                      find (fun v => String.eqb (v_id v) version_id)
                           (record_versions db)) ;;
            close ;;
            ret vrow
        end
    end).

Definition list_versions_for_record (record_id : string)
  : M Store (list RecordVersion) :=
  with_connection (
    rows <- select (fun db =>
              order_by version_number_asc
                (filter (of_record record_id) (record_versions db))) ;;
    close ;;
    ret rows).

(** [SELECT COALESCE(MAX(version_number), 0) ... WHERE record_id = ?]. *)
Definition max_version_number (record_id : string) (db : Store) : Z :=
  match map version_number (filter (of_record record_id) (record_versions db)) with
  | [] => 0
  | n :: ns => fold_left Z.max ns n
  end.

Definition create_new_version
    (env : Env) (record_id new_title : string) (content : pydict)
    (user : User) (version_type : string) (new_status : option string)
  : M Store RecordVersion :=
  with_connection (
    rec_row <- select (fun db => find (has_id record_id) (records db)) ;;
    match rec_row with
    | None =>
        close ;;
        raise (ValueError ("Record with id " ++ record_id ++ " not found"))
    | Some rec_row =>
        let parent_version_id := current_version_id rec_row in
        let existing_status := status rec_row in
        max_v <- select (max_version_number record_id) ;;
        let next_version_number := (if max_v =? 0 then 0 else max_v) + 1 in
        let now := now_toronto_iso env in
        let version_id := uuid4 env 0%nat in
        bind_integer next_version_number ;;
        insert_record_version
          (mkRecordVersion version_id record_id next_version_number content
                           (u_id user) (display_name user) now
                           version_type parent_version_id) ;;
        let final_status :=
          match new_status with
          | Some s => s
          | None => existing_status
          end in
        execute (set_records (map (fun r =>
          if has_id record_id r then
            mkRecord (r_id r) new_title (record_type r) (Some version_id)
                     (r_created_by r) (r_created_at r) final_status
          else r))) ;;
        commit ;;
        close ;;
        ret (mkRecordVersion version_id record_id next_version_number content
                             (u_id user) (display_name user) now
                             version_type parent_version_id)
    end).

Definition add_comment
    (env : Env) (record_id : string) (version_id : option string)
    (text : string) (user : User) : M Store Comment :=
  with_connection (
    let now := isoformat (datetime_utcnow env) in
    let comment_id := uuid4 env 0%nat in
    insert_comment
      (mkComment comment_id record_id version_id (u_id user)
                 (display_name user) (role user) text now) ;;
    commit ;;
    close ;;
    ret (mkComment comment_id record_id version_id (u_id user)
                   (display_name user) (role user) text now)).

Definition list_comments_for_record (record_id : string)
  : M Store (list Comment) :=
  with_connection (
    rows <- select (fun db =>
              order_by comment_created_at_asc
                (filter (fun c => String.eqb (c_record_id c) record_id)
                        (comments db))) ;;
    close ;;
    ret rows).

Definition update_comment (env : Env) (comment_id new_text : string)
  : M Store unit :=
  with_connection (
    let now := now_toronto_iso env in
    execute (set_comments (map (fun c =>
      if String.eqb (c_id c) comment_id then
        mkComment (c_id c) (c_record_id c) (c_version_id c) (author_id c)
                  (author_name c) (c_role c) new_text now
      else c))) ;;
    commit ;;
    close).

Definition delete_comment (comment_id : string) : M Store unit :=
  with_connection (
    execute (set_comments
      (filter (fun c => negb (String.eqb (c_id c) comment_id)))) ;;
    commit ;;
    close).

(** The [for] loop of [log_override_events]; [i] counts the calls of
    [uuid.uuid4()] made so far. *)
Fixpoint insert_override_events
    (env : Env) (record_id version_id : string) (user : User) (now : string)
    (i : nat) (overrides : list (string * pyval * pyval))
  : M Connection unit :=
  match overrides with
  | [] => ret tt
  | (field_path, original_value, new_value) :: rest =>
      let event_id := uuid4 env i in
      insert_override_event
        (mkOverrideEvent event_id record_id version_id field_path
                         original_value new_value
                         (u_id user) (display_name user) now) ;;
      insert_override_events env record_id version_id user now (S i) rest
  end.

Definition log_override_events
    (env : Env) (record_id version_id : string)
    (overrides : list (string * pyval * pyval)) (user : User)
  : M Store unit :=
  match overrides with
  | [] => ret tt
  | _ :: _ =>
      with_connection (
        let now := now_toronto_iso env in
        insert_override_events env record_id version_id user now 0 overrides ;;
        commit ;;
        close)
  end.

Definition list_overrides_for_record (record_id : string)
  : M Store (list OverrideEvent) :=
  with_connection (
    rows <- select (fun db =>
              order_by overridden_at_asc
                (filter (fun e => String.eqb (e_record_id e) record_id)
                        (override_events db))) ;;
    close ;;
    ret rows).

End repository.

(* ===================================================================== *)
(** ** app.py                                                             *)
(* ===================================================================== *)

Module app.

Definition get_display_name_for_user_id (user_id : string) : string :=
  match find (fun u => String.eqb (u_id u) user_id) get_mock_users with
  | Some u => display_name u
  | None =>
      if String.eqb user_id "admin-seed" then "Seeded Admin Record Owner"
      else user_id
  end.

(** [diff_ai_metadata(old_meta, new_meta)]; [None] is Python's [None]. *)
Definition diff_ai_metadata (old_meta new_meta : option pydict)
  : list (string * pyval * pyval) :=
  let overrides : list (string * pyval * pyval) := [] in
  let old_meta := match old_meta with Some d => d | None => [] end in
  let new_meta := match new_meta with Some d => d | None => [] end in
  let old_framework :=
    py_or (dict_get old_meta "framework_tags" (PyList [])) (PyList []) in
  let new_framework :=
    py_or (dict_get new_meta "framework_tags" (PyList [])) (PyList []) in
  let overrides :=
    if py_ne old_framework new_framework then
      (overrides ++ [("ai_metadata.framework_tags", old_framework, new_framework)])%list
    else overrides in
  let old_caps :=
    py_or (dict_get old_meta "capability_groups" (PyList [])) (PyList []) in
  let new_caps :=
    py_or (dict_get new_meta "capability_groups" (PyList [])) (PyList []) in
  let overrides :=
    if py_ne old_caps new_caps then
      (overrides ++ [("ai_metadata.capability_groups", old_caps, new_caps)])%list
    else overrides in
  overrides.

(** [d[k] = v] on a dict in insertion order. *)
Fixpoint dict_set {A : Type} (d : list (string * A)) (k : string) (v : A)
  : list (string * A) :=
  match d with
  | [] => [(k, v)]
  | (k', v') :: d' =>
      if String.eqb k k' then (k, v) :: d' else (k', v') :: dict_set d' k v
  end.

(** The label of a record in the selection box. *)
Definition record_label (r : Record_) : string :=
  title r ++ " [" ++ status r ++ "] (Created by: "
  ++ get_display_name_for_user_id (r_created_by r) ++ ")".

Definition record_options (records : list Record_) : list (string * string) :=
  fold_left (fun options r => dict_set options (record_label r) (r_id r))
            records [].

(** [v.get(...)] needs [v] to be a dict. *)
Definition as_dict {S : Type} (v : pyval) : M S pydict :=
  match v with
  | PyDict d => ret d
  | _ => raise AttributeError
  end.

Definition is_str (v : pyval) : bool :=
  match v with PyStr _ => true | _ => false end.

(** [", ".join(v)] needs [v] to be an iterable of strings. *)
Definition check_joinable {S : Type} (v : pyval) : M S unit :=
  match v with
  | PyList l => if forallb is_str l then ret tt else raise TypeError
  | PyStr _ => ret tt
  | PyDict _ => ret tt
  | _ => raise TypeError
  end.

(** The two entries of the status selection box. *)
Inductive status_option : Type := draft | submitted.

Definition status_text (s : status_option) : string :=
  match s with draft => "draft" | submitted => "submitted" end.

(** What the user entered in the form [edit_record_form]. *)
Record EditForm : Type := mkEditForm {
  title_input : string;
  business_problem_input : string;
  description_input : string;
  framework_tags_str : string;
  capability_groups_str : string;
  status_input : status_option
}.

(** What the page shows at the end of the run. *)
Inductive page : Type :=
| ViewerNotice
| NoRecords
| RecordNotFound
| NoCurrentVersion
| TitleRequired
| Saved (new_version : RecordVersion).

(** The [ai_metadata] of a version's content as the editor reads it:
    [content.get("ai_metadata", {}) or {}]. *)
Definition existing_meta_of (current_version : RecordVersion) : pyval :=
  py_or (dict_get (content current_version) "ai_metadata" (PyDict [])) (PyDict []).

(** [updated_content["ai_metadata"]]. *)
Definition new_meta_of (form : EditForm) : pydict :=
  [ ("framework_tags",
      PyList (map PyStr (parse_tags (framework_tags_str form))));
    ("capability_groups",
      PyList (map PyStr (parse_tags (capability_groups_str form)))) ].

Definition updated_content_of (form : EditForm) : pydict :=
  [ ("business_problem", PyStr (strip (business_problem_input form)));
    ("description", PyStr (strip (description_input form)));
    ("ai_metadata", PyDict (new_meta_of form)) ].

(** One run of [show_editor(user)] in which the user has picked entry
    [selected] of the record selection box and pressed "Save New Version"
    with [form] filled in.  [env_version] and [env_overrides] are what
    [create_new_version] and [log_override_events] observe.  The widgets
    drawn around the save (the creation tab, the comment thread) only read
    the database and are left out. *)
Definition show_editor
    (env_version env_overrides : Env) (user : User)
    (selected : nat) (form : EditForm) : M Store page :=
  if roles.is_viewer user then ret ViewerNotice
  else
    records <- repository.list_records_for_user user ;;
    match records with
    | [] => ret NoRecords
    | _ :: _ =>
        let options := record_options records in
        let selected_label :=
          nth selected (map fst options) (hd "" (map fst options)) in
        let selected_record_id :=
          match lookup selected_label options with Some i => i | None => "" end in
        record <- repository.get_record_by_id selected_record_id ;;
        match record with
        | None => ret RecordNotFound
        | Some record =>
            current_version <- repository.get_current_version (r_id record) ;;
            match current_version with
            | None => ret NoCurrentVersion
            | Some current_version =>
                existing_meta <- as_dict (existing_meta_of current_version) ;;
                check_joinable (dict_get existing_meta "framework_tags" (PyList [])) ;;
                check_joinable (dict_get existing_meta "capability_groups" (PyList [])) ;;
                if String.eqb (strip (title_input form)) "" then ret TitleRequired
                else
                  let updated_content := updated_content_of form in
                  let old_meta := existing_meta in
                  let new_meta := new_meta_of form in
                  let overrides := diff_ai_metadata (Some old_meta) (Some new_meta) in
                  let version_type :=
                    if roles.is_admin user
                       && match overrides with [] => false | _ :: _ => true end
                    then "override" else "edit" in
                  new_version <-
                    repository.create_new_version env_version
                      (r_id record) (strip (title_input form)) updated_content
                      user version_type (Some (status_text (status_input form))) ;;
                  (if String.eqb version_type "override" then
                     repository.log_override_events env_overrides
                       (r_id record) (v_id new_version) overrides user
                   else ret tt) ;;
                  ret (Saved new_version)
            end
        end
    end.

End app.


(* ===================================================================== *)
(** ** Histories of calls                                                 *)
(* ===================================================================== *)

(** A call of one of the mutating operations of the repository. *)
Inductive call : Type :=
| CreateRecord (env : Env) (title record_type : string) (content : pydict)
               (user : User) (status : string)
| CreateNewVersion (env : Env) (record_id new_title : string) (content : pydict)
                   (user : User) (version_type : string)
                   (new_status : option string)
| AddComment (env : Env) (record_id : string) (version_id : option string)
             (text : string) (user : User)
| UpdateComment (env : Env) (comment_id new_text : string)
| DeleteComment (comment_id : string)
| LogOverrideEvents (env : Env) (record_id version_id : string)
                    (overrides : list (string * pyval * pyval)) (user : User).

(** The database a call leaves behind, whether it returns or raises. *)
Definition after {A : Type} (m : M Store A) (db : Store) : Store := snd (m db).

Definition run_call (c : call) (db : Store) : Store :=
  match c with
  | CreateRecord env title record_type content user status =>
      after (repository.create_record_with_initial_version
               env title record_type content user status) db
  | CreateNewVersion env record_id new_title content user version_type new_status =>
      after (repository.create_new_version
               env record_id new_title content user version_type new_status) db
  | AddComment env record_id version_id text user =>
      after (repository.add_comment env record_id version_id text user) db
  | UpdateComment env comment_id new_text =>
      after (repository.update_comment env comment_id new_text) db
  | DeleteComment comment_id =>
      after (repository.delete_comment comment_id) db
  | LogOverrideEvents env record_id version_id overrides user =>
      after (repository.log_override_events
               env record_id version_id overrides user) db
  end.

(** The database after a history of calls, first call first. *)
Definition run_calls (cs : list call) (db : Store) : Store :=
  fold_left (fun db c => run_call c db) cs db.

(* ===================================================================== *)
(** ** Vocabulary of the statements                                       *)
(* ===================================================================== *)

(** The numbers [1; 2; ...; n]. *)
Definition one_to (n : nat) : list Z := map Z.of_nat (seq 1 n).

(** The version numbers of a record, in the order the versions were
    inserted. *)
Definition version_numbers (record_id : string) (db : Store) : list Z :=
  map version_number
      (filter (repository.of_record record_id) (record_versions db)).

(** The invariant of the version table: every version belongs to a record,
    the versions of a record are numbered 1, 2, ... in insertion order, and
    every record has a version. *)
Definition numbered (db : Store) : Prop :=
  (forall v : RecordVersion,
      In v (record_versions db) ->
      existsb (repository.has_id (v_record_id v)) (records db) = true)
  /\ (forall record_id : string,
        version_numbers record_id db
        = one_to (List.length (version_numbers record_id db)))
  /\ (forall r : Record_,
        In r (records db) -> version_numbers (r_id r) db <> []).

(** The orders of [ORDER BY created_at DESC] (on the stored text) and of
    [ORDER BY version_number ASC] as relations. *)
Definition newest_first (r1 r2 : Record_) : Prop :=
  String.leb (r_created_at r2) (r_created_at r1) = true.

Definition ascending (v1 v2 : RecordVersion) : Prop :=
  version_number_asc v1 v2 = true.

(** The filters of the branches of [list_records_for_user]. *)
Definition authored_by (user : User) (r : Record_) : bool :=
  String.eqb (r_created_by r) (u_id user).

Definition not_draft (r : Record_) : bool :=
  negb (String.eqb (status r) "draft").

(** What [create_record_with_initial_version] writes. *)
Definition initial_record_row
    (env : Env) (title record_type : string) (user : User) (status : string)
  : Record_ :=
  mkRecord (uuid4 env 0%nat) title record_type (Some (uuid4 env 1%nat))
           (u_id user) (now_toronto_iso env) status.

Definition initial_version_row (env : Env) (content : pydict) (user : User)
  : RecordVersion :=
  mkRecordVersion (uuid4 env 1%nat) (uuid4 env 0%nat) 1 content
                  (u_id user) (display_name user) (now_toronto_iso env)
                  "draft" None.

(** What [create_new_version] raises and writes: the error for an unknown
    record, the status it settles on, the new row of [record_versions] and
    the [UPDATE] of the record's row. *)
Definition not_found (record_id : string) : exn :=
  ValueError ("Record with id " ++ record_id ++ " not found").

Definition final_status_of (new_status : option string) (rec_row : Record_)
  : string :=
  match new_status with
  | Some s => s
  | None => status rec_row
  end.

Definition new_version_row
    (env : Env) (record_id : string) (content : pydict) (user : User)
    (version_type : string) (db : Store) (rec_row : Record_) : RecordVersion :=
  mkRecordVersion (uuid4 env 0%nat) record_id
                  (repository.max_version_number record_id db + 1) content
                  (u_id user) (display_name user) (now_toronto_iso env)
                  version_type (current_version_id rec_row).

Definition repoint
    (record_id version_id final_status new_title : string) (r : Record_)
  : Record_ :=
  if repository.has_id record_id r then
    mkRecord (r_id r) new_title (record_type r) (Some version_id)
             (r_created_by r) (r_created_at r) final_status
  else r.

(** The rows [log_override_events] inserts for [overrides], the first of
    them with the [i]-th identifier. *)
Fixpoint override_event_rows
    (env : Env) (record_id version_id : string) (user : User) (now : string)
    (i : nat) (overrides : list (string * pyval * pyval))
  : list OverrideEvent :=
  match overrides with
  | [] => []
  | (field_path, original_value, new_value) :: rest =>
      mkOverrideEvent (uuid4 env i) record_id version_id field_path
                      original_value new_value
                      (u_id user) (display_name user) now
      :: override_event_rows env record_id version_id user now (S i) rest
  end.

(** The change an override event records. *)
Definition change_of (e : OverrideEvent) : string * pyval * pyval :=
  (field_path e, original_value e, new_value e).

(** The value a call returned, [d] if it raised. *)
Definition returned {A : Type} (d : A) (out : result A * Store) : A :=
  match fst out with
  | Ok a => a
  | Raise _ => d
  end.

(* ===================================================================== *)
(** ** A worked scenario                                                  *)
(* ===================================================================== *)

(** An environment that hands out the identifiers [ids] in turn, at the
    instant [us], with Toronto on standard time (UTC-5). *)
Definition env_at (ids : list string) (us : Z) : Env :=
  mkEnv (fun i => nth i ids "") us (-18000).

Definition user_x : User :=
  mkUser "user-1" "Akshat (User)" "akshat.user@example.com" "user".
Definition admin_y : User :=
  mkUser "user-2" "OPS Admin" "admin@example.com" "admin".
Definition viewer_z : User :=
  mkUser "user-3" "OPS Viewer (Read-only)" "viewer@example.com" "viewer".

(** A user whose role is none of the documented ones. *)
Definition auditor : User :=
  mkUser "user-9" "External Auditor" "auditor@example.com" "auditor".

Definition content_of (framework_tags capability_groups : list string) : pydict :=
  [ ("business_problem", PyStr "Detect suspicious benefit claims using AI.");
    ("description", PyStr "Flag high-risk claims for review.");
    ("ai_metadata",
      PyDict [ ("framework_tags", PyList (map PyStr framework_tags));
               ("capability_groups", PyList (map PyStr capability_groups)) ]) ].

(** Three records: a draft and a submitted one of user X, a submitted one
    of admin Y. *)
Definition three_records : list call :=
  [ CreateRecord (env_at ["rec-1"; "ver-1"] 1700000000000000)
      "Fraud Detection" "ai_use_case"
      (content_of ["Risk & Governance"] ["Fraud Detection"]) user_x "draft";
    CreateRecord (env_at ["rec-2"; "ver-2"] 1700000060000000)
      "Summarization" "ai_use_case"
      (content_of ["Knowledge Management"] ["NLP"]) user_x "submitted";
    CreateRecord (env_at ["rec-3"; "ver-3"] 1700000120000000)
      "Triage" "ai_use_case"
      (content_of ["Service Delivery"] ["NLP"]) admin_y "submitted" ].

Definition three_records_db : Store := run_calls three_records empty_db.

(** The first record of the scenario, revised twice. *)
Definition revisions : list call :=
  [ CreateNewVersion (env_at ["ver-4"] 1700000180000000) "rec-1"
      "Fraud Detection v2" (content_of ["Risk & Governance"] ["Fraud Detection"])
      user_x "edit" None;
    CreateNewVersion (env_at ["ver-5"] 1700000240000000) "rec-1"
      "Fraud Detection v3" (content_of ["Risk & Governance"] ["Fraud Detection"; "NLP"])
      admin_y "override" (Some "submitted") ].

Definition revised_db : Store :=
  run_calls (three_records ++ revisions) empty_db.

Definition no_version : RecordVersion :=
  mkRecordVersion "" "" 0 [] "" "" "" "" None.

Definition no_record : Record_ := mkRecord "" "" "" None "" "" "".

(** The first record of the scenario as [revised_db] holds it. *)
Definition first_record : Record_ :=
  match returned None (repository.get_record_by_id "rec-1" revised_db) with
  | Some r => r
  | None => no_record
  end.

(** A third revision of that record. *)
Definition third_revision : result RecordVersion * Store :=
  repository.create_new_version
    (env_at ["ver-6"] 1700000300000000) "rec-1" "Fraud Detection v4"
    (content_of [] ["NLP"]) user_x "edit" None revised_db.

(** The admin of the scenario picks the oldest record (the third entry of
    the selection box), adds a capability group and saves. *)
Definition capability_change : app.EditForm :=
  app.mkEditForm "Fraud Detection" "Detect suspicious benefit claims using AI."
                 "Flag high-risk claims for review."
                 "Risk & Governance" "Fraud Detection, NLP" app.draft.

Definition admin_save : result app.page * Store :=
  app.show_editor (env_at ["ver-8"] 1700000500000000)
                  (env_at ["ev-1"; "ev-2"] 1700000501000000)
                  admin_y 2 capability_change three_records_db.

(** User X makes the same change to the same record (the second entry of
    the selection box of X). *)
Definition user_save : result app.page * Store :=
  app.show_editor (env_at ["ver-8"] 1700000500000000)
                  (env_at ["ev-1"; "ev-2"] 1700000501000000)
                  user_x 1 capability_change three_records_db.

Definition saved_version (out : result app.page * Store) : RecordVersion :=
  match fst out with
  | Ok (app.Saved v) => v
  | _ => no_version
  end.

(** Two records created forty minutes apart on 2024-11-03, the first at
    05:30 UTC while Toronto is still on daylight time (UTC-4), the second
    at 06:10 UTC, after the clocks went back (UTC-5). *)
Definition repeated_hour_records : list call :=
  [ CreateRecord (mkEnv (fun i => nth i ["rec-a"; "ver-a"] "")
                        1730611800000000 (-14400))
      "Before the change" "ai_use_case" (content_of [] []) user_x "submitted";
    CreateRecord (mkEnv (fun i => nth i ["rec-b"; "ver-b"] "")
                        1730614200000000 (-18000))
      "After the change" "ai_use_case" (content_of [] []) user_x "submitted" ].

(** A comment added at 2024-01-15 17:00:00 UTC, noon in Toronto. *)
Definition noon_in_toronto : Env := env_at ["com-1"] 1705338000000000.

Definition noon_comment : result Comment * Store :=
  repository.add_comment noon_in_toronto "rec-1" None "Looks good." user_x
                         three_records_db.

(* ===================================================================== *)
(** ** Vocabulary of the further statements                                *)
(* ===================================================================== *)



(** The columns of a record that no statement of the repository updates. *)
Definition fixed_columns (r : Record_) : string * string * string * string :=
  (r_id r, record_type r, r_created_by r, r_created_at r).

(** The columns of a comment that [update_comment] leaves alone. *)
Definition comment_identity (c : Comment)
  : string * string * option string * string * string * string :=
  (c_id c, c_record_id c, c_version_id c, author_id c, author_name c, c_role c).

(** [ids] can be inserted one after the other into a table that holds the
    ids [taken]: none is taken, and none occurs twice. *)
Fixpoint fresh_ids (taken ids : list string) : bool :=
  match ids with
  | [] => true
  | i :: rest =>
      negb (existsb (String.eqb i) taken) && fresh_ids (taken ++ [i]) rest
  end.

(** The identifiers [log_override_events] draws for [n] events. *)
Definition event_ids (env : Env) (n : nat) : list string :=
  map (uuid4 env) (seq 0 n).

(** The comment [add_comment] writes. *)
Definition comment_row
    (env : Env) (record_id : string) (version_id : option string)
    (text_arg : string) (user : User) : Comment :=
  mkComment (uuid4 env 0%nat) record_id version_id (u_id user)
            (display_name user) (role user) text_arg
            (isoformat (datetime_utcnow env)).

Definition of_comment_record (record_id : string) (c : Comment) : bool :=
  String.eqb (c_record_id c) record_id.

Definition of_event_record (record_id : string) (e : OverrideEvent) : bool :=
  String.eqb (e_record_id e) record_id.

Definition oldest_comment_first (c1 c2 : Comment) : Prop :=
  comment_created_at_asc c1 c2 = true.

Definition oldest_event_first (e1 e2 : OverrideEvent) : Prop :=
  overridden_at_asc e1 e2 = true.

(** The versions of a record, in the order they were inserted. *)
Definition versions_of (record_id : string) (db : Store) : list RecordVersion :=
  filter (repository.of_record record_id) (record_versions db).

(** The id of the last version of [vs]; [p] when [vs] is empty. *)
Fixpoint last_id (p : option string) (vs : list RecordVersion) : option string :=
  match vs with
  | [] => p
  | v :: vs' => last_id (Some (v_id v)) vs'
  end.

(** The parent of every version of [vs] is the version just before it; the
    parent of the first one is [p]. *)
Fixpoint linear (p : option string) (vs : list RecordVersion) : Prop :=
  match vs with
  | [] => True
  | v :: vs' => parent_version_id v = p /\ linear (Some (v_id v)) vs'
  end.

(** The invariant of pointers and parents: ids are unique in both tables,
    and every record points at the last of its versions, whose parents form
    one chain that starts with a version of type "draft". *)
Definition lineage (db : Store) : Prop :=
  NoDup (map r_id (records db))
  /\ NoDup (map v_id (record_versions db))
  /\ forall r : Record_,
       In r (records db) ->
       current_version_id r = last_id None (versions_of (r_id r) db)
       /\ linear None (versions_of (r_id r) db)
       /\ (forall v : RecordVersion,
             hd_error (versions_of (r_id r) db) = Some v ->
             version_type v = "draft").

(* ===================================================================== *)
(** ** core/repository.py: [ensure_demo_data]                             *)
(* ===================================================================== *)

Definition demo_content_1 : pydict :=
  [ ("business_problem", PyStr "Detect suspicious benefit claims using AI.");
    ("description",
      PyStr "Use classification models to flag high-risk claims for review.");
    ("ai_metadata",
      PyDict [ ("framework_tags", PyList [PyStr "Risk & Governance"]);
               ("capability_groups", PyList [PyStr "Fraud Detection"]) ]) ].

Definition demo_content_2 : pydict :=
  [ ("business_problem",
      PyStr "Automate document summarization for policy briefs.");
    ("description",
      PyStr "Use NLP to create short summaries for long policy documents.");
    ("ai_metadata",
      PyDict [ ("framework_tags", PyList [PyStr "Knowledge Management"]);
               ("capability_groups", PyList [PyStr "NLP"]) ]) ].

Definition admin_like : User :=
  mkUser "admin-seed" "Seeded Admin Record Owner" "seeded-admin@example.com"
         "admin".

(** [ensure_demo_data(user_for_demo)]; [env1] and [env2] are what the two
    calls of [create_record_with_initial_version] observe. *)
Definition ensure_demo_data (env1 env2 : Env) (user_for_demo : User)
  : M Store unit :=
  (n <- repository.count_records ;;
   if 0 <? n then ret tt
   else
     repository.create_record_with_initial_version
       env1 "Fraud Detection in Benefit Claims" "ai_use_case" demo_content_1
       user_for_demo "draft" ;;
     repository.create_record_with_initial_version
       env2 "Policy Document Summarization" "ai_use_case" demo_content_2
       admin_like "submitted" ;;
     ret tt)%py.

(* ===================================================================== *)
(** ** Strings, continued: [join] and clean tags                          *)
(* ===================================================================== *)

(** [sep.join(l)] for a list of strings. *)
Fixpoint str_join (sep : string) (l : list string) : string :=
  match l with
  | [] => ""
  | t :: rest =>
      match rest with
      | [] => t
      | _ :: _ => t ++ sep ++ str_join sep rest
      end
  end.

(** [c in s]. *)
Fixpoint contains (c : ascii) (s : string) : bool :=
  match s with
  | EmptyString => false
  | String x s' => Ascii.eqb x c || contains c s'
  end.

(** A tag as [parse_tags] produces them: not empty, without white space at
    either end, without a comma. *)
Definition clean_tag (t : string) : bool :=
  negb (String.eqb t "") && String.eqb (strip t) t && negb (contains "," t).

(** The [ai_metadata] document with the given tag lists. *)
Definition tags_meta (framework_tags capability_groups : list string) : pydict :=
  [ ("framework_tags", PyList (map PyStr framework_tags));
    ("capability_groups", PyList (map PyStr capability_groups)) ].

(** The version type the editor settles on for a save. *)
Definition editor_version_type
    (user : User) (overrides : list (string * pyval * pyval)) : string :=
  if roles.is_admin user && match overrides with [] => false | _ :: _ => true end
  then "override" else "edit".

(* ===================================================================== *)
(** ** app.py: [show_history]                                             *)
(* ===================================================================== *)

(** The "Version #" cell of a row of the override history:
    [next((v.version_number for v in versions if v.id == o.version_id), "?")]. *)
Definition override_row_version
    (versions : list RecordVersion) (o : OverrideEvent) : pyval :=
  match find (fun v => String.eqb (v_id v) (e_version_id o)) versions with
  | Some v => PyInt (version_number v)
  | None => PyStr "?"
  end.

(** The characters of a string, each as a string of length one. *)
Fixpoint chars (s : string) : list string :=
  match s with
  | EmptyString => []
  | String c s' => String c EmptyString :: chars s'
  end.

Fixpoint strings_of (l : list pyval) : option (list string) :=
  match l with
  | [] => Some []
  | PyStr s :: l' =>
      match strings_of l' with
      | Some ss => Some (s :: ss)
      | None => None
      end
  | _ :: _ => None
  end.

(** [", ".join(v)]: [v] must be an iterable of strings (a list of strings,
    a string, or a dict, whose keys are iterated). *)
Definition py_join {S : Type} (v : pyval) : M S string :=
  match v with
  | PyList l =>
      match strings_of l with
      | Some ss => ret (str_join ", " ss)
      | None => raise TypeError
      end
  | PyStr s => ret (str_join ", " (chars s))
  | PyDict d => ret (str_join ", " (map fst d))
  | _ => raise TypeError
  end.

(** One row of the table of differences: field, base value, compared
    value. *)
Definition diff_row : Type := string * pyval * pyval.

(** The body of the "Show Differences" button of [show_history] for the two
    versions selected: [None] stands for the warning that asks for two
    different versions, [Some rows] for the rows found (an empty list is
    reported as "No differences found"). *)
Definition show_differences {S : Type} (base_version compare_version : RecordVersion)
  : M S (option (list diff_row)) :=
  (if String.eqb (v_id base_version) (v_id compare_version) then ret None
   else
     let base_content := content base_version in
     let base_meta :=
       py_or (dict_get base_content "ai_metadata" (PyDict [])) (PyDict []) in
     let compare_content := content compare_version in
     let compare_meta :=
       py_or (dict_get compare_content "ai_metadata" (PyDict [])) (PyDict []) in
     let diff_rows : list diff_row := [] in
     let diff_rows :=
       if py_ne (dict_get base_content "business_problem" (PyStr ""))
                (dict_get compare_content "business_problem" (PyStr ""))
       then (diff_rows ++ [("business_problem",
                            dict_get base_content "business_problem" (PyStr ""),
                            dict_get compare_content "business_problem" (PyStr ""))])%list
       else diff_rows in
     let diff_rows :=
       if py_ne (dict_get base_content "description" (PyStr ""))
                (dict_get compare_content "description" (PyStr ""))
       then (diff_rows ++ [("description",
                            dict_get base_content "description" (PyStr ""),
                            dict_get compare_content "description" (PyStr ""))])%list
       else diff_rows in
     base_meta <- app.as_dict base_meta ;;
     let base_framework :=
       py_or (dict_get base_meta "framework_tags" (PyList [])) (PyList []) in
     compare_meta <- app.as_dict compare_meta ;;
     let compare_framework :=
       py_or (dict_get compare_meta "framework_tags" (PyList [])) (PyList []) in
     diff_rows <-
       (if py_ne base_framework compare_framework then
          b <- py_join base_framework ;;
          c <- py_join compare_framework ;;
          ret (diff_rows ++ [("ai_metadata.framework_tags", PyStr b, PyStr c)])%list
        else ret diff_rows) ;;
     let base_caps :=
       py_or (dict_get base_meta "capability_groups" (PyList [])) (PyList []) in
     let compare_caps :=
       py_or (dict_get compare_meta "capability_groups" (PyList [])) (PyList []) in
     diff_rows <-
       (if py_ne base_caps compare_caps then
          b <- py_join base_caps ;;
          c <- py_join compare_caps ;;
          ret (diff_rows ++ [("ai_metadata.capability_groups", PyStr b, PyStr c)])%list
        else ret diff_rows) ;;
     ret (Some diff_rows))%py.

(** The fields of a version's content outside [ai_metadata] that the
    comparison looks at. *)
Definition text_fields_changed (base_version compare_version : RecordVersion)
  : list string :=
  ((if py_ne (dict_get (content base_version) "business_problem" (PyStr ""))
             (dict_get (content compare_version) "business_problem" (PyStr ""))
    then ["business_problem"] else [])
   ++ (if py_ne (dict_get (content base_version) "description" (PyStr ""))
                (dict_get (content compare_version) "description" (PyStr ""))
       then ["description"] else []))%list.

(* ===================================================================== *)
(** ** app.py: the rest of [show_editor]                                  *)
(* ===================================================================== *)

(** What the user entered in the form [new_record_form]. *)
Record CreateForm : Type := mkCreateForm {
  new_title_input : string;
  new_business_problem_input : string;
  new_description_input : string;
  new_framework_tags_str : string;
  new_capability_groups_str : string;
  new_status_input : app.status_option
}.

Definition new_content_of (form : CreateForm) : pydict :=
  [ ("business_problem", PyStr (strip (new_business_problem_input form)));
    ("description", PyStr (strip (new_description_input form)));
    ("ai_metadata",
      PyDict [ ("framework_tags",
                 PyList (map PyStr (parse_tags (new_framework_tags_str form))));
               ("capability_groups",
                 PyList (map PyStr (parse_tags (new_capability_groups_str form)))) ]) ].

Inductive create_page : Type :=
| CreateViewerNotice
| CreateTitleRequired
| Created (record : Record_).

(** The tab "Create New" of [show_editor(user)] in a run in which the user
    has pressed "Create Record" with [form] filled in.  The tab
    "Edit + Comments", drawn after it in the same run, only reads the
    database. *)
Definition show_editor_create (env : Env) (user : User) (form : CreateForm)
  : M Store create_page :=
  (if roles.is_viewer user then ret CreateViewerNotice
   else if String.eqb (strip (new_title_input form)) "" then ret CreateTitleRequired
   else
     record <- repository.create_record_with_initial_version
                 env (strip (new_title_input form)) "ai_use_case"
                 (new_content_of form) user
                 (app.status_text (new_status_input form)) ;;
     ret (Created record))%py.

(** [can_manage = roles.is_admin(user) or (c.author_id == user.id)]. *)
Definition can_manage (user : User) (c : Comment) : bool :=
  roles.is_admin user || String.eqb (author_id c) (u_id user).

(** The widgets of the comment card that a run can find pressed. *)
Inductive comment_event : Type :=
| PressEdit (i : nat)
| PressDelete (i : nat)
| PressSaveChanges (edit_text : string)
| PressCancelEdit
| PressPost (comment_text : string).

Inductive comment_page : Type :=
| CommentViewerNotice
| CommentNoRecords
| CommentRecordNotFound
| CommentNoCurrentVersion
| NotOnThePage
| EditingStarted
| CommentDeleted
| CommentEmpty
| CommentUpdated
| EditCancelled
| CommentPosted (c : Comment).

(** [if editing_comment_id:] on [st.session_state.get("editing_comment_id")]. *)
Definition is_editing (editing_comment_id : option string) : bool :=
  match editing_comment_id with
  | Some id => negb (String.eqb id "")
  | None => false
  end.

(** The comment card of [show_editor] for [record] and its current version,
    in a run in which one of its widgets is pressed.  [editing_comment_id]
    is the entry of the session state before the run; the card returns what
    it shows and the entry after the run.  The [i]-th "Edit" or "Delete"
    button is that of the [i]-th comment listed and is drawn only when
    [can_manage] holds; the form to post is drawn only while no comment is
    being edited. *)
Definition comment_card
    (env : Env) (user : User) (record : Record_) (current_version : RecordVersion)
    (editing_comment_id : option string) (event : comment_event)
  : M Store (comment_page * option string) :=
  (comments <- repository.list_comments_for_record (r_id record) ;;
   match event with
   | PressEdit i =>
       match nth_error comments i with
       | Some c =>
           if can_manage user c
           then ret (EditingStarted, Some (c_id c))
           else ret (NotOnThePage, editing_comment_id)
       | None => ret (NotOnThePage, editing_comment_id)
       end
   | PressDelete i =>
       match nth_error comments i with
       | Some c =>
           if can_manage user c
           then repository.delete_comment (c_id c) ;;
                ret (CommentDeleted, editing_comment_id)
           else ret (NotOnThePage, editing_comment_id)
       | None => ret (NotOnThePage, editing_comment_id)
       end
   | PressSaveChanges edit_text =>
       match editing_comment_id with
       | Some id =>
           if is_editing editing_comment_id then
             if String.eqb (strip edit_text) ""
             then ret (CommentEmpty, editing_comment_id)
             else repository.update_comment env id (strip edit_text) ;;
                  ret (CommentUpdated, None)
           else ret (NotOnThePage, editing_comment_id)
       | None => ret (NotOnThePage, editing_comment_id)
       end
   | PressCancelEdit =>
       if is_editing editing_comment_id
       then ret (EditCancelled, None)
       else ret (NotOnThePage, editing_comment_id)
   | PressPost comment_text =>
       if is_editing editing_comment_id
       then ret (NotOnThePage, editing_comment_id)
       else if String.eqb (strip comment_text) ""
       then ret (CommentEmpty, editing_comment_id)
       else
         c <- repository.add_comment env (r_id record)
                (Some (v_id current_version)) (strip comment_text) user ;;
         ret (CommentPosted c, editing_comment_id)
   end)%py.

(** One run of [show_editor(user)] in which a widget of the comment card of
    the selected record is pressed; "Create Record" and "Save New Version"
    are not. *)
Definition show_editor_comments
    (env : Env) (user : User) (selected : nat)
    (editing_comment_id : option string) (event : comment_event)
  : M Store (comment_page * option string) :=
  (if roles.is_viewer user then ret (CommentViewerNotice, editing_comment_id)
   else
     records <- repository.list_records_for_user user ;;
     match records with
     | [] => ret (CommentNoRecords, editing_comment_id)
     | _ :: _ =>
         let options := app.record_options records in
         let selected_label :=
           nth selected (map fst options) (hd "" (map fst options)) in
         let selected_record_id :=
           match lookup selected_label options with Some i => i | None => "" end in
         record <- repository.get_record_by_id selected_record_id ;;
         match record with
         | None => ret (CommentRecordNotFound, editing_comment_id)
         | Some record =>
             current_version <- repository.get_current_version (r_id record) ;;
             match current_version with
             | None => ret (CommentNoCurrentVersion, editing_comment_id)
             | Some current_version =>
                 existing_meta <- app.as_dict (app.existing_meta_of current_version) ;;
                 app.check_joinable
                   (dict_get existing_meta "framework_tags" (PyList [])) ;;
                 app.check_joinable
                   (dict_get existing_meta "capability_groups" (PyList [])) ;;
                 comment_card env user record current_version
                   editing_comment_id event
             end
         end
     end)%py.

(* ===================================================================== *)
(** ** Vocabulary of the further statements on timestamps and selection   *)
(* ===================================================================== *)

(** The surroundings a call of the repository observes; [delete_comment]
    reads neither the clock nor [uuid4]. *)
Definition call_env (c : call) : option Env :=
  match c with
  | CreateRecord env _ _ _ _ _ => Some env
  | CreateNewVersion env _ _ _ _ _ _ => Some env
  | AddComment env _ _ _ _ => Some env
  | UpdateComment env _ _ => Some env
  | DeleteComment _ => None
  | LogOverrideEvents env _ _ _ _ => Some env
  end.

(** The UTC offset of Toronto is a whole number of minutes when the call is
    made. *)
Definition whole_minute_offset (c : call) : bool :=
  match call_env c with
  | Some env => Z.abs (toronto_utcoffset env) mod 60 =? 0
  | None => true
  end.

(** Every timestamp of the version store and of the override log ends in a
    UTC offset. *)
Definition stamped_with_offset (db : Store) : Prop :=
  Forall (fun r => embeds_utcoffset (r_created_at r) = true) (records db)
  /\ Forall (fun v => embeds_utcoffset (v_created_at v) = true) (record_versions db)
  /\ Forall (fun e => embeds_utcoffset (overridden_at e) = true) (override_events db).

(** The record id the editor works on: [options[selected_label]] for the
    entry of the selection box at position [selected]. *)
Definition selected_record_id (records : list Record_) (selected : nat) : string :=
  let options := app.record_options records in
  let selected_label :=
    nth selected (map fst options) (hd "" (map fst options)) in
  match lookup selected_label options with Some i => i | None => "" end.

(* ===================================================================== *)
(** ** The worked scenario, continued                                     *)
(* ===================================================================== *)

Definition no_comment : Comment := mkComment "" "" None "" "" "" "" "".

(** The current version of a record, as [get_current_version] returns it. *)
Definition current_of (record_id : string) (db : Store) : RecordVersion :=
  match returned None (repository.get_current_version record_id db) with
  | Some v => v
  | None => no_version
  end.

(** The three records, with the version of the first renumbered to the
    largest integer SQLite stores. *)
Definition full_counter_db : Store :=
  set_record_versions
    (map (fun v =>
            if String.eqb (v_id v) "ver-1" then
              mkRecordVersion (v_id v) (v_record_id v) 9223372036854775807
                              (content v) (v_created_by v) (created_by_name v)
                              (v_created_at v) (version_type v)
                              (parent_version_id v)
            else v))
    three_records_db.

(** The admin's change of the capability groups of the first record, logged
    directly. *)
Definition capability_override : list (string * pyval * pyval) :=
  [ ("ai_metadata.capability_groups",
     PyList [PyStr "Fraud Detection"],
     PyList [PyStr "Fraud Detection"; PyStr "NLP"]) ].

Definition logged_override : result unit * Store :=
  repository.log_override_events (env_at ["ev-1"; "ev-2"] 1700000501000000)
    "rec-1" "ver-1" capability_override admin_y three_records_db.


(** The admin changes title and status of the oldest record and leaves the
    tag fields as the editor filled them. *)
Definition retitle : app.EditForm :=
  app.mkEditForm "  Fraud Detection in Claims " "Detect suspicious benefit claims using AI."
                 "Flag high-risk claims for review."
                 "Risk & Governance" "Fraud Detection" app.submitted.

Definition admin_retitle : result app.page * Store :=
  app.show_editor (env_at ["ver-8"] 1700000500000000)
                  (env_at ["ev-1"; "ev-2"] 1700000501000000)
                  admin_y 2 retitle three_records_db.

(** The form of the tab "Create New", filled in. *)
Definition new_use_case : CreateForm :=
  mkCreateForm "  Chatbot " "Answer routine questions." "A chat assistant."
               "Service Delivery, , NLP " "" app.draft.

Definition created_record (out : result create_page * Store) : Record_ :=
  match fst out with
  | Ok (Created r) => r
  | _ => no_record
  end.

(** The auditor creates the use case as a draft. *)
Definition auditor_create : result create_page * Store :=
  show_editor_create (env_at ["rec-4"; "ver-4"] 1700000600000000)
                     auditor new_use_case three_records_db.

Definition posted (out : result (comment_page * option string) * Store) : Comment :=
  match fst out with
  | Ok (CommentPosted c, _) => c
  | _ => no_comment
  end.

(** The admin comments on the newest record, which is the admin's own. *)
Definition admin_post : result (comment_page * option string) * Store :=
  show_editor_comments (env_at ["com-1"] 1700000700000000) admin_y 0 None
                       (PressPost "  Needs a privacy review. ") three_records_db.

(** The admin presses "Edit" on that comment, and then user X is chosen in
    the sidebar; with the session entry still set, X presses "Save changes"
    while working on a record of X. *)
Definition user_overwrite : result (comment_page * option string) * Store :=
  show_editor_comments (env_at [] 1700000820000000) user_x 0 (Some "com-1")
                       (PressSaveChanges "Approved.") (snd admin_post).

(** User X creates a second draft titled like the first record. *)
Definition twin_records_db : Store :=
  run_calls
    (three_records
     ++ [ CreateRecord (env_at ["rec-4"; "ver-4"] 1700000600000000)
            "Fraud Detection" "ai_use_case" (content_of [] []) user_x "draft" ])%list
    empty_db.

Definition twin_records : list Record_ :=
  returned [] (repository.list_records_for_user user_x twin_records_db).

(* ===================================================================== *)
(** * Properties                                                          *)
(* ===================================================================== *)

(** ** Sorting *)

Section OrderByFacts.
Context {A : Type} (le : A -> A -> bool).

Let R (x y : A) : Prop := le x y = true.

Lemma insert_row_perm (x : A) (l : list A) :
  Permutation (insert_row le x l) (x :: l).
Proof.
  induction l as [|y l IH]; simpl.
  - apply Permutation_refl.
  - destruct (le x y).
    + apply Permutation_refl.
    + apply perm_trans with (y :: x :: l).
      * apply perm_skip, IH.
      * apply perm_swap.
Qed.

Lemma order_by_perm (l : list A) : Permutation (order_by le l) l.
Proof.
  induction l as [|x l IH]; simpl.
  - apply perm_nil.
  - apply perm_trans with (x :: order_by le l).
    + apply insert_row_perm.
    + apply perm_skip, IH.
Qed.

Lemma order_by_of_sorted (l : list A) :
  Sorted R l -> order_by le l = l.
Proof.
  induction 1 as [|x l Hs IH Hhd]; simpl.
  - reflexivity.
  - fold (order_by le l). rewrite IH.
    destruct Hhd as [|y l' Hxy]; simpl.
    + reflexivity.
    + unfold R in Hxy. rewrite Hxy. reflexivity.
Qed.

Hypothesis le_total : forall x y, le x y = true \/ le y x = true.

Lemma insert_row_sorted (x : A) (l : list A) :
  Sorted R l -> Sorted R (insert_row le x l).
Proof.
  induction 1 as [|y l Hs IH Hhd]; simpl.
  - repeat constructor.
  - destruct (le x y) eqn:Hxy.
    + constructor.
      * constructor; assumption.
      * constructor. exact Hxy.
    + constructor.
      * exact IH.
      * assert (Hyx : R y x)
          by (destruct (le_total x y) as [H|H]; [congruence | exact H]).
        destruct Hhd as [|z l' Hyz]; simpl.
        -- constructor. exact Hyx.
        -- destruct (le x z); constructor; assumption.
Qed.

Lemma order_by_sorted (l : list A) : Sorted R (order_by le l).
Proof.
  induction l as [|x l IH]; simpl.
  - constructor.
  - apply insert_row_sorted, IH.
Qed.
End OrderByFacts.

(** ** Equality of Python values *)

Lemma lookup_absent {A : Type} (k : string) (v : A) (d : list (string * A)) :
  lookup k d = None -> ~ In (k, v) d.
Proof.
  induction d as [|[k' v'] d IH]; simpl; intros Hl Hin.
  - exact Hin.
  - destruct (String.eqb_spec k k') as [->|Hne].
    + discriminate.
    + destruct Hin as [Heq|Hin].
      * inversion Heq. congruence.
      * exact (IH Hl Hin).
Qed.

Lemma lookup_distinct {A : Type} (k : string) (v : A) (d : list (string * A)) :
  distinct_keys d = true -> In (k, v) d -> lookup k d = Some v.
Proof.
  induction d as [|[k' v'] d IH]; simpl; intros Hd Hin.
  - destruct Hin.
  - apply andb_true_iff in Hd. destruct Hd as [Hfresh Hd].
    destruct Hin as [Heq|Hin].
    + inversion Heq. subst. rewrite String.eqb_refl. reflexivity.
    + destruct (String.eqb_spec k k') as [->|Hne].
      * destruct (lookup k' d) eqn:Hl; [discriminate|].
        exfalso. exact (lookup_absent _ _ _ Hl Hin).
      * exact (IH Hd Hin).
Qed.

Lemma py_eq_refl (v : pyval) : wf_pyval v = true -> py_eq v v = true.
Proof.
  induction v as [| b | n | s | l IH | d IH] using pyval_nested_ind;
    simpl; intros Hwf.
  - reflexivity.
  - apply Bool.eqb_reflx.
  - apply Z.eqb_refl.
  - apply String.eqb_refl.
  - induction IH as [|x l Hx _ IHl]; simpl in *.
    + reflexivity.
    + apply andb_true_iff in Hwf. destruct Hwf as [Hwx Hwl].
      rewrite (Hx Hwx), (IHl Hwl). reflexivity.
  - apply andb_true_iff in Hwf. destruct Hwf as [Hkeys Hvals].
    unfold dict_eq. rewrite Nat.eqb_refl. simpl.
    apply forallb_forall. intros [k w] Hin. simpl.
    rewrite (lookup_distinct _ _ _ Hkeys Hin).
    rewrite Forall_forall in IH. apply (IH (k, w) Hin).
    rewrite forallb_forall in Hvals. exact (Hvals (k, w) Hin).
Qed.

(** ** The diff engine *)

Lemma lookup_in {A : Type} (k : string) (v : A) (d : list (string * A)) :
  lookup k d = Some v -> In (k, v) d.
Proof.
  induction d as [|[k' v'] d IH]; simpl; intros Hl.
  - discriminate.
  - destruct (String.eqb_spec k k') as [->|Hne].
    + inversion Hl. left. reflexivity.
    + right. exact (IH Hl).
Qed.

Lemma wf_tracked_value (m : pydict) (k : string) :
  wf_pyval (PyDict m) = true ->
  wf_pyval (py_or (dict_get m k (PyList [])) (PyList [])) = true.
Proof.
  intros Hwf. simpl in Hwf. apply andb_true_iff in Hwf. destruct Hwf as [_ Hvals].
  unfold py_or, dict_get.
  destruct (lookup k m) as [v|] eqn:Hl; [|reflexivity].
  destruct (truthy v); [|reflexivity].
  rewrite forallb_forall in Hvals.
  exact (Hvals (k, v) (lookup_in _ _ _ Hl)).
Qed.

Lemma dict_get_absent_key (d : pydict) (k k' : string) :
  lookup k d = None ->
  dict_get (d ++ [(k, PyList [])])%list k' (PyList []) = dict_get d k' (PyList []).
Proof.
  unfold dict_get. induction d as [|[k0 v0] d IH]; simpl; intros Hl.
  - destruct (String.eqb k' k); reflexivity.
  - destruct (String.eqb_spec k k0) as [->|Hne]; [discriminate|].
    destruct (String.eqb k' k0); [reflexivity|].
    exact (IH Hl).
Qed.

(** C5. The diff engine is a total function of two optional metadata
    documents: it has no error result, an absent document is read as the
    empty one and a missing key as the empty list.  Diffing a well-formed
    document against itself gives the empty list, and diffing
    [{framework_tags: ["A"]}] against [{framework_tags: ["A", "B"]}] gives
    the single triple for [ai_metadata.framework_tags]. *)
Theorem diff_ai_metadata_self_and_example :
  (forall m : pydict,
      wf_pyval (PyDict m) = true ->
      app.diff_ai_metadata (Some m) (Some m) = [])
  /\ app.diff_ai_metadata None None = []
  /\ app.diff_ai_metadata
       (Some [("framework_tags", PyList [PyStr "A"])])
       (Some [("framework_tags", PyList [PyStr "A"; PyStr "B"])])
     = [("ai_metadata.framework_tags",
         PyList [PyStr "A"], PyList [PyStr "A"; PyStr "B"])]
  /\ (forall other : option pydict,
        app.diff_ai_metadata None other = app.diff_ai_metadata (Some []) other
        /\ app.diff_ai_metadata other None = app.diff_ai_metadata other (Some []))
  /\ (forall (d : pydict) (k : string) (other : option pydict),
        lookup k d = None ->
        app.diff_ai_metadata (Some (d ++ [(k, PyList [])])%list) other
          = app.diff_ai_metadata (Some d) other
        /\ app.diff_ai_metadata other (Some (d ++ [(k, PyList [])])%list)
          = app.diff_ai_metadata other (Some d)).
Proof.
  split; [|split; [|split; [|split]]].
  - intros m Hwf. unfold app.diff_ai_metadata, py_ne.
    rewrite (py_eq_refl _ (wf_tracked_value m "framework_tags" Hwf)).
    rewrite (py_eq_refl _ (wf_tracked_value m "capability_groups" Hwf)).
    reflexivity.
  - reflexivity.
  - reflexivity.
  - intros other. split; reflexivity.
  - intros d k other Hl. unfold app.diff_ai_metadata.
    rewrite !(dict_get_absent_key d k _ Hl). split; reflexivity.
Qed.

Lemma diff_ai_metadata_self_and_example_witness :
  app.diff_ai_metadata
    (Some [("framework_tags", PyList [PyStr "B"; PyStr "A"]);
           ("capability_groups", PyNone)])
    (Some [("framework_tags", PyList [PyStr "B"; PyStr "A"]);
           ("capability_groups", PyNone)]) = [].
Proof.
  apply (proj1 diff_ai_metadata_self_and_example). reflexivity.
Defined.

(** ** The repository operations in closed form *)

Lemma create_new_version_eq
    (env : Env) (record_id new_title : string) (content : pydict)
    (user : User) (version_type : string) (new_status : option string)
    (db : Store) :
  repository.create_new_version
    env record_id new_title content user version_type new_status db
  = match find (repository.has_id record_id) (records db) with
    | None => (Raise (not_found record_id), db)
    | Some rec_row =>
        let v := new_version_row env record_id content user version_type db rec_row in
        if sqlite_integer (version_number v) then
          if existsb (fun x => String.eqb (v_id x) (v_id v)) (record_versions db)
          then (Raise (IntegrityError "UNIQUE constraint failed: record_versions.id"), db)
          else (Ok v,
                mkStore
                  (map (repoint record_id (v_id v)
                                (final_status_of new_status rec_row) new_title)
                       (records db))
                  (record_versions db ++ [v])%list
                  (comments db) (override_events db))
        else (Raise OverflowError, db)
    end.
Proof.
  unfold repository.create_new_version, with_connection, bind, select. simpl.
  destruct (find (repository.has_id record_id) (records db)) as [rec_row|];
    [|reflexivity].
  unfold bind_integer, insert_record_version, insert_into, new_version_row. simpl.
  assert (Hmax : (if repository.max_version_number record_id db =? 0 then 0
                  else repository.max_version_number record_id db)
                 = repository.max_version_number record_id db).
  { destruct (Z.eqb_spec (repository.max_version_number record_id db) 0) as [H|H];
      [symmetry; exact H | reflexivity]. }
  rewrite Hmax.
  destruct (sqlite_integer (repository.max_version_number record_id db + 1));
    [|reflexivity].
  simpl.
  destruct (existsb _ (record_versions db)); reflexivity.
Qed.

Lemma get_record_by_id_eq (record_id : string) (db : Store) :
  repository.get_record_by_id record_id db
  = (Ok (find (repository.has_id record_id) (records db)), db).
Proof. reflexivity. Qed.

Lemma get_current_version_eq (record_id : string) (db : Store) :
  repository.get_current_version record_id db
  = (Ok match find (repository.has_id record_id) (records db) with
        | None => None
        | Some r =>
            match current_version_id r with
            | None => None
            | Some version_id =>
                find (fun v => String.eqb (v_id v) version_id) (record_versions db)
            end
        end, db).
Proof.
  unfold repository.get_current_version, with_connection, bind, select. simpl.
  destruct (find (repository.has_id record_id) (records db)) as [r|];
    [|reflexivity].
  destruct (current_version_id r); reflexivity.
Qed.

Lemma has_id_repoint (record_id version_id final_status new_title id : string)
    (r : Record_) :
  repository.has_id id (repoint record_id version_id final_status new_title r)
  = repository.has_id id r.
Proof.
  unfold repoint. destruct (repository.has_id record_id r); reflexivity.
Qed.

Lemma find_repoint (record_id version_id final_status new_title : string)
    (l : list Record_) (r : Record_) :
  find (repository.has_id record_id) l = Some r ->
  find (repository.has_id record_id)
       (map (repoint record_id version_id final_status new_title) l)
  = Some (mkRecord (r_id r) new_title (record_type r) (Some version_id)
                   (r_created_by r) (r_created_at r) final_status).
Proof.
  induction l as [|x l IH]; simpl; intros Hf.
  - discriminate.
  - rewrite has_id_repoint.
    destruct (repository.has_id record_id x) eqn:Hx.
    + inversion Hf. subst x. unfold repoint. rewrite Hx. reflexivity.
    + exact (IH Hf).
Qed.

Lemma repoint_frame (record_id version_id final_status new_title : string)
    (l : list Record_) :
  Forall2 (fun r r' =>
             r_id r' = r_id r
             /\ record_type r' = record_type r
             /\ r_created_by r' = r_created_by r
             /\ r_created_at r' = r_created_at r
             /\ (r_id r <> record_id -> r' = r))
          l (map (repoint record_id version_id final_status new_title) l).
Proof.
  induction l as [|x l IH]; simpl; constructor; [|exact IH].
  unfold repoint, repository.has_id.
  destruct (String.eqb_spec (r_id x) record_id) as [Heq|Hne]; simpl.
  - repeat split. intros Hc. contradiction.
  - repeat split.
Qed.

Lemma find_fresh_last {A : Type} (p : A -> bool) (l : list A) (x : A) :
  existsb p l = false -> p x = true -> find p (l ++ [x]) = Some x.
Proof.
  induction l as [|y l IH]; simpl; intros He Hp.
  - rewrite Hp. reflexivity.
  - apply orb_false_iff in He. destruct He as [Hy He].
    rewrite Hy. exact (IH He Hp).
Qed.

(** ** Creating a version *)

(** C6. A record id that identifies no record makes [create_new_version]
    raise the not-found error and leaves the whole database as it was. *)
Theorem create_new_version_not_found
    (env : Env) (record_id new_title : string) (content : pydict)
    (user : User) (version_type : string) (new_status : option string)
    (db : Store) :
  repository.get_record_by_id record_id db = (Ok None, db) ->
  repository.create_new_version
    env record_id new_title content user version_type new_status db
  = (Raise (ValueError ("Record with id " ++ record_id ++ " not found")), db).
Proof.
  rewrite get_record_by_id_eq, create_new_version_eq. intros H.
  inversion H as [Hfind]. rewrite Hfind. reflexivity.
Qed.

(** C3. After a successful [create_new_version] the current version of the
    record is the version just created, the record carries the title passed
    in and the status passed in (its previous status when none was passed),
    and the parent of the new version is the version the record pointed to
    when the call was made. *)
Theorem create_new_version_pointer
    (env : Env) (record_id new_title : string) (content : pydict)
    (user : User) (version_type : string) (new_status : option string)
    (db db' : Store) (v : RecordVersion) :
  repository.create_new_version
    env record_id new_title content user version_type new_status db
  = (Ok v, db') ->
  repository.get_current_version record_id db' = (Ok (Some v), db')
  /\ exists r r' : Record_,
       repository.get_record_by_id record_id db = (Ok (Some r), db)
       /\ repository.get_record_by_id record_id db' = (Ok (Some r'), db')
       /\ title r' = new_title
       /\ status r' = match new_status with Some s => s | None => status r end
       /\ current_version_id r' = Some (v_id v)
       /\ parent_version_id v = current_version_id r.
Proof.
  rewrite create_new_version_eq.
  destruct (find (repository.has_id record_id) (records db)) as [r|] eqn:Hfind;
    [|discriminate].
  cbv zeta.
  destruct (sqlite_integer _); [|discriminate].
  destruct (existsb _ (record_versions db)) eqn:Hfresh; [discriminate|].
  intros H. inversion H as [[Hv Hdb]]. clear H.
  set (v0 := new_version_row env record_id content user version_type db r) in *.
  split.
  - rewrite get_current_version_eq. simpl.
    rewrite (find_repoint _ _ _ _ _ _ Hfind). simpl.
    change (uuid4 env 0%nat) with (v_id v0).
    rewrite (find_fresh_last _ _ _ Hfresh (String.eqb_refl _)). reflexivity.
  - exists r. eexists. rewrite !get_record_by_id_eq. simpl.
    rewrite (find_repoint _ _ _ _ _ _ Hfind), Hfind.
    repeat split; reflexivity.
Qed.

(** C10. A successful [create_new_version] changes, in the row of the
    record, only the current version pointer, the status and the title;
    every other record row is as before, every version row that existed is
    as before (the new row is added after them), and the comments and the
    override events are untouched. *)
Theorem create_new_version_frame
    (env : Env) (record_id new_title : string) (content : pydict)
    (user : User) (version_type : string) (new_status : option string)
    (db db' : Store) (v : RecordVersion) :
  repository.create_new_version
    env record_id new_title content user version_type new_status db
  = (Ok v, db') ->
  Forall2 (fun r r' =>
             r_id r' = r_id r
             /\ record_type r' = record_type r
             /\ r_created_by r' = r_created_by r
             /\ r_created_at r' = r_created_at r
             /\ (r_id r <> record_id -> r' = r))
          (records db) (records db')
  /\ record_versions db' = (record_versions db ++ [v])%list
  /\ comments db' = comments db
  /\ override_events db' = override_events db.
Proof.
  rewrite create_new_version_eq.
  destruct (find (repository.has_id record_id) (records db)) as [r|];
    [|discriminate].
  cbv zeta.
  destruct (sqlite_integer _); [|discriminate].
  destruct (existsb _ (record_versions db)); [discriminate|].
  intros H. inversion H as [[Hv Hdb]]. clear H. simpl.
  repeat split.
  apply repoint_frame.
Qed.

Lemma create_new_version_not_found_witness :
  repository.create_new_version
    (env_at ["ver-9"] 1700000300000000) "rec-0" "Nothing" [] user_x "edit" None
    three_records_db
  = (Raise (ValueError "Record with id rec-0 not found"), three_records_db).
Proof.
  apply (create_new_version_not_found
           (env_at ["ver-9"] 1700000300000000) "rec-0" "Nothing" [] user_x
           "edit" None three_records_db).
  reflexivity.
Defined.

Lemma create_new_version_pointer_witness :
  repository.get_current_version "rec-1" (snd third_revision)
  = (Ok (Some (returned no_version third_revision)), snd third_revision).
Proof.
  apply (create_new_version_pointer
           (env_at ["ver-6"] 1700000300000000) "rec-1" "Fraud Detection v4"
           (content_of [] ["NLP"]) user_x "edit" None revised_db
           (snd third_revision) (returned no_version third_revision)).
  reflexivity.
Defined.

Lemma create_new_version_frame_witness :
  record_versions (snd third_revision)
  = (record_versions revised_db ++ [returned no_version third_revision])%list.
Proof.
  apply (create_new_version_frame
           (env_at ["ver-6"] 1700000300000000) "rec-1" "Fraud Detection v4"
           (content_of [] ["NLP"]) user_x "edit" None revised_db
           (snd third_revision) (returned no_version third_revision)).
  reflexivity.
Defined.

(** ** Creating a record *)

Lemma create_record_with_initial_version_eq
    (env : Env) (title record_type : string) (content : pydict)
    (user : User) (status : string) (db : Store) :
  repository.create_record_with_initial_version
    env title record_type content user status db
  = let r := initial_record_row env title record_type user status in
    let v := initial_version_row env content user in
    if existsb (repository.has_id (r_id r)) (records db)
    then (Raise (IntegrityError "UNIQUE constraint failed: records.id"), db)
    else if existsb (fun x => String.eqb (v_id x) (v_id v)) (record_versions db)
    then (Raise (IntegrityError "UNIQUE constraint failed: record_versions.id"), db)
    else (Ok r,
          mkStore (records db ++ [r])%list (record_versions db ++ [v])%list
                  (comments db) (override_events db)).
Proof.
  unfold repository.create_record_with_initial_version, with_connection, bind,
    insert_record, insert_record_version, insert_into. simpl.
  change (fun r : Record_ => String.eqb (r_id r) (uuid4 env 0%nat))
    with (repository.has_id (uuid4 env 0%nat)).
  destruct (existsb (repository.has_id (uuid4 env 0%nat)) (records db));
    [reflexivity|]. simpl.
  destruct (existsb _ (record_versions db)); reflexivity.
Qed.

(** C7. [create_record_with_initial_version] either adds the record row and
    the row of its first version together, or raises and leaves the database
    as it was.  The record returned points at that version, which has
    number 1, no parent and type "draft" whatever status was requested; the
    requested status is the status of the record.  The call succeeds when
    the two fresh identifiers are not in use. *)
Theorem create_record_with_initial_version_atomic
    (env : Env) (title_arg record_type_arg : string) (content_arg : pydict)
    (user : User) (status_arg : string) (db : Store) :
  let out := repository.create_record_with_initial_version
               env title_arg record_type_arg content_arg user status_arg db in
  ((exists (r : Record_) (v : RecordVersion),
       out = (Ok r, mkStore (records db ++ [r])%list
                            (record_versions db ++ [v])%list
                            (comments db) (override_events db))
       /\ current_version_id r = Some (v_id v)
       /\ repository.get_current_version (r_id r) (snd out) = (Ok (Some v), snd out)
       /\ v_record_id v = r_id r
       /\ version_number v = 1
       /\ parent_version_id v = None
       /\ version_type v = "draft"
       /\ content v = content_arg
       /\ status r = status_arg
       /\ title r = title_arg
       /\ record_type r = record_type_arg
       /\ r_created_by r = u_id user)
   \/ (exists e : exn, out = (Raise e, db)))
  /\ (existsb (repository.has_id (uuid4 env 0%nat)) (records db) = false ->
      existsb (fun x => String.eqb (v_id x) (uuid4 env 1%nat)) (record_versions db)
        = false ->
      exists (r : Record_) (db' : Store), out = (Ok r, db')).
Proof.
  intros out. subst out. rewrite create_record_with_initial_version_eq.
  cbv zeta. simpl r_id. simpl v_id.
  destruct (existsb (repository.has_id (uuid4 env 0%nat)) (records db)) eqn:Hr.
  { split; [right; eexists; reflexivity | discriminate]. }
  destruct (existsb _ (record_versions db)) eqn:Hv.
  { split; [right; eexists; reflexivity | intros _ Hc; discriminate]. }
  split; [left | intros _ _; eexists; eexists; reflexivity].
  exists (initial_record_row env title_arg record_type_arg user status_arg),
         (initial_version_row env content_arg user).
  repeat split.
  rewrite get_current_version_eq. simpl.
  pose proof (find_fresh_last
                (repository.has_id (uuid4 env 0%nat)) (records db)
                (initial_record_row env title_arg record_type_arg user status_arg)
                Hr (String.eqb_refl _)) as Hfr.
  pose proof (find_fresh_last
                (fun x => String.eqb (v_id x) (uuid4 env 1%nat)) (record_versions db)
                (initial_version_row env content_arg user)
                Hv (String.eqb_refl _)) as Hfv.
  rewrite Hfr. simpl. rewrite Hfv. reflexivity.
Qed.

Lemma create_record_with_initial_version_atomic_witness :
  exists (r : Record_) (db' : Store),
    repository.create_record_with_initial_version
      (env_at ["rec-4"; "ver-7"] 1700000400000000) "Chatbot" "ai_use_case"
      (content_of [] []) user_x "submitted" revised_db
    = (Ok r, db').
Proof.
  apply (proj2 (create_record_with_initial_version_atomic
                  (env_at ["rec-4"; "ver-7"] 1700000400000000) "Chatbot"
                  "ai_use_case" (content_of [] []) user_x "submitted"
                  revised_db)); reflexivity.
Defined.

(** ** Visibility *)

Lemma string_compare_OT (a b : string) :
  String.compare a b = String_as_OT.compare a b.
Proof.
  reflexivity.
Qed.

Lemma string_leb_lt (a b : string) :
  String.leb a b = true <-> a = b \/ String_as_OT.lt a b.
Proof.
  unfold String.leb. rewrite string_compare_OT.
  destruct (String_as_OT.compare_spec a b) as [Heq|Hlt|Hgt]; split; intros H;
    try reflexivity; try discriminate.
  - left. exact Heq.
  - right. exact Hlt.
  - exfalso. destruct H as [Heq|Hlt].
    + subst b. exact (irreflexivity (R := String_as_OT.lt) Hgt).
    + apply (irreflexivity (R := String_as_OT.lt) (x := a)).
      exact (transitivity Hlt Hgt).
Qed.

Lemma string_leb_trans (a b c : string) :
  String.leb a b = true -> String.leb b c = true -> String.leb a c = true.
Proof.
  rewrite !string_leb_lt. intros [->|Hab] [->|Hbc].
  - left. reflexivity.
  - right. exact Hbc.
  - right. exact Hab.
  - right. exact (transitivity Hab Hbc).
Qed.

Lemma created_at_desc_total (r1 r2 : Record_) :
  created_at_desc r1 r2 = true \/ created_at_desc r2 r1 = true.
Proof.
  unfold created_at_desc.
  destruct (String.leb_total (r_created_at r1) (r_created_at r2)) as [H|H];
    [right | left]; exact H.
Qed.

Lemma newest_first_order_by (l : list Record_) :
  StronglySorted newest_first (order_by created_at_desc l).
Proof.
  apply Sorted_StronglySorted.
  - intros r1 r2 r3 H12 H23. unfold newest_first in *.
    exact (string_leb_trans _ _ _ H23 H12).
  - exact (order_by_sorted created_at_desc created_at_desc_total l).
Qed.

Lemma list_records_for_user_eq (user : User) (db : Store) :
  repository.list_records_for_user user db
  = (Ok (order_by created_at_desc
           (if roles.is_admin user then records db
            else if roles.is_user user then filter (authored_by user) (records db)
            else filter not_draft (records db))),
     db).
Proof.
  unfold repository.list_records_for_user, with_connection, bind.
  destruct (roles.is_admin user); [reflexivity|].
  destruct (roles.is_user user); reflexivity.
Qed.

(** The part of the visibility filter that holds on every database:
    [list_records_for_user] returns all the records for an admin, exactly the
    records the user created for a plain user, and exactly the records that
    are not drafts for a viewer, sorted on the stored text of the creation
    timestamp, greatest text first. *)
Lemma list_records_for_user_visibility (user : User) (db : Store) :
  exists l : list Record_,
    repository.list_records_for_user user db = (Ok l, db)
    /\ StronglySorted newest_first l
    /\ (role user = "admin" -> Permutation l (records db))
    /\ (role user = "user" ->
        Permutation l (filter (authored_by user) (records db)))
    /\ (role user = "viewer" ->
        Permutation l (filter not_draft (records db))).
Proof.
  eexists. split; [apply list_records_for_user_eq|].
  split; [apply newest_first_order_by|].
  unfold roles.is_admin, roles.is_user, roles.ADMIN, roles.USER.
  repeat split; intros Hrole; rewrite Hrole; simpl; apply order_by_perm.
Qed.

Lemma list_records_for_user_visibility_witness :
  exists l : list Record_,
    repository.list_records_for_user viewer_z three_records_db
      = (Ok l, three_records_db)
    /\ Permutation l (filter not_draft (records three_records_db)).
Proof.
  destruct (list_records_for_user_visibility viewer_z three_records_db)
    as [l [Hl [_ [_ [_ Hviewer]]]]].
  exists l. split; [exact Hl | apply Hviewer; reflexivity].
Defined.

(** C4, which [list_records_for_user] breaks in the hour that is repeated
    when daylight saving time ends.  The filter is as claimed on every
    database: all the records for an admin, exactly the records the user
    created for a plain user, exactly the records that are not drafts for a
    viewer.  The order, however, is [ORDER BY created_at DESC] on the stored
    text, which is local time followed by its offset, and not the order of
    the instants of creation.  On 2024-11-03 the record [rec-a] is created
    at 05:30 UTC (01:30 at UTC-4) and the record [rec-b] forty minutes
    later, at 06:10 UTC (01:10 at UTC-5): the admin is shown [rec-a] first
    and [rec-b], the newest, after it. *)
Theorem list_records_for_user_order_in_repeated_hour :
  (forall (user : User) (db : Store),
      exists l : list Record_,
        repository.list_records_for_user user db = (Ok l, db)
        /\ StronglySorted newest_first l
        /\ (role user = "admin" -> Permutation l (records db))
        /\ (role user = "user" ->
            Permutation l (filter (authored_by user) (records db)))
        /\ (role user = "viewer" ->
            Permutation l (filter not_draft (records db))))
  /\ (let db := run_calls repeated_hour_records empty_db in
      let listed := returned [] (repository.list_records_for_user admin_y db) in
      map (fun c => option_map clock_us (call_env c)) repeated_hour_records
      = [Some 1730611800000000; Some 1730614200000000]
      /\ map r_id (records db) = ["rec-a"; "rec-b"]
      /\ map (fun r => (r_id r, r_created_at r)) listed
         = [ ("rec-a", "2024-11-03T01:30:00-04:00");
             ("rec-b", "2024-11-03T01:10:00-05:00") ]
      /\ map r_id listed <> rev (map r_id (records db))).
Proof.
  split.
  - intros user db.
    eexists. split; [apply list_records_for_user_eq|].
    split; [apply newest_first_order_by|].
    unfold roles.is_admin, roles.is_user, roles.ADMIN, roles.USER.
    repeat split; intros Hrole; rewrite Hrole; simpl; apply order_by_perm.
  - cbv zeta. split; [vm_compute; reflexivity|].
    split; [vm_compute; reflexivity|].
    split; [vm_compute; reflexivity|].
    vm_compute. discriminate.
Qed.

(** The scenario of three records: the viewer sees the two submitted
    records, user X the two records X created, the admin all three, each
    list newest first. *)
Example visibility_of_three_records :
  map r_id (returned [] (repository.list_records_for_user viewer_z three_records_db))
    = ["rec-3"; "rec-2"]
  /\ map r_id (returned [] (repository.list_records_for_user user_x three_records_db))
    = ["rec-2"; "rec-1"]
  /\ map r_id (returned [] (repository.list_records_for_user admin_y three_records_db))
    = ["rec-3"; "rec-2"; "rec-1"].
Proof. repeat split; vm_compute; reflexivity. Qed.

(** C9. A user whose role is neither "admin" nor "user", documented or not,
    is served by the viewer branch: the records listed are exactly those
    whose status is not "draft", so no draft is ever listed, whoever
    created it. *)
Theorem list_records_for_user_other_roles (user : User) (db : Store) :
  role user <> "admin" ->
  role user <> "user" ->
  exists l : list Record_,
    repository.list_records_for_user user db = (Ok l, db)
    /\ StronglySorted newest_first l
    /\ Permutation l (filter not_draft (records db))
    /\ (forall r : Record_,
          In r l <-> In r (records db) /\ status r <> "draft").
Proof.
  intros Hadmin Huser.
  eexists. split; [apply list_records_for_user_eq|].
  split; [apply newest_first_order_by|].
  unfold roles.is_admin, roles.is_user, roles.ADMIN, roles.USER.
  destruct (String.eqb_spec (role user) "admin") as [H|_]; [contradiction|].
  destruct (String.eqb_spec (role user) "user") as [H|_]; [contradiction|].
  split; [apply order_by_perm|].
  intros r. split.
  - intros Hin.
    apply (Permutation_in _ (order_by_perm created_at_desc _)) in Hin.
    apply filter_In in Hin. destruct Hin as [Hin Hnd]. split; [exact Hin|].
    unfold not_draft in Hnd. intros Hc. rewrite Hc in Hnd. discriminate.
  - intros [Hin Hnd].
    apply (Permutation_in _ (Permutation_sym (order_by_perm created_at_desc _))).
    apply filter_In. split; [exact Hin|].
    unfold not_draft. destruct (String.eqb_spec (status r) "draft"); [contradiction|reflexivity].
Qed.

Lemma list_records_for_user_other_roles_witness :
  exists l : list Record_,
    repository.list_records_for_user auditor three_records_db
      = (Ok l, three_records_db)
    /\ Permutation l (filter not_draft (records three_records_db)).
Proof.
  destruct (list_records_for_user_other_roles auditor three_records_db)
    as [l [Hl [_ [Hperm _]]]].
  - apply String.eqb_neq. reflexivity.
  - apply String.eqb_neq. reflexivity.
  - exists l. split; [exact Hl | exact Hperm].
Defined.

(** ** The override ledger and the save path of the editor *)

Lemma bind_ok {S A B : Type} (m : M S A) (k : A -> M S B) (s s' : S) (b : B) :
  bind m k s = (Ok b, s') ->
  exists (a : A) (s1 : S), m s = (Ok a, s1) /\ k a s1 = (Ok b, s').
Proof.
  unfold bind. destruct (m s) as [[a|e] s1]; intros H.
  - exists a, s1. split; [reflexivity | exact H].
  - discriminate.
Qed.

Lemma insert_override_events_ok
    (env : Env) (record_id version_id : string) (user : User) (now : string)
    (overrides : list (string * pyval * pyval)) :
  forall (i : nat) (c c' : Connection),
    repository.insert_override_events
      env record_id version_id user now i overrides c = (Ok tt, c') ->
    committed c' = committed c
    /\ view c'
       = set_override_events
           (fun t => (t ++ override_event_rows env record_id version_id user
                                               now i overrides)%list)
           (view c).
Proof.
  induction overrides as [|[[fp ov] nv] rest IH]; intros i c c' H; simpl in H.
  - inversion H. subst c'. split; [reflexivity|].
    unfold set_override_events. simpl. rewrite app_nil_r.
    destruct (view c); reflexivity.
  - apply bind_ok in H. destruct H as [[] [c1 [Hins Hrest]]].
    unfold insert_override_event, insert_into in Hins.
    destruct (existsb _ (override_events (view c))); [discriminate|].
    inversion Hins. subst c1. clear Hins.
    apply IH in Hrest. destruct Hrest as [Hc Hv]. simpl in Hc, Hv.
    split; [exact Hc|]. rewrite Hv.
    unfold set_override_events. simpl. rewrite <- app_assoc. reflexivity.
Qed.

Lemma log_override_events_ok
    (env : Env) (record_id version_id : string)
    (overrides : list (string * pyval * pyval)) (user : User)
    (db db' : Store) :
  repository.log_override_events env record_id version_id overrides user db
  = (Ok tt, db') ->
  db' = set_override_events
          (fun t => (t ++ override_event_rows env record_id version_id user
                                              (now_toronto_iso env) 0 overrides)%list)
          db.
Proof.
  destruct overrides as [|o rest].
  - simpl. intros H. inversion H as [Hdb]. clear H. subst db'. destruct db.
    unfold set_override_events. simpl. rewrite app_nil_r. reflexivity.
  - unfold repository.log_override_events, with_connection.
    destruct (bind _ _ (get_connection db)) as [r c] eqn:Hbody.
    intros H. inversion H. subst r. clear H.
    apply bind_ok in Hbody. destruct Hbody as [[] [c1 [Hins Hrest]]].
    apply insert_override_events_ok in Hins. destruct Hins as [_ Hview].
    unfold bind, commit, close in Hrest. simpl in Hrest.
    inversion Hrest. simpl. exact Hview.
Qed.

Lemma override_event_rows_changes
    (env : Env) (record_id version_id : string) (user : User) (now : string)
    (overrides : list (string * pyval * pyval)) :
  forall i : nat,
    map change_of (override_event_rows env record_id version_id user now i overrides)
    = overrides.
Proof.
  induction overrides as [|[[fp ov] nv] rest IH]; intros i; simpl.
  - reflexivity.
  - rewrite IH. reflexivity.
Qed.

Lemma override_event_rows_attributed
    (env : Env) (record_id version_id : string) (user : User) (now : string)
    (overrides : list (string * pyval * pyval)) :
  forall i : nat,
    Forall (fun e => e_record_id e = record_id
                     /\ e_version_id e = version_id
                     /\ overridden_by e = u_id user
                     /\ overridden_at e = now)
           (override_event_rows env record_id version_id user now i overrides).
Proof.
  induction overrides as [|[[fp ov] nv] rest IH]; intros i; simpl; constructor.
  - repeat split.
  - apply IH.
Qed.

Lemma as_dict_ok {S : Type} (v : pyval) (d : pydict) (s s' : S) :
  app.as_dict v s = (Ok d, s') -> v = PyDict d /\ s' = s.
Proof.
  destruct v; simpl; intros H; try discriminate.
  inversion H. split; reflexivity.
Qed.

Lemma check_joinable_ok {S : Type} (v : pyval) (u : unit) (s s' : S) :
  app.check_joinable v s = (Ok u, s') -> s' = s.
Proof.
  destruct v as [| | | |l|]; simpl; intros H; try discriminate;
    try (inversion H; reflexivity).
  destruct (forallb app.is_str l); [inversion H; reflexivity | discriminate].
Qed.

Lemma create_new_version_ok
    (env : Env) (record_id new_title : string) (content : pydict)
    (user : User) (version_type_arg : string) (new_status : option string)
    (db db' : Store) (v : RecordVersion) :
  repository.create_new_version
    env record_id new_title content user version_type_arg new_status db
  = (Ok v, db') ->
  v_record_id v = record_id
  /\ version_type v = version_type_arg
  /\ version_number v = repository.max_version_number record_id db + 1
  /\ record_versions db' = (record_versions db ++ [v])%list
  /\ comments db' = comments db
  /\ override_events db' = override_events db.
Proof.
  rewrite create_new_version_eq.
  destruct (find (repository.has_id record_id) (records db)) as [r|];
    [|discriminate].
  cbv zeta.
  destruct (sqlite_integer _); [|discriminate].
  destruct (existsb _ (record_versions db)); [discriminate|].
  intros H. inversion H. subst. repeat split.
Qed.

(** C1. When a run of the editor saves a version, the diff of the tracked
    metadata is taken between the version that was current before the save
    and the metadata entered.  If the author is an admin and that diff is
    not empty, the saved version has type "override" and the save appends
    one override event per entry of the diff, in order, each for that
    version; so a change of [capability_groups] alone appends exactly one
    event.  If the author is not an admin, or the diff is empty, the saved
    version has type "edit" and no override event is added. *)
Theorem show_editor_override_gating
    (env_version env_overrides : Env) (user : User) (selected : nat)
    (form : app.EditForm) (db db' : Store) (v : RecordVersion) :
  app.show_editor env_version env_overrides user selected form db
  = (Ok (app.Saved v), db') ->
  exists (previous : RecordVersion) (old_meta : pydict),
    repository.get_current_version (v_record_id v) db = (Ok (Some previous), db)
    /\ app.existing_meta_of previous = PyDict old_meta
    /\ record_versions db' = (record_versions db ++ [v])%list
    /\ let overrides :=
         app.diff_ai_metadata (Some old_meta) (Some (app.new_meta_of form)) in
       (roles.is_admin user = true -> overrides <> [] ->
        version_type v = "override"
        /\ exists events : list OverrideEvent,
             override_events db' = (override_events db ++ events)%list
             /\ map change_of events = overrides
             /\ List.length events = List.length overrides
             /\ Forall (fun e => e_record_id e = v_record_id v
                                 /\ e_version_id e = v_id v
                                 /\ overridden_by e = u_id user
                                 /\ overridden_at e = now_toronto_iso env_overrides)
                       events)
       /\ (roles.is_admin user = false \/ overrides = [] ->
           version_type v = "edit"
           /\ override_events db' = override_events db).
Proof.
  unfold app.show_editor. intros H.
  destruct (roles.is_viewer user); [discriminate|].
  apply bind_ok in H. destruct H as [recs [s1 [Hlist H]]].
  rewrite list_records_for_user_eq in Hlist. inversion Hlist as [[Hrecs Hs1]].
  clear Hlist. subst s1.
  destruct recs as [|r0 recs']; [discriminate|].
  apply bind_ok in H. destruct H as [record [s2 [Hrec H]]].
  rewrite get_record_by_id_eq in Hrec. inversion Hrec as [[Hrecord Hs2]].
  clear Hrec. subst s2.
  destruct (find _ (records db)) as [rec_row|] eqn:Hfound; [|subst record; discriminate].
  subst record.
  apply bind_ok in H. destruct H as [current [s3 [Hcur H]]].
  assert (Hs3 : s3 = db)
    by (rewrite get_current_version_eq in Hcur; inversion Hcur; reflexivity).
  subst s3.
  destruct current as [previous|]; [|discriminate].
  apply bind_ok in H. destruct H as [old_meta [s4 [Hdict H]]].
  apply as_dict_ok in Hdict. destruct Hdict as [Hmeta Hs4]. subst s4.
  apply bind_ok in H. destruct H as [u1 [s5 [Hj1 H]]].
  apply check_joinable_ok in Hj1. subst s5.
  apply bind_ok in H. destruct H as [u2 [s6 [Hj2 H]]].
  apply check_joinable_ok in Hj2. subst s6.
  destruct (String.eqb (strip (app.title_input form)) ""); [discriminate|].
  apply bind_ok in H. destruct H as [new_version [s7 [Hcreate H]]].
  apply bind_ok in H. destruct H as [u3 [s8 [Hlog H]]].
  inversion H as [[Hv Hdb]]. clear H. subst new_version s8.
  apply create_new_version_ok in Hcreate.
  destruct Hcreate as [Hrid [Htype [_ [Hversions [_ Hevents]]]]].
  exists previous, old_meta.
  rewrite Hrid. split; [exact Hcur|]. split; [exact Hmeta|].
  set (overrides := app.diff_ai_metadata (Some old_meta) (Some (app.new_meta_of form))) in *.
  cbv zeta.
  destruct (roles.is_admin user) eqn:Hadmin; simpl in Htype;
    [destruct overrides as [|o rest] eqn:Hov; simpl in Htype|].
  - (* admin, empty diff *)
    simpl in Hlog. inversion Hlog. subst db'.
    split; [exact Hversions|]. split.
    + intros _ Hne. contradiction.
    + intros _. split; [exact Htype | exact Hevents].
  - (* admin, non-empty diff *)
    destruct u3.
    change (repository.log_override_events env_overrides (r_id rec_row)
              (v_id v) (o :: rest) user s7 = (Ok tt, db')) in Hlog.
    apply log_override_events_ok in Hlog. subst db'.
    unfold set_override_events. cbn [record_versions override_events].
    split; [exact Hversions|]. split.
    + intros _ _. split; [exact Htype|].
      eexists. split; [rewrite Hevents; reflexivity|].
      split; [apply override_event_rows_changes|].
      split.
      * rewrite <- (override_event_rows_changes env_overrides (r_id rec_row)
                       (v_id v) user (now_toronto_iso env_overrides)
                       (o :: rest) 0) at 2.
        rewrite length_map. reflexivity.
      * apply override_event_rows_attributed.
    + intros [Hc|Hc]; discriminate.
  - (* not an admin *)
    simpl in Hlog. inversion Hlog. subst db'.
    split; [exact Hversions|]. split.
    + intros Hc. discriminate.
    + intros _. split; [exact Htype | exact Hevents].
Qed.

Lemma show_editor_override_gating_witness :
  version_type (saved_version admin_save) = "override"
  /\ exists e : OverrideEvent,
       override_events (snd admin_save) = [e]
       /\ field_path e = "ai_metadata.capability_groups".
Proof.
  assert (Hsave :
            app.show_editor (env_at ["ver-8"] 1700000500000000)
              (env_at ["ev-1"; "ev-2"] 1700000501000000)
              admin_y 2 capability_change three_records_db
            = (Ok (app.Saved (saved_version admin_save)), snd admin_save))
    by (vm_compute; reflexivity).
  apply show_editor_override_gating in Hsave.
  destruct Hsave as [previous [old_meta [Hcur [Hmeta [_ [Hadmin _]]]]]].
  vm_compute in Hcur. inversion Hcur. subst previous. clear Hcur.
  vm_compute in Hmeta. inversion Hmeta. subst old_meta. clear Hmeta.
  destruct Hadmin as [Htype [events [Hev _]]].
  - vm_compute. reflexivity.
  - vm_compute. discriminate.
  - split; [exact Htype|].
    vm_compute in Hev. subst events.
    eexists. split; vm_compute; reflexivity.
Defined.

(** A plain user making the same change gets an "edit" version and no
    override event. *)
Example user_save_is_edit :
  version_type (saved_version user_save) = "edit"
  /\ override_events (snd user_save) = [].
Proof. split; vm_compute; reflexivity. Qed.

(** ** Version numbering *)

Lemma insert_override_events_tables
    (env : Env) (record_id version_id : string) (user : User) (now : string)
    (overrides : list (string * pyval * pyval)) :
  forall (i : nat) (c : Connection),
    let out := repository.insert_override_events
                 env record_id version_id user now i overrides c in
    committed (snd out) = committed c
    /\ records (view (snd out)) = records (view c)
    /\ record_versions (view (snd out)) = record_versions (view c).
Proof.
  induction overrides as [|[[fp ov] nv] rest IH]; intros i c; simpl.
  - repeat split.
  - unfold bind, insert_override_event, insert_into.
    destruct (existsb _ (override_events (view c))); simpl.
    + repeat split.
    + match goal with
      | |- context [repository.insert_override_events _ _ _ _ _ ?j _ ?c1] =>
          destruct (IH j c1) as [Hc [Hr Hv]]
      end.
      simpl in Hc, Hr, Hv. repeat split; assumption.
Qed.

Lemma log_override_events_tables
    (env : Env) (record_id version_id : string)
    (overrides : list (string * pyval * pyval)) (user : User) (db : Store) :
  let db' := after (repository.log_override_events
                      env record_id version_id overrides user) db in
  records db' = records db /\ record_versions db' = record_versions db.
Proof.
  destruct overrides as [|o rest]; [split; reflexivity|].
  unfold after, repository.log_override_events, with_connection, bind.
  pose proof (insert_override_events_tables env record_id version_id user
                (now_toronto_iso env) (o :: rest) 0 (get_connection db))
    as [Hc [Hr Hv]].
  destruct (repository.insert_override_events _ _ _ _ _ _ _ _) as [[[]|e] c1];
    simpl in *.
  - split; assumption.
  - rewrite Hc. split; reflexivity.
Qed.

Lemma add_comment_tables
    (env : Env) (record_id : string) (version_id : option string)
    (text_arg : string) (user : User) (db : Store) :
  let db' := after (repository.add_comment env record_id version_id text_arg user) db in
  records db' = records db /\ record_versions db' = record_versions db.
Proof.
  unfold after, repository.add_comment, with_connection, bind, insert_comment,
    insert_into. simpl.
  destruct (existsb _ (comments db)); split; reflexivity.
Qed.

(** What a call does to the two tables of the version store: nothing, or
    the insertion of a record with its first version, or the insertion of
    the next version of an existing record. *)
Lemma run_call_tables (c : call) (db : Store) :
  (records (run_call c db) = records db
   /\ record_versions (run_call c db) = record_versions db)
  \/ (exists (r : Record_) (v : RecordVersion),
        records (run_call c db) = (records db ++ [r])%list
        /\ record_versions (run_call c db) = (record_versions db ++ [v])%list
        /\ existsb (repository.has_id (r_id r)) (records db) = false
        /\ v_record_id v = r_id r
        /\ version_number v = 1)
  \/ (exists (record_id version_id final_status new_title : string)
             (v : RecordVersion),
        records (run_call c db)
        = map (repoint record_id version_id final_status new_title) (records db)
        /\ record_versions (run_call c db) = (record_versions db ++ [v])%list
        /\ existsb (repository.has_id record_id) (records db) = true
        /\ v_record_id v = record_id
        /\ version_number v = repository.max_version_number record_id db + 1).
Proof.
  destruct c as [env title_arg record_type_arg content_arg user status_arg
                | env record_id new_title content_arg user version_type_arg new_status
                | env record_id version_id text_arg user
                | env comment_id new_text
                | comment_id
                | env record_id version_id overrides user]; simpl.
  - unfold after. rewrite create_record_with_initial_version_eq. cbv zeta.
    destruct (existsb (repository.has_id _) (records db)) eqn:Hr;
      [left; split; reflexivity|].
    destruct (existsb _ (record_versions db));
      [left; split; reflexivity|].
    right. left. eexists. eexists. simpl. repeat split. exact Hr.
  - unfold after. rewrite create_new_version_eq.
    destruct (find (repository.has_id record_id) (records db)) as [r|] eqn:Hf;
      [|left; split; reflexivity].
    cbv zeta.
    destruct (sqlite_integer _); [|left; split; reflexivity].
    destruct (existsb _ (record_versions db));
      [left; split; reflexivity|].
    right. right. do 4 eexists.
    exists (new_version_row env record_id content_arg user version_type_arg db r).
    simpl. repeat split.
    apply existsb_exists. exists r.
    apply find_some in Hf. exact Hf.
  - left. apply add_comment_tables.
  - left. split; reflexivity.
  - left. split; reflexivity.
  - left. apply log_override_events_tables.
Qed.

Lemma one_to_S (n : nat) : one_to (S n) = (one_to n ++ [Z.of_nat n + 1])%list.
Proof.
  unfold one_to. rewrite seq_S, map_app. simpl.
  replace (Z.of_nat n + 1) with (Z.of_nat (S n)) by lia. reflexivity.
Qed.

Lemma length_one_to (n : nat) : List.length (one_to n) = n.
Proof. unfold one_to. rewrite length_map, length_seq. reflexivity. Qed.

Lemma fold_max_seq (k : nat) :
  forall a : nat,
    fold_left Z.max (map Z.of_nat (seq (S a) k)) (Z.of_nat a) = Z.of_nat (a + k).
Proof.
  induction k as [|k IH]; intros a; cbn [seq map fold_left].
  - f_equal. lia.
  - replace (Z.max (Z.of_nat a) (Z.of_nat (S a))) with (Z.of_nat (S a)) by lia.
    rewrite IH. f_equal. lia.
Qed.

Lemma max_version_number_one_to (record_id : string) (db : Store) (n : nat) :
  version_numbers record_id db = one_to n ->
  repository.max_version_number record_id db = Z.of_nat n.
Proof.
  unfold repository.max_version_number, version_numbers. intros ->.
  destruct n as [|n]; [reflexivity|].
  unfold one_to. simpl seq. simpl map.
  exact (fold_max_seq n 1).
Qed.

Lemma version_numbers_snoc (record_id : string) (db db' : Store)
    (v : RecordVersion) :
  record_versions db' = (record_versions db ++ [v])%list ->
  version_numbers record_id db'
  = (version_numbers record_id db
     ++ if repository.of_record record_id v then [version_number v] else [])%list.
Proof.
  unfold version_numbers. intros ->.
  rewrite filter_app, map_app. simpl.
  destruct (repository.of_record record_id v); reflexivity.
Qed.

Lemma version_numbers_inhabited (record_id : string) (db : Store) :
  version_numbers record_id db <> [] ->
  exists v : RecordVersion,
    In v (record_versions db) /\ v_record_id v = record_id.
Proof.
  unfold version_numbers. intros Hne.
  destruct (filter (repository.of_record record_id) (record_versions db))
    as [|v l] eqn:Hf; [contradiction Hne; reflexivity|].
  assert (Hin : In v (filter (repository.of_record record_id) (record_versions db)))
    by (rewrite Hf; left; reflexivity).
  apply filter_In in Hin. destruct Hin as [Hin Hof].
  exists v. split; [exact Hin|].
  apply String.eqb_eq. exact Hof.
Qed.

Lemma existsb_repoint (record_id version_id final_status new_title id : string)
    (l : list Record_) :
  existsb (repository.has_id id)
          (map (repoint record_id version_id final_status new_title) l)
  = existsb (repository.has_id id) l.
Proof.
  induction l as [|x l IH]; simpl.
  - reflexivity.
  - rewrite has_id_repoint, IH. reflexivity.
Qed.

Lemma numbered_empty : numbered empty_db.
Proof.
  split; [|split].
  - intros v [].
  - intros record_id. reflexivity.
  - intros r [].
Qed.

Lemma numbered_run_call (c : call) (db : Store) :
  numbered db -> numbered (run_call c db).
Proof.
  intros [Howner [Hnum Hsome]].
  destruct (run_call_tables c db)
    as [[Hr Hv]
       | [[r [v [Hr [Hv [Hfresh [Hrid Hone]]]]]]
         | [record_id [version_id [final_status [new_title [v
              [Hr [Hv [Hexists [Hrid Hnext]]]]]]]]]]].
  - (* the two tables are as before *)
    unfold numbered, version_numbers in *. rewrite Hr, Hv.
    split; [exact Howner | split; [exact Hnum | exact Hsome]].
  - (* a record and its first version *)
    assert (Hnone : version_numbers (r_id r) db = []).
    { destruct (version_numbers (r_id r) db) as [|n ns] eqn:Hn; [reflexivity|].
      destruct (version_numbers_inhabited (r_id r) db) as [v0 [Hin Hv0]].
      - rewrite Hn. discriminate.
      - apply Howner in Hin. rewrite Hv0, Hfresh in Hin. discriminate. }
    split; [|split].
    + intros v0 Hin. rewrite Hv in Hin. rewrite Hr, existsb_app.
      apply in_app_or in Hin. destruct Hin as [Hin|[<-|[]]].
      * rewrite (Howner v0 Hin). reflexivity.
      * rewrite Hrid. simpl. unfold repository.has_id at 2.
        rewrite String.eqb_refl. apply orb_true_r.
    + intros record_id. rewrite (version_numbers_snoc record_id db _ v Hv).
      unfold repository.of_record. rewrite Hrid.
      destruct (String.eqb_spec (r_id r) record_id) as [<-|Hne].
      * rewrite Hnone, Hone. reflexivity.
      * rewrite app_nil_r. apply Hnum.
    + intros r0 Hin. rewrite (version_numbers_snoc (r_id r0) db _ v Hv).
      rewrite Hr in Hin. apply in_app_or in Hin. destruct Hin as [Hin|[<-|[]]].
      * intros Hc. apply app_eq_nil in Hc. exact (Hsome r0 Hin (proj1 Hc)).
      * unfold repository.of_record. rewrite Hrid, String.eqb_refl.
        intros Hc. apply app_eq_nil in Hc. destruct Hc as [_ Hc]. discriminate.
  - (* the next version of a record *)
    split; [|split].
    + intros v0 Hin. rewrite Hv in Hin. rewrite Hr, existsb_repoint.
      apply in_app_or in Hin. destruct Hin as [Hin|[<-|[]]].
      * exact (Howner v0 Hin).
      * rewrite Hrid. exact Hexists.
    + intros rid. rewrite (version_numbers_snoc rid db _ v Hv).
      unfold repository.of_record. rewrite Hrid.
      destruct (String.eqb_spec record_id rid) as [<-|Hne].
      * rewrite Hnext, (max_version_number_one_to _ _ _ (Hnum record_id)).
        rewrite length_app. simpl List.length.
        replace (List.length (version_numbers record_id db) + 1)%nat
          with (S (List.length (version_numbers record_id db))) by lia.
        rewrite one_to_S. rewrite <- (Hnum record_id). reflexivity.
      * rewrite app_nil_r. apply Hnum.
    + intros r0 Hin. rewrite (version_numbers_snoc (r_id r0) db _ v Hv).
      rewrite Hr in Hin. apply in_map_iff in Hin.
      destruct Hin as [r1 [Hr1 Hin]].
      assert (Hid : r_id r0 = r_id r1).
      { subst r0. unfold repoint.
        destruct (repository.has_id record_id r1); reflexivity. }
      rewrite Hid. intros Hc. apply app_eq_nil in Hc.
      exact (Hsome r1 Hin (proj1 Hc)).
Qed.

Lemma run_calls_snoc (cs : list call) (c : call) (db : Store) :
  run_calls (cs ++ [c]) db = run_call c (run_calls cs db).
Proof. unfold run_calls. rewrite fold_left_app. reflexivity. Qed.

Lemma numbered_run_calls (cs : list call) : numbered (run_calls cs empty_db).
Proof.
  induction cs as [|c cs IH] using rev_ind.
  - exact numbered_empty.
  - rewrite run_calls_snoc. apply numbered_run_call, IH.
Qed.

Lemma ascending_of_numbers (l : list RecordVersion) :
  forall (a n : nat),
    map version_number l = map Z.of_nat (seq a n) ->
    Sorted ascending l.
Proof.
  induction l as [|v l IH]; intros a n Hmap.
  - constructor.
  - destruct n as [|n]; [discriminate|].
    simpl in Hmap. injection Hmap as Hv Hl.
    constructor.
    + exact (IH (S a) n Hl).
    + destruct l as [|w l']; constructor.
      destruct n as [|n']; [discriminate|].
      simpl in Hl. injection Hl as Hw _.
      unfold ascending, version_number_asc. rewrite Hv, Hw.
      apply Z.leb_le. lia.
Qed.

Lemma list_versions_for_record_eq (record_id : string) (db : Store) :
  repository.list_versions_for_record record_id db
  = (Ok (order_by version_number_asc
           (filter (repository.of_record record_id) (record_versions db))),
     db).
Proof. reflexivity. Qed.

Lemma list_versions_for_record_numbered (record_id : string) (db : Store) (n : nat) :
  version_numbers record_id db = one_to n ->
  repository.list_versions_for_record record_id db
  = (Ok (filter (repository.of_record record_id) (record_versions db)), db).
Proof.
  intros Hn. rewrite list_versions_for_record_eq.
  rewrite (order_by_of_sorted version_number_asc); [reflexivity|].
  exact (ascending_of_numbers _ 1%nat n Hn).
Qed.

(** C2. In a database built from the empty one by any history of calls, the
    versions of an existing record, as [list_versions_for_record] returns
    them, are its versions in the order they were created and carry the
    numbers 1, 2, ..., N with N at least 1; a further successful
    [create_new_version] gives its version the number
    max(existing numbers) + 1 = N + 1 and the list grows by that version at
    the end. *)
Theorem version_numbers_gapless
    (history : list call) (record_id : string) (r : Record_) :
  let db := run_calls history empty_db in
  repository.get_record_by_id record_id db = (Ok (Some r), db) ->
  exists (versions : list RecordVersion) (N : nat),
    repository.list_versions_for_record record_id db = (Ok versions, db)
    /\ versions = filter (repository.of_record record_id) (record_versions db)
    /\ (1 <= N)%nat
    /\ map version_number versions = one_to N
    /\ forall (env : Env) (new_title : string) (content_arg : pydict)
              (user : User) (version_type_arg : string)
              (new_status : option string) (v : RecordVersion) (db' : Store),
         repository.create_new_version
           env record_id new_title content_arg user version_type_arg new_status db
         = (Ok v, db') ->
         version_number v = repository.max_version_number record_id db + 1
         /\ version_number v = Z.of_nat N + 1
         /\ repository.list_versions_for_record record_id db'
            = (Ok (versions ++ [v])%list, db').
Proof.
  intros db Hrec.
  destruct (numbered_run_calls history) as [_ [Hnum Hsome]]. fold db in Hnum, Hsome.
  rewrite get_record_by_id_eq in Hrec. inversion Hrec as [Hfind]. clear Hrec.
  apply find_some in Hfind. destruct Hfind as [Hin Hid].
  apply String.eqb_eq in Hid.
  specialize (Hsome r Hin). rewrite Hid in Hsome.
  exists (filter (repository.of_record record_id) (record_versions db)),
         (List.length (version_numbers record_id db)).
  split; [exact (list_versions_for_record_numbered _ _ _ (Hnum record_id))|].
  split; [reflexivity|].
  split; [destruct (version_numbers record_id db); [contradiction | simpl; lia]|].
  split; [exact (Hnum record_id)|].
  intros env new_title content_arg user version_type_arg new_status v db' Hcreate.
  apply create_new_version_ok in Hcreate.
  destruct Hcreate as [Hrid [_ [Hnext [Hversions _]]]].
  pose proof (max_version_number_one_to _ _ _ (Hnum record_id)) as Hmax.
  split; [exact Hnext|]. split; [rewrite Hnext, Hmax; reflexivity|].
  assert (Hnum' : version_numbers record_id db'
                  = one_to (S (List.length (version_numbers record_id db)))).
  { rewrite (version_numbers_snoc record_id db db' v Hversions).
    unfold repository.of_record. rewrite Hrid, String.eqb_refl.
    rewrite one_to_S, Hnext, Hmax, <- (Hnum record_id). reflexivity. }
  rewrite (list_versions_for_record_numbered _ _ _ Hnum').
  rewrite Hversions, filter_app. simpl.
  unfold repository.of_record at 2. rewrite Hrid, String.eqb_refl. reflexivity.
Qed.

Lemma version_numbers_gapless_witness :
  exists (versions : list RecordVersion) (N : nat),
    repository.list_versions_for_record "rec-1" revised_db
      = (Ok versions, revised_db)
    /\ (1 <= N)%nat
    /\ map version_number versions = one_to N.
Proof.
  assert (Hrec : repository.get_record_by_id
                   "rec-1" (run_calls (three_records ++ revisions) empty_db)
                 = (Ok (Some first_record),
                    run_calls (three_records ++ revisions) empty_db))
    by (vm_compute; reflexivity).
  apply version_numbers_gapless in Hrec.
  destruct Hrec as [versions [N [Hlist [_ [Hpos [Hnum _]]]]]].
  exists versions, N. repeat split; assumption.
Defined.

(** The three versions of the revised record carry the numbers 1, 2, 3. *)
Example revised_version_numbers :
  version_numbers "rec-1" revised_db = [1; 2; 3].
Proof. vm_compute. reflexivity. Qed.

(** ** Timestamps *)

Lemma string_length_app (s t : string) :
  String.length (s ++ t) = (String.length s + String.length t)%nat.
Proof.
  induction s as [|c s IH]; simpl.
  - reflexivity.
  - rewrite IH. reflexivity.
Qed.

Lemma last_chars_cons (n : nat) (c : ascii) (s : string) :
  last_chars n (String c s)
  = if (S (String.length s) <=? n)%nat then String c s else last_chars n s.
Proof. reflexivity. Qed.

Lemma last_chars_exact (n : nat) (t : string) :
  String.length t = n -> last_chars n t = t.
Proof.
  intros <-. destruct t as [|c t]; [reflexivity|].
  rewrite last_chars_cons. simpl String.length. rewrite Nat.leb_refl. reflexivity.
Qed.

Lemma last_chars_skip (n : nat) (s u : string) :
  (n <= String.length u)%nat ->
  last_chars n (s ++ u) = last_chars n u.
Proof.
  intros Hn. induction s as [|c s IH].
  - reflexivity.
  - change (String c s ++ u) with (String c (s ++ u)).
    rewrite last_chars_cons, string_length_app.
    destruct (Nat.leb_spec (S (String.length s + String.length u)) n) as [H|_];
      [lia | exact IH].
Qed.

Lemma digit_code (n : Z) :
  exists k : nat, (k < 10)%nat /\ nat_of_ascii (digit n) = (48 + k)%nat.
Proof.
  exists (Z.to_nat (n mod 10)).
  assert (H : (Z.to_nat (n mod 10) < 10)%nat)
    by (pose proof (Z.mod_pos_bound n 10); lia).
  split; [exact H|].
  unfold digit. apply nat_ascii_embedding. lia.
Qed.

Lemma is_digit_digit (n : Z) : is_digit (digit n) = true.
Proof.
  destruct (digit_code n) as [k [Hk Hcode]].
  unfold is_digit. rewrite Hcode.
  apply andb_true_iff. split; apply Nat.leb_le; lia.
Qed.

Lemma digit_is_no_sign (n : Z) :
  Ascii.eqb (digit n) "+" || Ascii.eqb (digit n) "-" = false.
Proof.
  destruct (digit_code n) as [k [Hk Hcode]].
  apply orb_false_iff.
  split; apply Ascii.eqb_neq; intros Hc; rewrite Hc in Hcode;
    vm_compute in Hcode; lia.
Qed.

Lemma length_pad2 (n : Z) : String.length (pad2 n) = 2%nat.
Proof. reflexivity. Qed.

Lemma length_pad6 (n : Z) : String.length (pad6 n) = 6%nat.
Proof. reflexivity. Qed.

Ltac skip_prefix :=
  rewrite last_chars_skip
    by (rewrite ?string_length_app, ?length_pad2, ?length_pad6;
        cbn [String.length]; lia).

(** The text of a [datetime] with [tzinfo] ends in its UTC offset, whenever
    that offset is a whole number of minutes. *)
Lemma aware_isoformat_embeds_utcoffset (d : datetime) (off : Z) :
  utcoffset d = Some off ->
  Z.abs off mod 60 = 0 ->
  embeds_utcoffset (isoformat d) = true.
Proof.
  intros Haware Hmin. unfold isoformat, format_offset. rewrite Haware, Hmin.
  cbn [Z.eqb]. unfold embeds_utcoffset.
  generalize (Z.abs off / 3600) ((Z.abs off / 60) mod 60). intros hh mm.
  generalize (if microsecond d =? 0 then "" else "." ++ pad6 (microsecond d)).
  intros micro.
  destruct (off <? 0).
  - repeat skip_prefix.
    rewrite last_chars_exact by reflexivity.
    cbn [append pad2]. rewrite !is_digit_digit. reflexivity.
  - repeat skip_prefix.
    rewrite last_chars_exact by reflexivity.
    cbn [append pad2]. rewrite !is_digit_digit. reflexivity.
Qed.

(** The text of a [datetime] without [tzinfo] never ends in a UTC offset. *)
Lemma naive_isoformat_embeds_no_utcoffset (d : datetime) :
  utcoffset d = None -> embeds_utcoffset (isoformat d) = false.
Proof.
  intros Hnaive. unfold isoformat. rewrite Hnaive.
  unfold embeds_utcoffset.
  destruct (microsecond d =? 0).
  - repeat skip_prefix.
    rewrite last_chars_exact by reflexivity. reflexivity.
  - repeat skip_prefix.
    cbn [append pad2 pad4 pad6].
    rewrite last_chars_cons. cbn [String.length Nat.leb].
    rewrite last_chars_exact by reflexivity.
    rewrite digit_is_no_sign. reflexivity.
Qed.

Lemma now_toronto_iso_embeds_utcoffset (env : Env) :
  Z.abs (toronto_utcoffset env) mod 60 = 0 ->
  embeds_utcoffset (now_toronto_iso env) = true.
Proof.
  intros Hmin.
  apply (aware_isoformat_embeds_utcoffset _ (toronto_utcoffset env)); [|exact Hmin].
  unfold datetime_now_toronto, wall_clock.
  destruct (civil_from_days _) as [[y m] d]. reflexivity.
Qed.

(** The other writers take their timestamp from [now_toronto_iso]: record
    creation and version creation for the rows they add, [update_comment]
    for the comment it rewrites (the override events are covered by
    [override_event_rows_attributed]). *)
Lemma other_writers_timestamps (env : Env) (db : Store) :
  (forall (title_arg record_type_arg : string) (content_arg : pydict)
          (user : User) (status_arg : string),
      match repository.create_record_with_initial_version
              env title_arg record_type_arg content_arg user status_arg db with
      | (Ok r, db') =>
          r_created_at r = now_toronto_iso env
          /\ record_versions db'
             = (record_versions db ++ [initial_version_row env content_arg user])%list
      | (Raise _, _) => True
      end)
  /\ (forall (record_id new_title : string) (content_arg : pydict) (user : User)
             (version_type_arg : string) (new_status : option string),
        match repository.create_new_version
                env record_id new_title content_arg user version_type_arg
                new_status db with
        | (Ok v, _) => v_created_at v = now_toronto_iso env
        | (Raise _, _) => True
        end)
  /\ (forall (comment_id new_text : string) (c : Comment),
        In c (comments (after (repository.update_comment env comment_id new_text) db)) ->
        c_id c = comment_id ->
        c_created_at c = now_toronto_iso env /\ text c = new_text).
Proof.
  split; [|split].
  - intros. rewrite create_record_with_initial_version_eq. cbv zeta.
    destruct (existsb _ (records db)); [exact I|].
    destruct (existsb _ (record_versions db)); [exact I|].
    split; reflexivity.
  - intros. rewrite create_new_version_eq.
    destruct (find _ (records db)); [|exact I]. cbv zeta.
    destruct (sqlite_integer _); [|exact I].
    destruct (existsb _ (record_versions db)); [exact I | reflexivity].
  - intros comment_id new_text c Hin Hid.
    unfold after, repository.update_comment, with_connection, bind, execute,
      commit, close in Hin.
    cbn [snd committed view set_comments comments get_connection] in Hin.
    apply in_map_iff in Hin. destruct Hin as [c0 [Hc0 _]].
    destruct (String.eqb_spec (c_id c0) comment_id) as [Heq|Hne].
    + subst c. split; reflexivity.
    + subst c. contradiction.
Qed.

(** C8, which [add_comment] breaks.  The timestamp [add_comment] stores is
    the text of [datetime.utcnow()]: the UTC wall clock, which carries no
    time zone and whose text embeds no offset.  At 2024-01-15 17:00:00 UTC
    the comment is stored with "2024-01-15T17:00:00", where
    [now_toronto_iso] gives "2024-01-15T12:00:00-05:00". *)
Theorem add_comment_timestamp_without_offset :
  (forall (env : Env) (record_id : string) (version_id : option string)
          (text_arg : string) (user : User) (db : Store),
      match repository.add_comment env record_id version_id text_arg user db with
      | (Ok c, db') =>
          comments db' = (comments db ++ [c])%list
          /\ c_created_at c = isoformat (datetime_utcnow env)
          /\ utcoffset (datetime_utcnow env) = None
          /\ embeds_utcoffset (c_created_at c) = false
      | (Raise _, db') => db' = db
      end)
  /\ exists c : Comment,
       noon_comment
         = (Ok c, set_comments (fun t => (t ++ [c])%list) three_records_db)
       /\ c_created_at c = "2024-01-15T17:00:00"
       /\ embeds_utcoffset (c_created_at c) = false
       /\ now_toronto_iso noon_in_toronto = "2024-01-15T12:00:00-05:00"
       /\ embeds_utcoffset (now_toronto_iso noon_in_toronto) = true.
Proof.
  split.
  - intros env record_id version_id text_arg user db.
    unfold repository.add_comment, with_connection, bind, insert_comment,
      insert_into. cbn [view committed get_connection comments c_id].
    destruct (existsb _ (comments db));
      cbn [bind commit close ret view committed comments set_comments
           c_created_at fst snd];
      [reflexivity|].
    repeat split.
    apply naive_isoformat_embeds_no_utcoffset.
    unfold datetime_utcnow, wall_clock.
    destruct (civil_from_days _) as [[y m] d]. reflexivity.
  - eexists. repeat split; vm_compute; reflexivity.
Qed.

(** [update_comment] at the same instant does store the Toronto time with
    its offset. *)
Example update_comment_timestamp :
  map c_created_at
      (comments (after (repository.update_comment
                          (env_at [] 1705338000000000) "com-1" "Looks fine.")
                       (snd noon_comment)))
  = ["2024-01-15T12:00:00-05:00"].
Proof. vm_compute. reflexivity. Qed.

(* ===================================================================== *)
(** * Further properties of the repository                                *)
(* ===================================================================== *)

(** ** Closed forms of the comment and override operations *)

Lemma add_comment_eq
    (env : Env) (record_id : string) (version_id : option string)
    (text_arg : string) (user : User) (db : Store) :
  repository.add_comment env record_id version_id text_arg user db
  = let c := comment_row env record_id version_id text_arg user in
    if existsb (fun x => String.eqb (c_id x) (c_id c)) (comments db)
    then (Raise (IntegrityError "UNIQUE constraint failed: comments.id"), db)
    else (Ok c, set_comments (fun t => (t ++ [c])%list) db).
Proof.
  unfold repository.add_comment, with_connection, bind, insert_comment,
    insert_into, comment_row.
  cbn [view committed get_connection comments c_id].
  destruct (existsb _ (comments db)); reflexivity.
Qed.

Lemma list_comments_for_record_eq (record_id : string) (db : Store) :
  repository.list_comments_for_record record_id db
  = (Ok (order_by comment_created_at_asc
           (filter (of_comment_record record_id) (comments db))), db).
Proof. reflexivity. Qed.

Lemma list_overrides_for_record_eq (record_id : string) (db : Store) :
  repository.list_overrides_for_record record_id db
  = (Ok (order_by overridden_at_asc
           (filter (of_event_record record_id) (override_events db))), db).
Proof. reflexivity. Qed.

Lemma update_comment_eq (env : Env) (comment_id new_text : string) (db : Store) :
  repository.update_comment env comment_id new_text db
  = (Ok tt,
     set_comments (map (fun c =>
       if String.eqb (c_id c) comment_id then
         mkComment (c_id c) (c_record_id c) (c_version_id c) (author_id c)
                   (author_name c) (c_role c) new_text (now_toronto_iso env)
       else c)) db).
Proof. reflexivity. Qed.

Lemma delete_comment_eq (comment_id : string) (db : Store) :
  repository.delete_comment comment_id db
  = (Ok tt,
     set_comments (filter (fun c => negb (String.eqb (c_id c) comment_id))) db).
Proof. reflexivity. Qed.

Lemma existsb_ids {R : Type} (id : R -> string) (i : string) (l : list R) :
  existsb (fun r => String.eqb (id r) i) l = existsb (String.eqb i) (map id l).
Proof.
  induction l as [|x l IH]; simpl.
  - reflexivity.
  - rewrite IH, (String.eqb_sym (id x) i). reflexivity.
Qed.

Lemma insert_override_events_cases
    (env : Env) (record_id version_id : string) (user : User) (now : string)
    (overrides : list (string * pyval * pyval)) :
  forall (i : nat) (c : Connection),
    let ids := map (uuid4 env) (seq i (List.length overrides)) in
    if fresh_ids (map e_id (override_events (view c))) ids
    then repository.insert_override_events
           env record_id version_id user now i overrides c
         = (Ok tt,
            mkConnection (committed c)
              (set_override_events
                 (fun t => (t ++ override_event_rows env record_id version_id
                                                     user now i overrides)%list)
                 (view c)))
    else exists (msg : string) (c' : Connection),
           repository.insert_override_events
             env record_id version_id user now i overrides c
           = (Raise (IntegrityError msg), c')
           /\ committed c' = committed c.
Proof.
  induction overrides as [|[[fp ov] nv] rest IH]; intros i c; cbn zeta.
  - simpl. unfold ret, set_override_events. rewrite app_nil_r.
    destruct c as [cm [r v cs es]]. reflexivity.
  - cbn [List.length seq map fresh_ids repository.insert_override_events
         override_event_rows].
    unfold bind, insert_override_event, insert_into.
    cbn [e_id]. rewrite existsb_ids.
    destruct (existsb (String.eqb (uuid4 env i)) (map e_id (override_events (view c))))
      eqn:Htaken; cbn [negb andb].
    + eexists. eexists. split; reflexivity.
    + specialize (IH (S i)
        (mkConnection (committed c)
           (set_override_events
              (fun t => (t ++ [mkOverrideEvent (uuid4 env i) record_id version_id
                                 fp ov nv (u_id user) (display_name user) now])%list)
              (view c)))).
      cbn zeta in IH.
      cbn [view committed set_override_events override_events] in IH.
      rewrite map_app in IH. cbn [map e_id] in IH.
      destruct (fresh_ids _ _).
      * rewrite IH. unfold set_override_events.
        cbn [records record_versions comments override_events].
        rewrite <- app_assoc. reflexivity.
      * destruct IH as [msg [c' [Hrun Hc]]].
        exists msg, c'. split; [exact Hrun | exact Hc].
Qed.

Lemma log_override_events_cases
    (env : Env) (record_id version_id : string)
    (overrides : list (string * pyval * pyval)) (user : User) (db : Store) :
  if fresh_ids (map e_id (override_events db))
               (event_ids env (List.length overrides))
  then repository.log_override_events env record_id version_id overrides user db
       = (Ok tt,
          set_override_events
            (fun t => (t ++ override_event_rows env record_id version_id user
                                                (now_toronto_iso env) 0 overrides)%list)
            db)
  else exists msg : string,
         repository.log_override_events env record_id version_id overrides user db
         = (Raise (IntegrityError msg), db).
Proof.
  destruct overrides as [|o rest].
  - simpl. unfold ret, set_override_events. rewrite app_nil_r.
    destruct db. reflexivity.
  - unfold repository.log_override_events, with_connection, event_ids.
    pose proof (insert_override_events_cases env record_id version_id user
                  (now_toronto_iso env) (o :: rest) 0 (get_connection db)) as H.
    cbn zeta in H. cbn [view committed get_connection] in H.
    destruct (fresh_ids _ _).
    + unfold bind at 1. rewrite H. reflexivity.
    + destruct H as [msg [c' [Hrun Hc]]].
      exists msg. unfold bind at 1. rewrite Hrun. rewrite Hc. reflexivity.
Qed.

(** ** Sorting, continued *)

Section OrderByFilter.
Context {A : Type} (le : A -> A -> bool).
Hypothesis le_total : forall x y, le x y = true \/ le y x = true.
Hypothesis le_trans :
  forall x y z, le x y = true -> le y z = true -> le x z = true.

Lemma order_by_strongly_sorted (l : list A) :
  StronglySorted (fun x y => le x y = true) (order_by le l).
Proof.
  apply Sorted_StronglySorted.
  - intros x y z. apply le_trans.
  - apply order_by_sorted. exact le_total.
Qed.

Lemma insert_row_before_all (x : A) (l : list A) :
  Forall (fun y => le x y = true) l -> insert_row le x l = x :: l.
Proof.
  intros H. destruct H as [|y l Hy _]; simpl.
  - reflexivity.
  - rewrite Hy. reflexivity.
Qed.

Lemma filter_insert_row (q : A -> bool) (x : A) (l : list A) :
  StronglySorted (fun x y => le x y = true) l ->
  filter q (insert_row le x l)
  = if q x then insert_row le x (filter q l) else filter q l.
Proof.
  induction 1 as [|y l Hs IH Hall]; simpl.
  - destruct (q x); reflexivity.
  - destruct (le x y) eqn:Hxy; simpl.
    + destruct (q x); [|reflexivity].
      symmetry. apply insert_row_before_all.
      assert (Hx : Forall (fun z => le x z = true) (y :: l)).
      { constructor; [exact Hxy|].
        rewrite Forall_forall in *. intros z Hz.
        exact (le_trans _ _ _ Hxy (Hall z Hz)). }
      rewrite Forall_forall in *. intros z Hz.
      assert (Hin : In z (filter q (y :: l))) by exact Hz.
      apply filter_In in Hin. exact (Hx z (proj1 Hin)).
    + rewrite IH. destruct (q y); destruct (q x); simpl; try reflexivity.
      rewrite Hxy. reflexivity.
Qed.

Lemma filter_order_by (q : A -> bool) (l : list A) :
  filter q (order_by le l) = order_by le (filter q l).
Proof.
  induction l as [|x l IH]; simpl.
  - reflexivity.
  - fold (order_by le l).
    rewrite (filter_insert_row q x _ (order_by_strongly_sorted l)), IH.
    destruct (q x); reflexivity.
Qed.
End OrderByFilter.

Lemma comment_created_at_asc_total (c1 c2 : Comment) :
  comment_created_at_asc c1 c2 = true \/ comment_created_at_asc c2 c1 = true.
Proof. apply String.leb_total. Qed.

Lemma comment_created_at_asc_trans (c1 c2 c3 : Comment) :
  comment_created_at_asc c1 c2 = true ->
  comment_created_at_asc c2 c3 = true ->
  comment_created_at_asc c1 c3 = true.
Proof. apply string_leb_trans. Qed.

Lemma overridden_at_asc_total (e1 e2 : OverrideEvent) :
  overridden_at_asc e1 e2 = true \/ overridden_at_asc e2 e1 = true.
Proof. apply String.leb_total. Qed.

Lemma overridden_at_asc_trans (e1 e2 e3 : OverrideEvent) :
  overridden_at_asc e1 e2 = true ->
  overridden_at_asc e2 e3 = true ->
  overridden_at_asc e1 e3 = true.
Proof. apply string_leb_trans. Qed.

Lemma filter_comm {A : Type} (p q : A -> bool) (l : list A) :
  filter p (filter q l) = filter q (filter p l).
Proof.
  induction l as [|x l IH]; simpl; [reflexivity|].
  destruct (q x) eqn:Hq; destruct (p x) eqn:Hp; simpl;
    rewrite ?Hq, ?Hp, IH; reflexivity.
Qed.

Lemma filter_none {A : Type} (p : A -> bool) (l : list A) :
  existsb p l = false -> filter (fun x => negb (p x)) l = l.
Proof.
  induction l as [|x l IH]; simpl; intros H.
  - reflexivity.
  - apply orb_false_iff in H. destruct H as [Hx Hl].
    rewrite Hx. simpl. rewrite (IH Hl). reflexivity.
Qed.

Lemma map_unchanged {A : Type} (p : A -> bool) (f : A -> A) (l : list A) :
  existsb p l = false -> map (fun x => if p x then f x else x) l = l.
Proof.
  induction l as [|x l IH]; simpl; intros H.
  - reflexivity.
  - apply orb_false_iff in H. destruct H as [Hx Hl].
    rewrite Hx, (IH Hl). reflexivity.
Qed.

(** ** The comment store *)

(** X1. [add_comment] validates nothing: whatever the record id (known or
    not), the version id and the text (empty or not), it fails only when the
    fresh comment id is already in the table, and then the database is as
    before.  Otherwise the comment is appended, the thread of its record is
    the old thread with the new comment added, oldest timestamp text first,
    and the thread of every other record is as before. *)
Theorem add_comment_unvalidated_and_listed
    (env : Env) (record_id : string) (version_id : option string)
    (text_arg : string) (user : User) (db : Store) :
  let c := comment_row env record_id version_id text_arg user in
  let db' := set_comments (fun t => (t ++ [c])%list) db in
  if existsb (String.eqb (c_id c)) (map c_id (comments db))
  then exists msg : string,
         repository.add_comment env record_id version_id text_arg user db
         = (Raise (IntegrityError msg), db)
  else repository.add_comment env record_id version_id text_arg user db
       = (Ok c, db')
       /\ (exists thread : list Comment,
             repository.list_comments_for_record record_id db' = (Ok thread, db')
             /\ Permutation thread
                  (c :: returned [] (repository.list_comments_for_record record_id db))
             /\ StronglySorted oldest_comment_first thread)
       /\ (forall other : string,
             other <> record_id ->
             returned [] (repository.list_comments_for_record other db')
             = returned [] (repository.list_comments_for_record other db)).
Proof.
  intros c db'. rewrite add_comment_eq. cbv zeta. fold c.
  rewrite existsb_ids.
  destruct (existsb (String.eqb (c_id c)) (map c_id (comments db))).
  - eexists. reflexivity.
  - split; [reflexivity|]. split.
    + eexists. split; [apply list_comments_for_record_eq|]. split.
      * unfold db', set_comments, returned. cbn [comments fst].
        rewrite filter_app. cbn [filter].
        unfold of_comment_record at 2. cbn [c c_record_id comment_row].
        rewrite String.eqb_refl.
        eapply perm_trans; [apply order_by_perm|].
        eapply perm_trans; [apply Permutation_app_comm|].
        cbn [app]. apply perm_skip. apply Permutation_sym, order_by_perm.
      * apply (order_by_strongly_sorted comment_created_at_asc
                 comment_created_at_asc_total comment_created_at_asc_trans).
    + intros other Hother. unfold db', set_comments, returned,
        repository.list_comments_for_record, with_connection, bind, select.
      cbn [fst view get_connection comments].
      rewrite filter_app. cbn [filter].
      unfold of_comment_record. cbn [c c_record_id comment_row].
      destruct (String.eqb_spec record_id other) as [Heq|_];
        [symmetry in Heq; contradiction|].
      rewrite app_nil_r. reflexivity.
Qed.

(** X2. [update_comment] never fails and rewrites in place: every comment
    keeps its position, id, record, version and author; the comments with the
    given id get the new text and the Toronto timestamp of the call, every
    other comment is untouched, and so are the other tables.  An id that no
    comment has leaves the database as it was. *)
Theorem update_comment_rewrites_in_place
    (env : Env) (comment_id new_text : string) (db : Store) :
  exists db' : Store,
    repository.update_comment env comment_id new_text db = (Ok tt, db')
    /\ records db' = records db
    /\ record_versions db' = record_versions db
    /\ override_events db' = override_events db
    /\ map comment_identity (comments db') = map comment_identity (comments db)
    /\ Forall2 (fun c c' =>
                  if String.eqb (c_id c) comment_id
                  then text c' = new_text
                       /\ c_created_at c' = now_toronto_iso env
                  else c' = c)
               (comments db) (comments db')
    /\ (existsb (fun c => String.eqb (c_id c) comment_id) (comments db) = false ->
        db' = db).
Proof.
  eexists. split; [apply update_comment_eq|].
  unfold set_comments. cbn [records record_versions override_events comments].
  repeat split.
  - induction (comments db) as [|c l IH]; simpl; [reflexivity|].
    rewrite IH. destruct (String.eqb (c_id c) comment_id); reflexivity.
  - induction (comments db) as [|c l IH]; simpl; constructor; [|exact IH].
    destruct (String.eqb (c_id c) comment_id); [split|]; reflexivity.
  - intros Hnone.
    rewrite (map_unchanged (fun c => String.eqb (c_id c) comment_id) _ _ Hnone).
    destruct db; reflexivity.
Qed.

(** X3. [delete_comment] never fails and removes exactly the comments with
    the given id: the other tables are untouched, and the thread of every
    record is the old thread without those comments, the others in their old
    order.  An id that no comment has leaves the database as it was. *)
Theorem delete_comment_removes_exactly
    (comment_id : string) (db : Store) :
  exists db' : Store,
    repository.delete_comment comment_id db = (Ok tt, db')
    /\ records db' = records db
    /\ record_versions db' = record_versions db
    /\ override_events db' = override_events db
    /\ (forall c : Comment,
          In c (comments db') <-> In c (comments db) /\ c_id c <> comment_id)
    /\ (forall record_id : string,
          returned [] (repository.list_comments_for_record record_id db')
          = filter (fun c => negb (String.eqb (c_id c) comment_id))
                   (returned [] (repository.list_comments_for_record record_id db)))
    /\ (existsb (fun c => String.eqb (c_id c) comment_id) (comments db) = false ->
        db' = db).
Proof.
  eexists. split; [apply delete_comment_eq|].
  unfold set_comments. cbn [records record_versions override_events comments].
  repeat split.
  - apply filter_In in H. exact (proj1 H).
  - apply filter_In in H. destruct H as [_ H]. intros Hc. subst comment_id.
    rewrite String.eqb_refl in H. discriminate.
  - intros [Hin Hne]. apply filter_In. split; [exact Hin|].
    destruct (String.eqb_spec (c_id c) comment_id); [contradiction|reflexivity].
  - intros record_id. unfold returned.
    rewrite !list_comments_for_record_eq. cbn [fst comments].
    rewrite (filter_order_by comment_created_at_asc
               comment_created_at_asc_total comment_created_at_asc_trans).
    f_equal. apply filter_comm.
  - intros Hnone.
    rewrite (filter_none (fun c => String.eqb (c_id c) comment_id) _ Hnone).
    destruct db; reflexivity.
Qed.

(** X4. Deleting a comment right after it was added gives back the database
    as it was before the comment was added. *)
Theorem add_then_delete_comment
    (env : Env) (record_id : string) (version_id : option string)
    (text_arg : string) (user : User) (db db1 : Store) (c : Comment) :
  repository.add_comment env record_id version_id text_arg user db = (Ok c, db1) ->
  repository.delete_comment (c_id c) db1 = (Ok tt, db).
Proof.
  rewrite add_comment_eq. cbv zeta.
  destruct (existsb _ (comments db)) eqn:Hfresh; [discriminate|].
  intros H. inversion H. subst. clear H.
  rewrite delete_comment_eq. f_equal.
  unfold set_comments. cbn [records record_versions override_events comments].
  rewrite filter_app. cbn [filter]. rewrite String.eqb_refl. cbn [negb].
  rewrite app_nil_r.
  rewrite (filter_none
             (fun x => String.eqb (c_id x)
                         (c_id (comment_row env record_id version_id text_arg user)))
             _ Hfresh).
  destruct db; reflexivity.
Qed.

(** ** The override ledger *)

(** X5. [log_override_events] is all or nothing.  When the identifiers it
    draws are new to the table and pairwise distinct, it appends one event
    per entry of [overrides], in order, each carrying the entry's field path
    and values, the record, the version, the user and one common Toronto
    timestamp.  Otherwise it raises and the database is as before, also when
    some events had already been inserted.  An empty list changes nothing. *)
Theorem log_override_events_all_or_nothing
    (env : Env) (record_id version_id : string)
    (overrides : list (string * pyval * pyval)) (user : User) (db : Store) :
  let rows := override_event_rows env record_id version_id user
                                  (now_toronto_iso env) 0 overrides in
  (if fresh_ids (map e_id (override_events db))
                (event_ids env (List.length overrides))
   then repository.log_override_events env record_id version_id overrides user db
        = (Ok tt, set_override_events (fun t => (t ++ rows)%list) db)
   else exists msg : string,
          repository.log_override_events env record_id version_id overrides user db
          = (Raise (IntegrityError msg), db))
  /\ map change_of rows = overrides
  /\ map e_id rows = event_ids env (List.length overrides)
  /\ Forall (fun e => e_record_id e = record_id
                      /\ e_version_id e = version_id
                      /\ overridden_by e = u_id user
                      /\ overridden_at e = now_toronto_iso env) rows
  /\ repository.log_override_events env record_id version_id [] user db
     = (Ok tt, db).
Proof.
  intros rows. split; [exact (log_override_events_cases _ _ _ _ _ _)|].
  split; [apply override_event_rows_changes|].
  split; [|split; [apply override_event_rows_attributed | reflexivity]].
  unfold rows, event_ids. generalize 0%nat.
  induction overrides as [|[[fp ov] nv] rest IH]; intros i; simpl.
  - reflexivity.
  - rewrite IH. reflexivity.
Qed.

(** X6. After a successful [log_override_events] for a record,
    [list_overrides_for_record] returns for that record the events listed
    before together with the new ones, oldest timestamp text first, and for
    every other record what it returned before. *)
Theorem list_overrides_after_logging
    (env : Env) (record_id version_id : string)
    (overrides : list (string * pyval * pyval)) (user : User)
    (db db' : Store) :
  repository.log_override_events env record_id version_id overrides user db
  = (Ok tt, db') ->
  (exists listed : list OverrideEvent,
      repository.list_overrides_for_record record_id db' = (Ok listed, db')
      /\ Permutation listed
           (returned [] (repository.list_overrides_for_record record_id db)
            ++ override_event_rows env record_id version_id user
                                   (now_toronto_iso env) 0 overrides)
      /\ StronglySorted oldest_event_first listed)
  /\ (forall other : string,
        other <> record_id ->
        returned [] (repository.list_overrides_for_record other db')
        = returned [] (repository.list_overrides_for_record other db)).
Proof.
  intros Hlog. apply log_override_events_ok in Hlog. subst db'.
  pose proof (override_event_rows_attributed env record_id version_id user
                (now_toronto_iso env) overrides 0) as Hrows.
  set (rows := override_event_rows env record_id version_id user
                                   (now_toronto_iso env) 0 overrides) in *.
  split.
  - eexists. split; [apply list_overrides_for_record_eq|]. split.
    + unfold returned. rewrite list_overrides_for_record_eq.
      unfold set_override_events. cbn [fst override_events].
      rewrite filter_app.
      assert (Hall : filter (of_event_record record_id) rows = rows).
      { clear -Hrows. induction Hrows as [|e l [He _] _ IH]; simpl.
        - reflexivity.
        - unfold of_event_record at 1. rewrite He, String.eqb_refl, IH.
          reflexivity. }
      rewrite Hall.
      eapply perm_trans; [apply order_by_perm|].
      apply Permutation_app_tail. apply Permutation_sym, order_by_perm.
    + apply (order_by_strongly_sorted overridden_at_asc
               overridden_at_asc_total overridden_at_asc_trans).
  - intros other Hother. unfold returned.
    rewrite !list_overrides_for_record_eq.
    unfold set_override_events. cbn [fst override_events].
    rewrite filter_app.
    assert (Hnone : filter (of_event_record other) rows = []).
    { clear -Hrows Hother. induction Hrows as [|e l [He _] _ IH]; simpl.
      - reflexivity.
      - unfold of_event_record at 1. rewrite He.
        destruct (String.eqb_spec record_id other) as [Heq|_];
          [symmetry in Heq; contradiction | exact IH]. }
    rewrite Hnone, app_nil_r. reflexivity.
Qed.

(** ** Histories *)

Lemma fixed_columns_repoint
    (record_id version_id final_status new_title : string) (l : list Record_) :
  map fixed_columns (map (repoint record_id version_id final_status new_title) l)
  = map fixed_columns l.
Proof.
  induction l as [|r l IH]; simpl; [reflexivity|].
  rewrite IH. unfold repoint.
  destruct (repository.has_id record_id r); reflexivity.
Qed.

Lemma run_call_override_events (c : call) (db : Store) :
  exists es : list OverrideEvent,
    override_events (run_call c db) = (override_events db ++ es)%list.
Proof.
  destruct c as [env title_arg record_type_arg content_arg user status_arg
                | env record_id new_title content_arg user version_type_arg new_status
                | env record_id version_id text_arg user
                | env comment_id new_text
                | comment_id
                | env record_id version_id overrides user];
    cbn [run_call]; unfold after.
  - rewrite create_record_with_initial_version_eq. cbv zeta.
    exists []. rewrite app_nil_r.
    destruct (existsb _ (records db)); [reflexivity|].
    destruct (existsb _ (record_versions db)); reflexivity.
  - rewrite create_new_version_eq. exists []. rewrite app_nil_r.
    destruct (find _ (records db)); [|reflexivity]. cbv zeta.
    destruct (sqlite_integer _); [|reflexivity].
    destruct (existsb _ (record_versions db)); reflexivity.
  - rewrite add_comment_eq. cbv zeta. exists []. rewrite app_nil_r.
    destruct (existsb _ (comments db)); reflexivity.
  - exists []. rewrite app_nil_r. reflexivity.
  - exists []. rewrite app_nil_r. reflexivity.
  - pose proof (log_override_events_cases env record_id version_id overrides
                  user db) as H.
    destruct (fresh_ids _ _).
    + rewrite H. eexists. reflexivity.
    + destruct H as [msg H]. rewrite H. exists []. rewrite app_nil_r.
      reflexivity.
Qed.

(** X7. History is append-only.  Whatever calls of the repository are made
    on whatever database, the version rows and the override events that were
    there stay, unchanged and in place, as the beginning of their tables (no
    call updates or deletes one), and so do the id, type, creator and
    creation timestamp of every record. *)
Theorem history_is_append_only (history : list call) (db : Store) :
  exists (rs : list (string * string * string * string))
         (vs : list RecordVersion) (es : list OverrideEvent),
    map fixed_columns (records (run_calls history db))
      = (map fixed_columns (records db) ++ rs)%list
    /\ record_versions (run_calls history db) = (record_versions db ++ vs)%list
    /\ override_events (run_calls history db) = (override_events db ++ es)%list.
Proof.
  induction history as [|c history IH] using rev_ind.
  - exists [], [], []. simpl. rewrite !app_nil_r. repeat split.
  - rewrite run_calls_snoc.
    destruct IH as [rs [vs [es [Hr [Hv He]]]]].
    destruct (run_call_override_events c (run_calls history db)) as [es' He'].
    destruct (run_call_tables c (run_calls history db))
      as [[Hr' Hv']
         | [[r [v [Hr' [Hv' _]]]]
           | [record_id [version_id [final_status [new_title [v [Hr' [Hv' _]]]]]]]]].
    + exists rs, vs, (es ++ es')%list.
      rewrite Hr', Hv', He', Hr, Hv, He, <- app_assoc. repeat split.
    + exists (rs ++ [fixed_columns r])%list, (vs ++ [v])%list, (es ++ es')%list.
      rewrite Hr', Hv', He', map_app, Hr, Hv, He, <- !app_assoc. repeat split.
    + exists rs, (vs ++ [v])%list, (es ++ es')%list.
      rewrite Hr', Hv', He', fixed_columns_repoint, Hr, Hv, He, <- !app_assoc.
      repeat split.
Qed.


(** A record whose highest version number is 2^63-1 cannot be revised:
    the call raises [OverflowError] and stores nothing. *)
Example create_new_version_overflow :
  repository.create_new_version
    (env_at ["ver-9"] 1700000300000000) "rec-1" "Fraud Detection"
    (content_of [] []) user_x "edit" None full_counter_db
  = (Raise OverflowError, full_counter_db).
Proof. vm_compute. reflexivity. Qed.

(** ** Pointers and parents *)

Lemma last_id_snoc (p : option string) (vs : list RecordVersion)
    (v : RecordVersion) :
  last_id p (vs ++ [v]) = Some (v_id v).
Proof.
  revert p. induction vs as [|w vs IH]; intros p; simpl.
  - reflexivity.
  - apply IH.
Qed.

Lemma linear_snoc (vs : list RecordVersion) (v : RecordVersion) :
  forall p : option string,
    linear p vs -> parent_version_id v = last_id p vs -> linear p (vs ++ [v]).
Proof.
  induction vs as [|w vs IH]; intros p Hlin Hpar; simpl in *.
  - split; [exact Hpar | exact I].
  - destruct Hlin as [Hw Hlin]. split; [exact Hw|].
    apply IH; assumption.
Qed.

Lemma not_in_ids {R : Type} (id : R -> string) (i : string) (l : list R) :
  existsb (fun r => String.eqb (id r) i) l = false -> ~ In i (map id l).
Proof.
  intros Hnone Hin. apply in_map_iff in Hin. destruct Hin as [r [Hid Hin]].
  assert (Hsome : existsb (fun r => String.eqb (id r) i) l = true).
  { apply existsb_exists. exists r. split; [exact Hin|].
    rewrite Hid. apply String.eqb_refl. }
  rewrite Hsome in Hnone. discriminate.
Qed.

Lemma NoDup_ids_snoc {R : Type} (id : R -> string) (l : list R) (x : R) :
  NoDup (map id l) ->
  existsb (fun r => String.eqb (id r) (id x)) l = false ->
  NoDup (map id (l ++ [x])).
Proof.
  intros Hnd Hfresh. rewrite map_app. simpl.
  apply NoDup_rev in Hnd.
  rewrite <- (rev_involutive (map id l ++ [id x])).
  apply NoDup_rev. rewrite rev_app_distr. simpl.
  constructor; [|exact Hnd].
  rewrite <- in_rev. exact (not_in_ids id (id x) l Hfresh).
Qed.

Lemma find_by_unique_id (l : list RecordVersion) (v : RecordVersion) :
  NoDup (map v_id l) -> In v l ->
  find (fun x => String.eqb (v_id x) (v_id v)) l = Some v.
Proof.
  induction l as [|w l IH]; simpl; intros Hnd Hin.
  - destruct Hin.
  - inversion Hnd as [|i ids Hnotin Hnd']. subst.
    destruct Hin as [->|Hin].
    + rewrite String.eqb_refl. reflexivity.
    + destruct (String.eqb_spec (v_id w) (v_id v)) as [Heq|_].
      * exfalso. apply Hnotin. rewrite Heq. apply in_map. exact Hin.
      * exact (IH Hnd' Hin).
Qed.

Lemma versions_of_snoc (record_id : string) (db db' : Store) (v : RecordVersion) :
  record_versions db' = (record_versions db ++ [v])%list ->
  versions_of record_id db'
  = (versions_of record_id db
     ++ if String.eqb (v_record_id v) record_id then [v] else [])%list.
Proof.
  unfold versions_of. intros ->. rewrite filter_app. simpl.
  unfold repository.of_record.
  destruct (String.eqb (v_record_id v) record_id); reflexivity.
Qed.

Lemma versions_of_numbers (record_id : string) (db : Store) :
  version_numbers record_id db = map version_number (versions_of record_id db).
Proof. reflexivity. Qed.

(** What a call does to the two tables of the version store, with the
    pointers it sets. *)
Lemma run_call_pointers (c : call) (db : Store) :
  (records (run_call c db) = records db
   /\ record_versions (run_call c db) = record_versions db)
  \/ (exists (r : Record_) (v : RecordVersion),
        records (run_call c db) = (records db ++ [r])%list
        /\ record_versions (run_call c db) = (record_versions db ++ [v])%list
        /\ existsb (fun x => String.eqb (r_id x) (r_id r)) (records db) = false
        /\ existsb (fun x => String.eqb (v_id x) (v_id v)) (record_versions db) = false
        /\ v_record_id v = r_id r
        /\ current_version_id r = Some (v_id v)
        /\ parent_version_id v = None
        /\ version_type v = "draft")
  \/ (exists (record_id final_status new_title : string)
             (rec_row : Record_) (v : RecordVersion),
        records (run_call c db)
        = map (repoint record_id (v_id v) final_status new_title) (records db)
        /\ record_versions (run_call c db) = (record_versions db ++ [v])%list
        /\ find (repository.has_id record_id) (records db) = Some rec_row
        /\ existsb (fun x => String.eqb (v_id x) (v_id v)) (record_versions db) = false
        /\ v_record_id v = record_id
        /\ parent_version_id v = current_version_id rec_row).
Proof.
  destruct c as [env title_arg record_type_arg content_arg user status_arg
                | env record_id new_title content_arg user version_type_arg new_status
                | env record_id version_id text_arg user
                | env comment_id new_text
                | comment_id
                | env record_id version_id overrides user]; simpl.
  - unfold after. rewrite create_record_with_initial_version_eq. cbv zeta.
    unfold repository.has_id.
    destruct (existsb _ (records db)) eqn:Hr;
      [left; split; reflexivity|].
    destruct (existsb _ (record_versions db)) eqn:Hv;
      [left; split; reflexivity|].
    right. left.
    exists (initial_record_row env title_arg record_type_arg user status_arg),
           (initial_version_row env content_arg user).
    simpl. repeat split; assumption.
  - unfold after. rewrite create_new_version_eq.
    destruct (find (repository.has_id record_id) (records db)) as [r|] eqn:Hf;
      [|left; split; reflexivity].
    cbv zeta.
    destruct (sqlite_integer _); [|left; split; reflexivity].
    destruct (existsb _ (record_versions db)) eqn:Hv;
      [left; split; reflexivity|].
    right. right. exists record_id. do 2 eexists. exists r.
    exists (new_version_row env record_id content_arg user version_type_arg db r).
    simpl. repeat split; assumption.
  - left. apply add_comment_tables.
  - left. split; reflexivity.
  - left. split; reflexivity.
  - left. apply log_override_events_tables.
Qed.

Lemma versions_of_fresh_record (record_id : string) (db : Store) :
  numbered db ->
  existsb (fun x => String.eqb (r_id x) record_id) (records db) = false ->
  versions_of record_id db = [].
Proof.
  intros [Howner _] Hfresh.
  destruct (versions_of record_id db) as [|v vs] eqn:Hvs; [reflexivity|].
  assert (Hin : In v (versions_of record_id db)) by (rewrite Hvs; left; reflexivity).
  apply filter_In in Hin. destruct Hin as [Hin Hof].
  apply String.eqb_eq in Hof.
  apply Howner in Hin. rewrite Hof in Hin.
  unfold repository.has_id in Hin. rewrite Hin in Hfresh. discriminate.
Qed.

Lemma ids_repoint (record_id version_id final_status new_title : string)
    (l : list Record_) :
  map r_id (map (repoint record_id version_id final_status new_title) l)
  = map r_id l.
Proof.
  induction l as [|r l IH]; simpl; [reflexivity|].
  rewrite IH. unfold repoint.
  destruct (repository.has_id record_id r); reflexivity.
Qed.

Lemma lineage_empty : lineage empty_db.
Proof.
  split; [constructor | split; [constructor | intros r []]].
Qed.

Lemma lineage_run_call (c : call) (db : Store) :
  numbered db -> lineage db -> lineage (run_call c db).
Proof.
  intros Hnumbered [Hrids [Hvids Hrec]].
  destruct (run_call_pointers c db)
    as [[Hr Hv]
       | [[r [v [Hr [Hv [Hrfresh [Hvfresh [Hrid [Hcur [Hpar Htype]]]]]]]]]
         | [record_id [final_status [new_title [rec_row [v
              [Hr [Hv [Hfind [Hvfresh [Hrid Hpar]]]]]]]]]]]].
  - unfold lineage, versions_of in *. rewrite Hr, Hv.
    split; [exact Hrids | split; [exact Hvids | exact Hrec]].
  - split; [|split].
    + rewrite Hr. apply NoDup_ids_snoc; assumption.
    + rewrite Hv. apply NoDup_ids_snoc; assumption.
    + intros r0 Hin. rewrite (versions_of_snoc (r_id r0) db _ v Hv), Hrid.
      rewrite Hr in Hin. apply in_app_or in Hin. destruct Hin as [Hin|[<-|[]]].
      * destruct (String.eqb_spec (r_id r) (r_id r0)) as [Heq|_].
        { exfalso. apply (not_in_ids r_id (r_id r) (records db) Hrfresh).
          rewrite Heq. apply in_map. exact Hin. }
        rewrite app_nil_r. exact (Hrec r0 Hin).
      * rewrite String.eqb_refl.
        rewrite (versions_of_fresh_record (r_id r) db Hnumbered Hrfresh).
        simpl. repeat split; try assumption.
        intros v0 Hv0. inversion Hv0. subst v0. exact Htype.
  - assert (Hrow : In rec_row (records db) /\ r_id rec_row = record_id).
    { apply find_some in Hfind. destruct Hfind as [Hin Hid].
      split; [exact Hin | apply String.eqb_eq; exact Hid]. }
    destruct Hrow as [Hrow_in Hrow_id].
    split; [|split].
    + rewrite Hr, ids_repoint. exact Hrids.
    + rewrite Hv. apply NoDup_ids_snoc; assumption.
    + intros r0' Hin. rewrite Hr in Hin. apply in_map_iff in Hin.
      destruct Hin as [r0 [Hr0 Hin]].
      destruct (Hrec r0 Hin) as [Hcur0 [Hlin0 Hhd0]].
      unfold repoint, repository.has_id in Hr0.
      destruct (String.eqb_spec (r_id r0) record_id) as [Heq|Hne]; subst r0'.
      * cbn [r_id current_version_id].
        rewrite (versions_of_snoc (r_id r0) db _ v Hv), Hrid, Heq,
          String.eqb_refl.
        rewrite Heq in Hlin0, Hhd0.
        split; [symmetry; apply last_id_snoc|]. split.
        -- apply linear_snoc; [exact Hlin0|].
           rewrite Hpar. rewrite <- Hrow_id.
           exact (proj1 (Hrec rec_row Hrow_in)).
        -- intros v0 Hv0.
           destruct Hnumbered as [_ [_ Hsome]].
           specialize (Hsome r0 Hin). rewrite Heq in Hsome.
           rewrite versions_of_numbers in Hsome.
           destruct (versions_of record_id db) as [|w ws];
             [contradiction Hsome; reflexivity|].
           apply Hhd0. exact Hv0.
      * rewrite (versions_of_snoc (r_id r0) db _ v Hv), Hrid.
        destruct (String.eqb_spec record_id (r_id r0)) as [Heq|_];
          [symmetry in Heq; contradiction|].
        rewrite app_nil_r. repeat split; assumption.
Qed.

Lemma lineage_run_calls (cs : list call) : lineage (run_calls cs empty_db).
Proof.
  induction cs as [|c cs IH] using rev_ind.
  - exact lineage_empty.
  - rewrite run_calls_snoc.
    apply lineage_run_call; [apply numbered_run_calls | exact IH].
Qed.

(** X9. In a database built from the empty one by any history of calls,
    the current version of an existing record is the last of its versions:
    [get_current_version] returns the version [list_versions_for_record]
    lists last, the one with the highest number.  The parents form one
    chain: the first version has no parent, number 1 and type "draft", and
    the parent of every later version is the version listed just before
    it. *)
Theorem current_version_is_latest_and_lineage_linear
    (history : list call) (record_id : string) (r : Record_) :
  let db := run_calls history empty_db in
  repository.get_record_by_id record_id db = (Ok (Some r), db) ->
  exists (first latest : RecordVersion) (earlier later : list RecordVersion),
    repository.list_versions_for_record record_id db
      = (Ok (earlier ++ [latest])%list, db)
    /\ (earlier ++ [latest])%list = first :: later
    /\ repository.get_current_version record_id db = (Ok (Some latest), db)
    /\ current_version_id r = Some (v_id latest)
    /\ version_number latest = Z.of_nat (S (List.length earlier))
    /\ version_number first = 1
    /\ version_type first = "draft"
    /\ linear None (first :: later).
Proof.
  intros db Hrec.
  pose proof (numbered_run_calls history) as Hnumbered. fold db in Hnumbered.
  destruct (lineage_run_calls history) as [_ [Hvids Hlin]]. fold db in Hvids, Hlin.
  destruct Hnumbered as [_ [Hnum Hsome]].
  rewrite get_record_by_id_eq in Hrec. inversion Hrec as [Hfind]. clear Hrec.
  pose proof (find_some _ _ Hfind) as [Hin Hid].
  apply String.eqb_eq in Hid.
  specialize (Hsome r Hin). specialize (Hlin r Hin).
  rewrite Hid in Hsome, Hlin. destruct Hlin as [Hcur [Hchain Hdraft]].
  specialize (Hnum record_id).
  pose proof (list_versions_for_record_numbered record_id db _ Hnum) as Hlist.
  fold (versions_of record_id db) in Hlist.
  rewrite versions_of_numbers in Hnum, Hsome.
  assert (Hne : versions_of record_id db <> [])
    by (intros Hc; rewrite Hc in Hsome; contradiction Hsome; reflexivity).
  destruct (exists_last Hne) as [earlier [latest Hsplit]].
  destruct (versions_of record_id db) as [|first later] eqn:Hvs;
    [contradiction Hne; reflexivity|].
  exists first, latest, earlier, later.
  rewrite <- Hsplit.
  assert (Hlast_in : In latest (record_versions db)).
  { assert (H : In latest (versions_of record_id db))
      by (rewrite Hvs, Hsplit; apply in_or_app; right; left; reflexivity).
    apply filter_In in H. exact (proj1 H). }
  assert (Hptr : current_version_id r = Some (v_id latest))
    by (rewrite Hcur, Hsplit; apply last_id_snoc).
  split; [exact Hlist|]. split; [reflexivity|]. split.
  { rewrite get_current_version_eq, Hfind, Hptr.
    rewrite (find_by_unique_id _ _ Hvids Hlast_in). reflexivity. }
  split; [exact Hptr|].
  rewrite Hsplit in Hnum.
  rewrite length_map, map_app, length_app in Hnum. simpl in Hnum.
  replace (List.length earlier + 1)%nat with (S (List.length earlier)) in Hnum
    by lia.
  rewrite one_to_S in Hnum.
  apply app_inj_tail in Hnum. destruct Hnum as [Hearlier Hlatest].
  split; [rewrite Hlatest; lia|].
  split.
  { assert (H1 : map version_number (first :: later)
                 = one_to (List.length (map version_number (first :: later)))).
    { rewrite Hsplit, length_map, map_app, length_app. simpl.
      replace (List.length earlier + 1)%nat with (S (List.length earlier)) by lia.
      rewrite one_to_S, Hearlier, Hlatest. reflexivity. }
    simpl in H1. unfold one_to in H1. simpl in H1. injection H1 as H1 _.
    exact H1. }
  split; [apply Hdraft; reflexivity | exact Hchain].
Qed.

Lemma find_repoint_other
    (record_id version_id final_status new_title other : string)
    (l : list Record_) :
  other <> record_id ->
  find (repository.has_id other)
       (map (repoint record_id version_id final_status new_title) l)
  = find (repository.has_id other) l.
Proof.
  intros Hother. induction l as [|r l IH]; simpl; [reflexivity|].
  rewrite has_id_repoint, IH.
  destruct (repository.has_id other r) eqn:Hr; [|reflexivity].
  unfold repoint, repository.has_id in *.
  destruct (String.eqb_spec (r_id r) record_id) as [Heq|_]; [|reflexivity].
  apply String.eqb_eq in Hr. congruence.
Qed.

Lemma find_app_some {A : Type} (p : A -> bool) (l l' : list A) (x : A) :
  find p l = Some x -> find p (l ++ l') = Some x.
Proof.
  induction l as [|y l IH]; simpl; intros H; [discriminate|].
  destruct (p y); [exact H | exact (IH H)].
Qed.

(** X10. A successful [create_new_version] on one record is invisible from
    every other record: [get_record_by_id] and [list_versions_for_record]
    return for it what they returned before, and so does
    [get_current_version] when it returned a version before; the comment
    threads and the override histories of all records are as before. *)
Theorem create_new_version_isolation
    (env : Env) (record_id new_title : string) (content_arg : pydict)
    (user : User) (version_type_arg : string) (new_status : option string)
    (db db' : Store) (v : RecordVersion) :
  repository.create_new_version
    env record_id new_title content_arg user version_type_arg new_status db
  = (Ok v, db') ->
  (forall other : string,
      other <> record_id ->
      returned None (repository.get_record_by_id other db')
      = returned None (repository.get_record_by_id other db)
      /\ returned [] (repository.list_versions_for_record other db')
         = returned [] (repository.list_versions_for_record other db)
      /\ (forall w : RecordVersion,
            repository.get_current_version other db = (Ok (Some w), db) ->
            repository.get_current_version other db' = (Ok (Some w), db')))
  /\ (forall any : string,
        returned [] (repository.list_comments_for_record any db')
        = returned [] (repository.list_comments_for_record any db)
        /\ returned [] (repository.list_overrides_for_record any db')
           = returned [] (repository.list_overrides_for_record any db)).
Proof.
  rewrite create_new_version_eq.
  destruct (find (repository.has_id record_id) (records db)) as [rec_row|];
    [|discriminate].
  cbv zeta.
  destruct (sqlite_integer _); [|discriminate].
  destruct (existsb _ (record_versions db)); [discriminate|].
  intros H. inversion H as [[Hv Hdb]]. clear H.
  set (v0 := new_version_row env record_id content_arg user version_type_arg
                             db rec_row) in *.
  split.
  - intros other Hother. unfold returned.
    rewrite !get_record_by_id_eq, !list_versions_for_record_eq.
    cbn [fst records record_versions].
    rewrite (find_repoint_other _ _ _ _ _ _ Hother).
    split; [reflexivity|]. split.
    + rewrite filter_app. cbn [filter].
      unfold repository.of_record at 2. cbn [v0 new_version_row v_record_id].
      destruct (String.eqb_spec record_id other) as [Heq|_];
        [symmetry in Heq; contradiction|].
      rewrite app_nil_r. reflexivity.
    + intros w. rewrite !get_current_version_eq.
      cbn [records record_versions].
      rewrite (find_repoint_other _ _ _ _ _ _ Hother).
      destruct (find (repository.has_id other) (records db)) as [r|];
        [|discriminate].
      destruct (current_version_id r) as [vid|]; [|discriminate].
      intros Hw. inversion Hw as [Hfound].
      rewrite (find_app_some _ _ _ _ Hfound), Hfound. reflexivity.
  - intros any. split; reflexivity.
Qed.

(** ** Seeding *)

Lemma count_records_eq (db : Store) :
  repository.count_records db = (Ok (Z.of_nat (List.length (records db))), db).
Proof. reflexivity. Qed.

Lemma ensure_demo_data_nonempty (env1 env2 : Env) (user : User) (db : Store) :
  records db <> [] -> ensure_demo_data env1 env2 user db = (Ok tt, db).
Proof.
  intros Hne. unfold ensure_demo_data, bind at 1. rewrite count_records_eq.
  destruct (records db) as [|r l]; [contradiction Hne; reflexivity|].
  reflexivity.
Qed.

(** X11. [ensure_demo_data] seeds once.  On a database that has a record it
    changes nothing.  A run that returns leaves a database that has a
    record, so every later run changes nothing.  On the empty database,
    with identifiers of the second record and version that differ from
    those of the first, it creates two records in this order: a draft of the
    given user and a submitted one of the built-in "admin-seed", each with
    its version 1. *)
Theorem ensure_demo_data_seeds_once
    (env1 env2 : Env) (user : User) (db : Store) :
  (records db <> [] -> ensure_demo_data env1 env2 user db = (Ok tt, db))
  /\ (forall db1 : Store,
        ensure_demo_data env1 env2 user db = (Ok tt, db1) ->
        records db1 <> []
        /\ forall (env3 env4 : Env) (user' : User),
             ensure_demo_data env3 env4 user' db1 = (Ok tt, db1))
  /\ (uuid4 env2 0%nat <> uuid4 env1 0%nat ->
      uuid4 env2 1%nat <> uuid4 env1 1%nat ->
      ensure_demo_data env1 env2 user empty_db
      = (Ok tt,
         mkStore
           [ initial_record_row env1 "Fraud Detection in Benefit Claims"
                                "ai_use_case" user "draft";
             initial_record_row env2 "Policy Document Summarization"
                                "ai_use_case" admin_like "submitted" ]
           [ initial_version_row env1 demo_content_1 user;
             initial_version_row env2 demo_content_2 admin_like ]
           [] [])).
Proof.
  split; [apply ensure_demo_data_nonempty|]. split.
  - intros db1 Hrun.
    assert (Hne : records db1 <> []).
    { destruct (records db) as [|r0 l0] eqn:Hrecs.
      - unfold ensure_demo_data, bind at 1 in Hrun.
        rewrite count_records_eq, Hrecs in Hrun.
        cbn [List.length Z.of_nat Z.ltb Z.compare] in Hrun.
        apply bind_ok in Hrun. destruct Hrun as [r1 [s1 [Hfirst Hrun]]].
        apply bind_ok in Hrun. destruct Hrun as [r2 [s2 [Hsecond Hrun]]].
        inversion Hrun. subst s2. clear Hrun.
        rewrite create_record_with_initial_version_eq in Hsecond.
        cbv zeta in Hsecond.
        destruct (existsb _ (records s1)); [discriminate|].
        destruct (existsb _ (record_versions s1)); [discriminate|].
        inversion Hsecond. cbn [records].
        intros Hc. apply app_eq_nil in Hc. destruct Hc as [_ Hc]. discriminate.
      - rewrite ensure_demo_data_nonempty in Hrun
          by (rewrite Hrecs; discriminate).
        inversion Hrun. subst db1. rewrite Hrecs. discriminate. }
    split; [exact Hne|]. intros env3 env4 user'.
    apply ensure_demo_data_nonempty. exact Hne.
  - intros Hrid Hvid.
    unfold ensure_demo_data, bind at 1. rewrite count_records_eq.
    cbn [empty_db records List.length Z.of_nat Z.ltb Z.compare].
    unfold bind at 1. rewrite create_record_with_initial_version_eq.
    cbv zeta. cbn [empty_db records record_versions existsb].
    unfold bind at 1. rewrite create_record_with_initial_version_eq.
    cbv zeta. cbn [records record_versions comments override_events app existsb].
    unfold repository.has_id.
    cbn [r_id v_id initial_record_row initial_version_row].
    destruct (String.eqb_spec (uuid4 env1 0%nat) (uuid4 env2 0%nat)) as [Heq|_];
      [symmetry in Heq; contradiction|].
    destruct (String.eqb_spec (uuid4 env1 1%nat) (uuid4 env2 1%nat)) as [Heq|_];
      [symmetry in Heq; contradiction|].
    reflexivity.
Qed.

(* ===================================================================== *)
(** * Further properties of the application                               *)
(* ===================================================================== *)

(** ** Tags *)

Lemma lstrip_shape (s : string) :
  lstrip s = "" \/ exists c t, lstrip s = String c t /\ isspace c = false.
Proof.
  induction s as [|c s IH]; simpl.
  - left. reflexivity.
  - destruct (isspace c) eqn:Hc; [exact IH|].
    right. exists c, s. split; [reflexivity | exact Hc].
Qed.

Lemma rstrip_cons (c : ascii) (s : string) :
  isspace c = false -> exists t, rstrip (String c s) = String c t.
Proof.
  intros Hc. simpl. destruct (rstrip s) as [|x t].
  - rewrite Hc. exists "". reflexivity.
  - exists (String x t). reflexivity.
Qed.

Lemma rstrip_idem (s : string) : rstrip (rstrip s) = rstrip s.
Proof.
  induction s as [|c s IH]; simpl; [reflexivity|].
  destruct (rstrip s) as [|x t] eqn:Hr.
  - destruct (isspace c) eqn:Hc; simpl; [reflexivity|].
    rewrite Hc. reflexivity.
  - change (rstrip (String c (String x t)))
      with (match rstrip (String x t) with
            | EmptyString => if isspace c then EmptyString else String c EmptyString
            | u => String c u
            end).
    rewrite IH. reflexivity.
Qed.

Lemma strip_idem (s : string) : strip (strip s) = strip s.
Proof.
  unfold strip.
  destruct (lstrip_shape s) as [Hs|[c [t [Hs Hc]]]]; rewrite Hs.
  - reflexivity.
  - destruct (rstrip_cons c t Hc) as [u Hu].
    assert (Hl : lstrip (rstrip (String c t)) = rstrip (String c t))
      by (rewrite Hu; simpl; rewrite Hc; reflexivity).
    rewrite Hl. apply rstrip_idem.
Qed.

Lemma contains_lstrip (c : ascii) (s : string) :
  contains c s = false -> contains c (lstrip s) = false.
Proof.
  induction s as [|x s IH]; simpl; intros H; [reflexivity|].
  apply orb_false_iff in H. destruct H as [Hx Hs].
  destruct (isspace x); [exact (IH Hs)|].
  simpl. rewrite Hx, Hs. reflexivity.
Qed.

Lemma contains_rstrip (c : ascii) (s : string) :
  contains c s = false -> contains c (rstrip s) = false.
Proof.
  induction s as [|x s IH]; simpl; intros H; [reflexivity|].
  apply orb_false_iff in H. destruct H as [Hx Hs].
  specialize (IH Hs).
  destruct (rstrip s) as [|y t].
  - destruct (isspace x); simpl; [reflexivity|]. rewrite Hx. reflexivity.
  - simpl in *. rewrite Hx. exact IH.
Qed.

Lemma contains_strip (c : ascii) (s : string) :
  contains c s = false -> contains c (strip s) = false.
Proof.
  intros H. apply contains_rstrip, contains_lstrip, H.
Qed.

Lemma split_nonempty (sep : ascii) (s : string) : split sep s <> [].
Proof.
  destruct s as [|c s]; simpl; [discriminate|].
  destruct (Ascii.eqb c sep); [discriminate|].
  destruct (split sep s); discriminate.
Qed.

Lemma split_pieces (sep : ascii) (s : string) :
  Forall (fun p => contains sep p = false) (split sep s).
Proof.
  induction s as [|c s IH]; simpl.
  - repeat constructor.
  - destruct (Ascii.eqb c sep) eqn:Hc.
    + constructor; [reflexivity | exact IH].
    + destruct (split sep s) as [|p ps].
      * constructor; [simpl; rewrite Hc; reflexivity | constructor].
      * inversion IH as [|p' ps' Hp Hps]. subst.
        constructor; [simpl; rewrite Hc; exact Hp | exact Hps].
Qed.

Lemma parse_tags_clean (s : string) :
  Forall (fun t => clean_tag t = true) (parse_tags s).
Proof.
  unfold parse_tags. apply Forall_forall. intros t Hin.
  apply in_map_iff in Hin. destruct Hin as [p [Ht Hin]].
  apply filter_In in Hin. destruct Hin as [Hin Hblank].
  pose proof (split_pieces "," s) as Hpieces.
  rewrite Forall_forall in Hpieces. specialize (Hpieces p Hin).
  subst t. unfold clean_tag.
  rewrite Hblank, strip_idem, String.eqb_refl, (contains_strip _ _ Hpieces).
  reflexivity.
Qed.

(** X12. Every tag [parse_tags] returns is clean: it is not empty, has no
    white space at either end and contains no comma, whatever was typed; and
    it is the stripped text between two commas of the input. *)
Theorem parse_tags_are_clean (s : string) :
  Forall (fun t => clean_tag t = true) (parse_tags s)
  /\ Forall (fun t => exists piece : string,
                        In piece (split "," s) /\ strip piece = t)
            (parse_tags s).
Proof.
  split; [apply parse_tags_clean|].
  unfold parse_tags. apply Forall_forall. intros t Hin.
  apply in_map_iff in Hin. destruct Hin as [p [Ht Hin]].
  apply filter_In in Hin. exists p. split; [exact (proj1 Hin) | exact Ht].
Qed.

Lemma split_no_sep (sep : ascii) (t : string) :
  contains sep t = false -> split sep t = [t].
Proof.
  induction t as [|c t IH]; simpl; intros H; [reflexivity|].
  apply orb_false_iff in H. destruct H as [Hc Ht].
  rewrite Hc, (IH Ht). reflexivity.
Qed.

Lemma split_app (sep : ascii) (t rest : string) :
  contains sep t = false ->
  split sep (t ++ String sep rest) = t :: split sep rest.
Proof.
  induction t as [|c t IH]; simpl; intros H.
  - rewrite Ascii.eqb_refl. reflexivity.
  - apply orb_false_iff in H. destruct H as [Hc Ht].
    rewrite Hc, (IH Ht). reflexivity.
Qed.

Lemma split_spaced_join (tags : list string) :
  Forall (fun t => contains "," t = false) tags ->
  tags <> [] ->
  split "," (String " " (str_join ", " tags)) = map (String " ") tags.
Proof.
  induction 1 as [|t rest Ht Hrest IH]; intros Hne; [contradiction Hne; reflexivity|].
  destruct rest as [|r rest'].
  - simpl str_join. simpl map.
    apply split_no_sep. simpl. exact Ht.
  - change (str_join ", " (t :: r :: rest'))
      with (t ++ String "," (String " " (str_join ", " (r :: rest')))).
    change (String " " (t ++ String "," (String " " (str_join ", " (r :: rest')))))
      with (String " " t ++ String "," (String " " (str_join ", " (r :: rest')))).
    rewrite split_app by (simpl; exact Ht).
    rewrite IH by discriminate. reflexivity.
Qed.

Lemma split_join (t : string) (rest : list string) :
  Forall (fun t => contains "," t = false) (t :: rest) ->
  split "," (str_join ", " (t :: rest)) = t :: map (String " ") rest.
Proof.
  intros H. inversion H as [|t' rest' Ht Hrest]. subst.
  destruct rest as [|r rest'].
  - simpl. apply split_no_sep. exact Ht.
  - change (str_join ", " (t :: r :: rest'))
      with (t ++ String "," (String " " (str_join ", " (r :: rest')))).
    rewrite split_app by exact Ht.
    rewrite split_spaced_join by (assumption || discriminate). reflexivity.
Qed.

Lemma clean_tag_facts (t : string) :
  clean_tag t = true ->
  String.eqb t "" = false /\ strip t = t /\ contains "," t = false.
Proof.
  unfold clean_tag. intros H.
  apply andb_true_iff in H. destruct H as [H Hcomma].
  apply andb_true_iff in H. destruct H as [Hne Hstrip].
  repeat split.
  - destruct (String.eqb t ""); [discriminate | reflexivity].
  - apply String.eqb_eq. exact Hstrip.
  - destruct (contains "," t); [discriminate | reflexivity].
Qed.

Lemma strip_spaced (t : string) : strip (String " " t) = strip t.
Proof. reflexivity. Qed.

Lemma parse_spaced_tags (tags : list string) :
  Forall (fun t => clean_tag t = true) tags ->
  map strip
      (filter (fun t => negb (String.eqb (strip t) ""))
              (map (String " ") tags))
  = tags.
Proof.
  induction 1 as [|t rest Ht Hrest IH]; simpl; [reflexivity|].
  destruct (clean_tag_facts t Ht) as [Hne [Hstrip _]].
  rewrite strip_spaced, Hstrip, Hne. simpl.
  rewrite strip_spaced, Hstrip, IH. reflexivity.
Qed.

Lemma parse_joined_tags (tags : list string) :
  Forall (fun t => clean_tag t = true) tags ->
  parse_tags (str_join ", " tags) = tags.
Proof.
  intros Hclean. destruct tags as [|t rest]; [reflexivity|].
  unfold parse_tags. rewrite split_join.
  - inversion Hclean as [|t' rest' Ht Hrest]. subst.
    destruct (clean_tag_facts t Ht) as [Hne [Hstrip _]].
    cbn [filter map]. rewrite Hstrip, Hne. cbn [negb map].
    rewrite Hstrip, (parse_spaced_tags rest Hrest). reflexivity.
  - apply Forall_forall. intros x Hx.
    rewrite Forall_forall in Hclean.
    exact (proj2 (proj2 (clean_tag_facts x (Hclean x Hx)))).
Qed.

(** X13. The tag field of the editor round-trips.  Tags that are clean,
    joined with ", " the way the editor fills the field, are parsed back to
    the same list; so the tags the editor parsed once, shown again and
    parsed again, come out unchanged. *)
Theorem tags_round_trip :
  (forall tags : list string,
      forallb clean_tag tags = true ->
      parse_tags (str_join ", " tags) = tags)
  /\ (forall s : string,
        parse_tags (str_join ", " (parse_tags s)) = parse_tags s).
Proof.
  split.
  - intros tags Hclean. apply parse_joined_tags.
    apply Forall_forall. rewrite forallb_forall in Hclean. exact Hclean.
  - intros s. apply parse_joined_tags, parse_tags_clean.
Qed.

(** ** The diff engine, continued *)

Lemma py_eq_str_lists (l1 l2 : list string) :
  py_eq (PyList (map PyStr l1)) (PyList (map PyStr l2)) = true <-> l1 = l2.
Proof.
  simpl. revert l2. induction l1 as [|a l1 IH]; intros [|b l2]; simpl;
    split; intros H; try reflexivity; try discriminate.
  - apply andb_true_iff in H. destruct H as [Hab Hl].
    apply String.eqb_eq in Hab. apply IH in Hl. subst. reflexivity.
  - inversion H. subst. rewrite String.eqb_refl. simpl.
    apply IH. reflexivity.
Qed.

Lemma py_or_str_list (l : list string) :
  py_or (PyList (map PyStr l)) (PyList []) = PyList (map PyStr l).
Proof. destruct l; reflexivity. Qed.

Lemma tags_meta_framework (f c : list string) :
  dict_get (tags_meta f c) "framework_tags" (PyList []) = PyList (map PyStr f).
Proof. reflexivity. Qed.

Lemma tags_meta_capability (f c : list string) :
  dict_get (tags_meta f c) "capability_groups" (PyList []) = PyList (map PyStr c).
Proof. reflexivity. Qed.

Lemma diff_of_tags_eq (f1 c1 f2 c2 : list string) :
  app.diff_ai_metadata (Some (tags_meta f1 c1)) (Some (tags_meta f2 c2))
  = ((if py_ne (PyList (map PyStr f1)) (PyList (map PyStr f2))
      then [("ai_metadata.framework_tags",
             PyList (map PyStr f1), PyList (map PyStr f2))]
      else [])
     ++ (if py_ne (PyList (map PyStr c1)) (PyList (map PyStr c2))
         then [("ai_metadata.capability_groups",
                PyList (map PyStr c1), PyList (map PyStr c2))]
         else []))%list.
Proof.
  unfold app.diff_ai_metadata.
  rewrite !tags_meta_framework, !tags_meta_capability, !py_or_str_list.
  destruct (py_ne (PyList (map PyStr f1)) (PyList (map PyStr f2)));
    destruct (py_ne (PyList (map PyStr c1)) (PyList (map PyStr c2)));
    reflexivity.
Qed.

Lemma py_ne_str_lists (l1 l2 : list string) :
  py_ne (PyList (map PyStr l1)) (PyList (map PyStr l2))
  = if list_eq String.eqb l1 l2 then false else true.
Proof.
  unfold py_ne. simpl. f_equal.
  assert (H : list_eq py_eq (map PyStr l1) (map PyStr l2)
              = list_eq String.eqb l1 l2).
  { revert l2. induction l1 as [|a l1 IH]; intros [|b l2]; simpl;
      try reflexivity. rewrite IH. reflexivity. }
  rewrite H. destruct (list_eq String.eqb l1 l2); reflexivity.
Qed.

Lemma list_eq_strings (l1 l2 : list string) :
  list_eq String.eqb l1 l2 = true <-> l1 = l2.
Proof.
  revert l2. induction l1 as [|a l1 IH]; intros [|b l2]; simpl;
    split; intros H; try reflexivity; try discriminate.
  - apply andb_true_iff in H. destruct H as [Hab Hl].
    apply String.eqb_eq in Hab. apply IH in Hl. subst. reflexivity.
  - inversion H. subst. rewrite String.eqb_refl. simpl.
    apply IH. reflexivity.
Qed.

Lemma list_eqb_strings (l1 l2 : list string) :
  (l1 = l2 /\ list_eq String.eqb l1 l2 = true)
  \/ (l1 <> l2 /\ list_eq String.eqb l1 l2 = false).
Proof.
  destruct (list_eq String.eqb l1 l2) eqn:E.
  - left. split; [apply list_eq_strings; exact E | reflexivity].
  - right. split; [|reflexivity].
    intros Heq. apply list_eq_strings in Heq. rewrite Heq in E. discriminate.
Qed.

(** X14. On metadata whose tracked fields are lists of strings, the diff is
    exact and sensitive to order: it is empty exactly when both lists are
    equal as ordered lists, it has the entry of [framework_tags] exactly
    when the two lists of framework tags differ (a reordering is a
    difference), and likewise for [capability_groups]. *)
Theorem diff_of_tag_lists (f1 c1 f2 c2 : list string) :
  let d := app.diff_ai_metadata (Some (tags_meta f1 c1))
                                (Some (tags_meta f2 c2)) in
  (d = [] <-> f1 = f2 /\ c1 = c2)
  /\ (In ("ai_metadata.framework_tags",
          PyList (map PyStr f1), PyList (map PyStr f2)) d
      <-> f1 <> f2)
  /\ (In ("ai_metadata.capability_groups",
          PyList (map PyStr c1), PyList (map PyStr c2)) d
      <-> c1 <> c2).
Proof.
  cbv zeta. rewrite diff_of_tags_eq, !py_ne_str_lists.
  destruct (list_eqb_strings f1 f2) as [[Ef Hf]|[Nf Hf]];
    destruct (list_eqb_strings c1 c2) as [[Ec Hc]|[Nc Hc]];
    rewrite Hf, Hc; simpl;
    intuition (try discriminate; try congruence).
Qed.

(** X15. Whatever the two documents, the diff has at most two entries: at
    most one for [ai_metadata.framework_tags] and at most one for
    [ai_metadata.capability_groups], in this order, and the two values of an
    entry are never equal. *)
Theorem diff_ai_metadata_shape (old_meta new_meta : option pydict) :
  let d := app.diff_ai_metadata old_meta new_meta in
  (List.length d <= 2)%nat
  /\ (map (fun e => fst (fst e)) d = []
      \/ map (fun e => fst (fst e)) d = ["ai_metadata.framework_tags"]
      \/ map (fun e => fst (fst e)) d = ["ai_metadata.capability_groups"]
      \/ map (fun e => fst (fst e)) d
         = ["ai_metadata.framework_tags"; "ai_metadata.capability_groups"])
  /\ Forall (fun e => py_eq (snd (fst e)) (snd e) = false) d.
Proof.
  cbv zeta. unfold app.diff_ai_metadata, py_ne.
  destruct (py_eq (py_or (dict_get _ "framework_tags" _) _)
                  (py_or (dict_get _ "framework_tags" _) _)) eqn:Hf;
    destruct (py_eq (py_or (dict_get _ "capability_groups" _) _)
                    (py_or (dict_get _ "capability_groups" _) _)) eqn:Hc;
    simpl; (split; [lia|]); (split; [tauto|]);
    repeat constructor; assumption.
Qed.

Lemma dict_get_other_key (k key : string) (v default : pyval) (d : pydict) :
  k <> key -> dict_get ((k, v) :: d) key default = dict_get d key default.
Proof.
  intros Hne. unfold dict_get. simpl.
  destruct (String.eqb_spec key k) as [Heq|_];
    [symmetry in Heq; contradiction | reflexivity].
Qed.

Lemma tracked_falsy (k key : string) (v : pyval) (d : pydict) :
  truthy v = false ->
  py_or (dict_get ((k, v) :: d) key (PyList [])) (PyList [])
  = py_or (dict_get ((k, PyList []) :: d) key (PyList [])) (PyList []).
Proof.
  intros Hv. unfold dict_get. simpl.
  destruct (String.eqb key k); [|reflexivity].
  unfold py_or. rewrite Hv. reflexivity.
Qed.

(** X16. The diff looks at nothing but the two tracked keys and takes every
    falsy value for the empty list: putting any other key in front of a
    document, on either side, does not change the diff, and neither does
    replacing a value that is [None], [False], [0], [""], [[]] or [{}] by
    the empty list. *)
Theorem diff_ai_metadata_insensitive
    (k : string) (v : pyval) (d : pydict) (other : option pydict) :
  (k <> "framework_tags" -> k <> "capability_groups" ->
   app.diff_ai_metadata (Some ((k, v) :: d)) other
     = app.diff_ai_metadata (Some d) other
   /\ app.diff_ai_metadata other (Some ((k, v) :: d))
     = app.diff_ai_metadata other (Some d))
  /\ (truthy v = false ->
      app.diff_ai_metadata (Some ((k, v) :: d)) other
        = app.diff_ai_metadata (Some ((k, PyList []) :: d)) other
      /\ app.diff_ai_metadata other (Some ((k, v) :: d))
        = app.diff_ai_metadata other (Some ((k, PyList []) :: d))).
Proof.
  split.
  - intros Hf Hc. unfold app.diff_ai_metadata.
    rewrite !(dict_get_other_key k "framework_tags" v _ d Hf).
    rewrite !(dict_get_other_key k "capability_groups" v _ d Hc).
    split; reflexivity.
  - intros Hv. unfold app.diff_ai_metadata.
    rewrite !(tracked_falsy k "framework_tags" v d Hv).
    rewrite !(tracked_falsy k "capability_groups" v d Hv).
    split; reflexivity.
Qed.

(** ** The editor *)

Lemma lookup_key_in {A : Type} (k : string) (d : list (string * A)) :
  In k (map fst d) -> exists v : A, lookup k d = Some v.
Proof.
  induction d as [|[k' v'] d IH]; simpl; intros Hin.
  - destruct Hin.
  - destruct (String.eqb_spec k k') as [_|Hne].
    + exists v'. reflexivity.
    + destruct Hin as [Heq|Hin]; [symmetry in Heq; contradiction|].
      exact (IH Hin).
Qed.

Lemma dict_set_values {A : Type} (d : list (string * A)) (k : string) (v : A)
    (P : A -> Prop) :
  Forall (fun kv => P (snd kv)) d -> P v ->
  Forall (fun kv => P (snd kv)) (app.dict_set d k v).
Proof.
  induction 1 as [|[k' v'] d Hkv Hd IH]; intros Hv; simpl.
  - repeat constructor. exact Hv.
  - destruct (String.eqb k k').
    + constructor; [exact Hv | exact Hd].
    + constructor; [exact Hkv | exact (IH Hv)].
Qed.

Lemma dict_set_nonempty {A : Type} (d : list (string * A)) (k : string) (v : A) :
  app.dict_set d k v <> [].
Proof.
  destruct d as [|[k' v'] d]; simpl; [discriminate|].
  destruct (String.eqb k k'); discriminate.
Qed.

Lemma record_options_ids (recs : list Record_) :
  Forall (fun kv => exists r, In r recs /\ r_id r = snd kv)
         (app.record_options recs).
Proof.
  unfold app.record_options.
  assert (H : forall (done todo : list Record_) (acc : list (string * string)),
             Forall (fun kv => exists r, In r (done ++ todo) /\ r_id r = snd kv) acc ->
             Forall (fun kv => exists r, In r (done ++ todo) /\ r_id r = snd kv)
                    (fold_left (fun options r =>
                                  app.dict_set options (app.record_label r) (r_id r))
                               todo acc)).
  { intros done todo. revert done.
    induction todo as [|r todo IH]; intros done acc Hacc; simpl.
    - exact Hacc.
    - replace (done ++ r :: todo)%list with ((done ++ [r]) ++ todo)%list in *
        by (rewrite <- app_assoc; reflexivity).
      apply IH.
      apply (dict_set_values acc (app.record_label r) (r_id r)
               (fun i => exists r0, In r0 ((done ++ [r]) ++ todo) /\ r_id r0 = i));
        [exact Hacc|].
      exists r. split; [|reflexivity].
      apply in_or_app. left. apply in_or_app. right. left. reflexivity. }
  exact (H [] recs [] (Forall_nil _)).
Qed.

Lemma record_options_nonempty (r : Record_) (recs : list Record_) :
  app.record_options (r :: recs) <> [].
Proof.
  unfold app.record_options. simpl.
  assert (H : forall (todo : list Record_) (acc : list (string * string)),
             acc <> [] ->
             fold_left (fun options r =>
                          app.dict_set options (app.record_label r) (r_id r))
                       todo acc <> []).
  { induction todo as [|x todo IH]; intros acc Hacc; simpl.
    - exact Hacc.
    - apply IH, dict_set_nonempty. }
  apply H. discriminate.
Qed.

(** The record the selection box yields is one of the records listed. *)
Lemma selected_record_listed (recs : list Record_) (selected : nat) :
  recs <> [] ->
  let options := app.record_options recs in
  let label := nth selected (map fst options) (hd "" (map fst options)) in
  exists r : Record_,
    In r recs
    /\ match lookup label options with Some i => i | None => "" end = r_id r.
Proof.
  intros Hne options label.
  destruct recs as [|r0 recs']; [contradiction Hne; reflexivity|].
  assert (Hkeys : In label (map fst options)).
  { unfold label.
    destruct (map fst options) as [|k ks] eqn:Hk.
    - exfalso. apply (record_options_nonempty r0 recs').
      fold options. destruct options; [reflexivity | discriminate].
    - destruct (Nat.lt_ge_cases selected (List.length (k :: ks))) as [Hlt|Hge].
      + apply nth_In. exact Hlt.
      + rewrite nth_overflow by exact Hge. left. reflexivity. }
  destruct (lookup_key_in label options Hkeys) as [i Hi].
  rewrite Hi.
  pose proof (record_options_ids (r0 :: recs')) as Hids.
  fold options in Hids. rewrite Forall_forall in Hids.
  destruct (Hids (label, i) (lookup_in _ _ _ Hi)) as [r [Hin Hid]].
  exists r. split; [exact Hin | symmetry; exact Hid].
Qed.

(** What a run of the editor that saves has done. *)
Lemma show_editor_saved
    (env_version env_overrides : Env) (user : User) (selected : nat)
    (form : app.EditForm) (db db' : Store) (v : RecordVersion) :
  app.show_editor env_version env_overrides user selected form db
  = (Ok (app.Saved v), db') ->
  roles.is_viewer user = false
  /\ String.eqb (strip (app.title_input form)) "" = false
  /\ exists (listed rec_row : Record_) (previous : RecordVersion)
            (old_meta : pydict) (saved : Store),
       In listed (returned [] (repository.list_records_for_user user db))
       /\ r_id listed = r_id rec_row
       /\ repository.get_record_by_id (r_id rec_row) db = (Ok (Some rec_row), db)
       /\ repository.get_current_version (r_id rec_row) db
          = (Ok (Some previous), db)
       /\ app.existing_meta_of previous = PyDict old_meta
       /\ let overrides :=
            app.diff_ai_metadata (Some old_meta) (Some (app.new_meta_of form)) in
          repository.create_new_version env_version (r_id rec_row)
            (strip (app.title_input form)) (app.updated_content_of form) user
            (editor_version_type user overrides)
            (Some (app.status_text (app.status_input form))) db
          = (Ok v, saved)
          /\ (if String.eqb (editor_version_type user overrides) "override"
              then repository.log_override_events env_overrides (r_id rec_row)
                     (v_id v) overrides user saved = (Ok tt, db')
              else db' = saved).
Proof.
  unfold app.show_editor. intros H.
  destruct (roles.is_viewer user); [discriminate|].
  split; [reflexivity|].
  apply bind_ok in H. destruct H as [recs [s1 [Hlist H]]].
  assert (Hreturned : returned [] (repository.list_records_for_user user db) = recs)
    by (unfold returned; rewrite Hlist; reflexivity).
  rewrite list_records_for_user_eq in Hlist. inversion Hlist as [[Hrecs Hs1]].
  clear Hlist. subst s1.
  destruct recs as [|r0 recs'] eqn:Erecs; [discriminate|].
  destruct (selected_record_listed (r0 :: recs') selected) as [listed [Hin Hsel]];
    [discriminate|].
  cbv zeta in Hsel. rewrite Hsel in H.
  apply bind_ok in H. destruct H as [record [s2 [Hrec H]]].
  rewrite get_record_by_id_eq in Hrec. inversion Hrec as [[Hrecord Hs2]].
  clear Hrec. subst s2.
  destruct (find _ (records db)) as [rec_row|] eqn:Hfound;
    [|subst record; discriminate].
  subst record.
  assert (Hid : r_id rec_row = r_id listed).
  { apply find_some in Hfound. apply String.eqb_eq. exact (proj2 Hfound). }
  apply bind_ok in H. destruct H as [current [s3 [Hcur H]]].
  assert (Hs3 : s3 = db)
    by (rewrite get_current_version_eq in Hcur; inversion Hcur; reflexivity).
  subst s3.
  destruct current as [previous|]; [|discriminate].
  apply bind_ok in H. destruct H as [old_meta [s4 [Hdict H]]].
  apply as_dict_ok in Hdict. destruct Hdict as [Hmeta Hs4]. subst s4.
  apply bind_ok in H. destruct H as [u1 [s5 [Hj1 H]]].
  apply check_joinable_ok in Hj1. subst s5.
  apply bind_ok in H. destruct H as [u2 [s6 [Hj2 H]]].
  apply check_joinable_ok in Hj2. subst s6.
  destruct (String.eqb (strip (app.title_input form)) ""); [discriminate|].
  split; [reflexivity|].
  apply bind_ok in H. destruct H as [new_version [saved [Hcreate H]]].
  apply bind_ok in H. destruct H as [u3 [s8 [Hlog H]]].
  inversion H as [[Hv Hdb]]. clear H. subst new_version s8.
  exists listed, rec_row, previous, old_meta, saved.
  rewrite Hreturned.
  split; [exact Hin|]. split; [symmetry; exact Hid|].
  split; [rewrite get_record_by_id_eq, Hid, Hfound; reflexivity|].
  split; [exact Hcur|]. split; [exact Hmeta|].
  cbv zeta. split; [exact Hcreate|].
  fold (editor_version_type user
          (app.diff_ai_metadata (Some old_meta) (Some (app.new_meta_of form))))
    in Hlog.
  destruct (String.eqb (editor_version_type user _) "override").
  - destruct u3. exact Hlog.
  - inversion Hlog. reflexivity.
Qed.

Lemma listed_record_visible (user : User) (db : Store) (r : Record_) :
  In r (returned [] (repository.list_records_for_user user db)) ->
  In r (records db)
  /\ (role user = "user" -> r_created_by r = u_id user)
  /\ (role user <> "admin" -> role user <> "user" -> status r <> "draft").
Proof.
  unfold returned. rewrite list_records_for_user_eq. cbn [fst]. intros Hin.
  apply (Permutation_in _ (order_by_perm created_at_desc _)) in Hin.
  unfold roles.is_admin, roles.is_user, roles.ADMIN, roles.USER in Hin.
  destruct (String.eqb_spec (role user) "admin") as [Ha|Ha].
  - split; [exact Hin|]. split.
    + intros Hu. rewrite Hu in Ha. discriminate.
    + intros Hc. contradiction.
  - destruct (String.eqb_spec (role user) "user") as [Hu|Hu].
    + apply filter_In in Hin. destruct Hin as [Hin Hby].
      split; [exact Hin|]. split.
      * intros _. apply String.eqb_eq. exact Hby.
      * intros _ Hc. contradiction.
    + apply filter_In in Hin. destruct Hin as [Hin Hnd].
      split; [exact Hin|]. split.
      * intros Hc. contradiction.
      * intros _ _ Hc. unfold not_draft in Hnd. rewrite Hc in Hnd. discriminate.
Qed.

(** X17. The editor saves a version only for a user who is not a viewer,
    and only on a record that [list_records_for_user] lists for that user:
    for a plain user a record the user created, for a user whose role is
    none of admin, user and viewer a record that is not a draft. *)
Theorem editor_saves_only_listed_records
    (env_version env_overrides : Env) (user : User) (selected : nat)
    (form : app.EditForm) (db db' : Store) (v : RecordVersion) :
  app.show_editor env_version env_overrides user selected form db
  = (Ok (app.Saved v), db') ->
  role user <> "viewer"
  /\ exists r : Record_,
       In r (returned [] (repository.list_records_for_user user db))
       /\ In r (records db)
       /\ r_id r = v_record_id v
       /\ (role user = "user" -> r_created_by r = u_id user)
       /\ (role user <> "admin" -> role user <> "user" -> status r <> "draft").
Proof.
  intros H. apply show_editor_saved in H.
  destruct H as [Hviewer [_ [listed [rec_row [previous [old_meta [saved
                   [Hin [Hid [_ [_ [_ [Hcreate _]]]]]]]]]]]]].
  cbv zeta in Hcreate. apply create_new_version_ok in Hcreate.
  destruct Hcreate as [Hrid _].
  split.
  - intros Hc. unfold roles.is_viewer, roles.VIEWER in Hviewer.
    rewrite Hc in Hviewer. discriminate.
  - exists listed. split; [exact Hin|].
    destruct (listed_record_visible user db listed Hin) as [Hrec [Hu Ho]].
    split; [exact Hrec|]. split; [rewrite Hrid; exact Hid|].
    split; assumption.
Qed.

Lemma diff_ai_metadata_ext (a a' : pydict) (other : option pydict) :
  dict_get a "framework_tags" (PyList []) = dict_get a' "framework_tags" (PyList []) ->
  dict_get a "capability_groups" (PyList [])
    = dict_get a' "capability_groups" (PyList []) ->
  app.diff_ai_metadata (Some a) other = app.diff_ai_metadata (Some a') other.
Proof.
  intros Hf Hc. unfold app.diff_ai_metadata. rewrite Hf, Hc. reflexivity.
Qed.

(** X18. Saving without touching the tags is never an override.  If the
    previous version holds lists of clean tags and the two tag fields of the
    form hold those lists joined with ", " (what the editor puts there),
    then the saved version has type "edit" and no override event is added,
    also for an admin. *)
Theorem untouched_tags_save_is_edit
    (env_version env_overrides : Env) (user : User) (selected : nat)
    (form : app.EditForm) (db db' : Store) (v previous : RecordVersion)
    (old_meta : pydict) (framework_tags capability_groups : list string) :
  app.show_editor env_version env_overrides user selected form db
  = (Ok (app.Saved v), db') ->
  repository.get_current_version (v_record_id v) db = (Ok (Some previous), db) ->
  app.existing_meta_of previous = PyDict old_meta ->
  dict_get old_meta "framework_tags" (PyList [])
    = PyList (map PyStr framework_tags) ->
  dict_get old_meta "capability_groups" (PyList [])
    = PyList (map PyStr capability_groups) ->
  forallb clean_tag framework_tags = true ->
  forallb clean_tag capability_groups = true ->
  app.framework_tags_str form = str_join ", " framework_tags ->
  app.capability_groups_str form = str_join ", " capability_groups ->
  version_type v = "edit"
  /\ override_events db' = override_events db
  /\ app.diff_ai_metadata (Some old_meta) (Some (app.new_meta_of form)) = [].
Proof.
  intros H Hprev Hmeta Hf Hc Hcf Hcc Hfs Hcs.
  apply show_editor_saved in H.
  destruct H as [_ [_ [listed [rec_row [previous' [old_meta' [saved
                   [_ [_ [_ [Hcur [Hmeta' [Hcreate Hlog]]]]]]]]]]]]].
  cbv zeta in Hcreate, Hlog.
  pose proof (create_new_version_ok _ _ _ _ _ _ _ _ _ _ Hcreate)
    as [Hrid [Htype [_ [_ [_ Hevents]]]]].
  rewrite Hrid in Hprev. rewrite Hprev in Hcur.
  inversion Hcur. subst previous'.
  rewrite Hmeta in Hmeta'. inversion Hmeta'. subst old_meta'.
  assert (Hdiff : app.diff_ai_metadata (Some old_meta) (Some (app.new_meta_of form))
                  = []).
  { rewrite (diff_ai_metadata_ext old_meta
               (tags_meta framework_tags capability_groups));
      [| rewrite Hf; reflexivity | rewrite Hc; reflexivity ].
    change (app.new_meta_of form)
      with (tags_meta (parse_tags (app.framework_tags_str form))
                      (parse_tags (app.capability_groups_str form))).
    rewrite Hfs, Hcs.
    rewrite !parse_joined_tags
      by (apply Forall_forall; rewrite forallb_forall in *; assumption).
    rewrite diff_of_tags_eq, !py_ne_str_lists.
    destruct (list_eqb_strings framework_tags framework_tags) as [[_ E]|[N _]];
      [rewrite E | contradiction N; reflexivity].
    destruct (list_eqb_strings capability_groups capability_groups)
      as [[_ E']|[N _]]; [rewrite E' | contradiction N; reflexivity].
    reflexivity. }
  rewrite Hdiff in Htype, Hlog.
  unfold editor_version_type in Htype, Hlog. rewrite andb_false_r in Htype, Hlog.
  simpl in Hlog. subst db'.
  split; [exact Htype|]. split; [exact Hevents | exact Hdiff].
Qed.

Lemma create_new_version_success
    (env : Env) (record_id new_title : string) (content_arg : pydict)
    (user : User) (version_type_arg : string) (new_status : option string)
    (db db' : Store) (v : RecordVersion) :
  repository.create_new_version
    env record_id new_title content_arg user version_type_arg new_status db
  = (Ok v, db') ->
  exists rec_row : Record_,
    find (repository.has_id record_id) (records db) = Some rec_row
    /\ existsb (fun x => String.eqb (v_id x) (v_id v)) (record_versions db) = false
    /\ v = new_version_row env record_id content_arg user version_type_arg db rec_row
    /\ db' = mkStore
               (map (repoint record_id (v_id v)
                             (final_status_of new_status rec_row) new_title)
                    (records db))
               (record_versions db ++ [v])%list
               (comments db) (override_events db).
Proof.
  rewrite create_new_version_eq.
  destruct (find (repository.has_id record_id) (records db)) as [rec_row|];
    [|discriminate].
  cbv zeta.
  destruct (sqlite_integer _); [|discriminate].
  destruct (existsb _ (record_versions db)) eqn:Hfresh; [discriminate|].
  intros H. inversion H. subst. exists rec_row. repeat split. exact Hfresh.
Qed.

Lemma find_unique {A : Type} (p : A -> bool) (l : list A) (x : A) :
  In x l -> p x = true -> (forall y, In y l -> p y = true -> y = x) ->
  find p l = Some x.
Proof.
  induction l as [|y l IH]; simpl; intros Hin Hp Huniq.
  - destruct Hin.
  - destruct (p y) eqn:Hy.
    + f_equal. apply Huniq; [left; reflexivity | exact Hy].
    + destruct Hin as [Heq|Hin]; [subst y; rewrite Hp in Hy; discriminate|].
      apply IH; [exact Hin | exact Hp |].
      intros z Hz. apply Huniq. right. exact Hz.
Qed.

Lemma saved_tables
    (env_overrides : Env) (record_id : string) (v : RecordVersion)
    (overrides : list (string * pyval * pyval)) (user : User)
    (vt : string) (saved db' : Store) :
  (if String.eqb vt "override"
   then repository.log_override_events env_overrides record_id (v_id v)
          overrides user saved = (Ok tt, db')
   else db' = saved) ->
  records db' = records saved
  /\ record_versions db' = record_versions saved
  /\ comments db' = comments saved.
Proof.
  destruct (String.eqb vt "override").
  - intros H. apply log_override_events_ok in H. subst db'. repeat split.
  - intros ->. repeat split.
Qed.

(** X19. What a save of the editor leaves behind.  The saved version holds
    the form: stripped texts, and tag lists in which every tag is clean; it is
    signed by the user and it is the current version of its record.  The
    record carries the stripped title, which is not empty, and the status
    chosen in the form, "draft" or "submitted". *)
Theorem editor_save_records_the_form
    (env_version env_overrides : Env) (user : User) (selected : nat)
    (form : app.EditForm) (db db' : Store) (v : RecordVersion) :
  app.show_editor env_version env_overrides user selected form db
  = (Ok (app.Saved v), db') ->
  content v
  = [ ("business_problem", PyStr (strip (app.business_problem_input form)));
      ("description", PyStr (strip (app.description_input form)));
      ("ai_metadata",
        PyDict (tags_meta (parse_tags (app.framework_tags_str form))
                          (parse_tags (app.capability_groups_str form)))) ]
  /\ Forall (fun t => clean_tag t = true)
            (parse_tags (app.framework_tags_str form)
             ++ parse_tags (app.capability_groups_str form))
  /\ v_created_by v = u_id user
  /\ created_by_name v = display_name user
  /\ repository.get_current_version (v_record_id v) db' = (Ok (Some v), db')
  /\ exists r' : Record_,
       repository.get_record_by_id (v_record_id v) db' = (Ok (Some r'), db')
       /\ title r' = strip (app.title_input form)
       /\ title r' <> ""
       /\ status r' = app.status_text (app.status_input form)
       /\ (status r' = "draft" \/ status r' = "submitted").
Proof.
  intros H. apply show_editor_saved in H.
  destruct H as [_ [Htitle [listed [rec_row [previous [old_meta [saved
                   [_ [_ [_ [_ [_ [Hcreate Hlog]]]]]]]]]]]]].
  cbv zeta in Hcreate, Hlog.
  apply saved_tables in Hlog. destruct Hlog as [Hr [Hv _]].
  apply create_new_version_success in Hcreate.
  destruct Hcreate as [row [Hfind [Hfresh [Hrow Hsaved]]]].
  split; [rewrite Hrow; reflexivity|].
  split; [apply Forall_app; split; apply parse_tags_clean|].
  split; [rewrite Hrow; reflexivity|].
  split; [rewrite Hrow; reflexivity|].
  assert (Hrid : v_record_id v = r_id rec_row) by (rewrite Hrow; reflexivity).
  rewrite Hrid.
  assert (Hrecs : find (repository.has_id (r_id rec_row)) (records db')
                  = Some (mkRecord (r_id row) (strip (app.title_input form))
                            (record_type row) (Some (v_id v))
                            (r_created_by row) (r_created_at row)
                            (app.status_text (app.status_input form)))).
  { rewrite Hr, Hsaved. cbn [records].
    exact (find_repoint _ _ _ _ _ _ Hfind). }
  split.
  - rewrite get_current_version_eq, Hrecs. cbn [current_version_id].
    rewrite Hv, Hsaved. cbn [record_versions].
    rewrite (find_fresh_last _ _ _ Hfresh (String.eqb_refl _)). reflexivity.
  - eexists. rewrite get_record_by_id_eq, Hrecs.
    split; [reflexivity|]. cbn [title status].
    split; [reflexivity|]. split.
    + intros Hc. rewrite Hc in Htitle. discriminate.
    + split; [reflexivity|].
      destruct (app.status_input form); [left | right]; reflexivity.
Qed.

(** X20. The override history can name the version of every override the
    editor logs.  After a save of type "override", the events the save
    appended are listed by [list_overrides_for_record] for the record, and
    for each of them the "Version #" cell of the history page, looked up in
    [list_versions_for_record], is the number of the saved version, never
    the placeholder. *)
Theorem override_history_names_the_version
    (env_version env_overrides : Env) (user : User) (selected : nat)
    (form : app.EditForm) (db db' : Store) (v : RecordVersion) :
  app.show_editor env_version env_overrides user selected form db
  = (Ok (app.Saved v), db') ->
  version_type v = "override" ->
  exists events : list OverrideEvent,
    override_events db' = (override_events db ++ events)%list
    /\ events <> []
    /\ Forall (fun e =>
                 In e (returned [] (repository.list_overrides_for_record
                                      (v_record_id v) db'))
                 /\ override_row_version
                      (returned [] (repository.list_versions_for_record
                                      (v_record_id v) db')) e
                    = PyInt (version_number v))
              events.
Proof.
  intros H Hover. apply show_editor_saved in H.
  destruct H as [_ [_ [listed [rec_row [previous [old_meta [saved
                   [_ [_ [_ [_ [_ [Hcreate Hlog]]]]]]]]]]]]].
  cbv zeta in Hcreate, Hlog.
  apply create_new_version_success in Hcreate.
  destruct Hcreate as [row [Hfind [Hfresh [Hrow Hsaved]]]].
  set (overrides := app.diff_ai_metadata (Some old_meta)
                                         (Some (app.new_meta_of form))) in *.
  assert (Htype : editor_version_type user overrides = "override")
    by (rewrite <- Hover, Hrow; reflexivity).
  assert (Hne : overrides <> []).
  { intros Hc. unfold editor_version_type in Htype. rewrite Hc in Htype.
    rewrite andb_false_r in Htype. discriminate. }
  rewrite Htype in Hlog. simpl in Hlog.
  apply log_override_events_ok in Hlog.
  assert (Hrid : v_record_id v = r_id rec_row) by (rewrite Hrow; reflexivity).
  pose proof (override_event_rows_attributed env_overrides (r_id rec_row)
                (v_id v) user (now_toronto_iso env_overrides) overrides 0)
    as Hrows.
  set (rows := override_event_rows env_overrides (r_id rec_row) (v_id v) user
                 (now_toronto_iso env_overrides) 0 overrides) in *.
  exists rows. split; [rewrite Hlog, Hsaved; reflexivity|]. split.
  { unfold rows. destruct overrides as [|[[fp ov] nv] rest];
      [contradiction Hne; reflexivity | discriminate]. }
  apply Forall_forall. intros e He.
  rewrite Forall_forall in Hrows. destruct (Hrows e He) as [Herec [Hever _]].
  unfold returned.
  rewrite list_overrides_for_record_eq, list_versions_for_record_eq.
  cbn [fst]. rewrite Hrid. split.
  - apply (Permutation_in _ (Permutation_sym (order_by_perm overridden_at_asc _))).
    apply filter_In. split.
    + rewrite Hlog. unfold set_override_events. cbn [override_events].
      apply in_or_app. right. exact He.
    + unfold of_event_record. rewrite Herec. apply String.eqb_refl.
  - unfold override_row_version. rewrite Hever.
    assert (Hversions : record_versions db' = (record_versions db ++ [v])%list)
      by (rewrite Hlog, Hsaved; reflexivity).
    rewrite Hversions.
    rewrite (find_unique (fun x => String.eqb (v_id x) (v_id v)) _ v).
    + reflexivity.
    + apply (Permutation_in _ (Permutation_sym (order_by_perm version_number_asc _))).
      apply filter_In. split; [apply in_or_app; right; left; reflexivity|].
      unfold repository.of_record. rewrite Hrid. apply String.eqb_refl.
    + apply String.eqb_refl.
    + intros y Hy Hyid.
      apply (Permutation_in _ (order_by_perm version_number_asc _)) in Hy.
      apply filter_In in Hy. destruct Hy as [Hy _].
      apply in_app_or in Hy. destruct Hy as [Hy|[Hy|[]]]; [|symmetry; exact Hy].
      exfalso.
      assert (Hex : existsb (fun x => String.eqb (v_id x) (v_id v))
                            (record_versions db) = true)
        by (apply existsb_exists; exists y; split; assumption).
      rewrite Hex in Hfresh. discriminate.
Qed.

(** ** The history page *)

Lemma py_join_ok {S : Type} (v : pyval) (b : string) (s s' : S) :
  py_join v s = (Ok b, s') -> s' = s.
Proof.
  destruct v as [| | | |l|d]; simpl; intros H; try discriminate;
    try (inversion H; reflexivity).
  destruct (strings_of l); [inversion H; reflexivity | discriminate].
Qed.

Lemma joined_row_ok {S : Type} (cond : bool) (x y : pyval) (field : string)
    (rows rows' : list diff_row) (s s' : S) :
  (if cond then
     bind (py_join x) (fun b =>
       bind (py_join y) (fun c =>
         ret (rows ++ [(field, PyStr b, PyStr c)])%list))
   else ret rows) s = (Ok rows', s') ->
  s' = s
  /\ map (fun e => fst (fst e)) rows'
     = (map (fun e => fst (fst e)) rows ++ if cond then [field] else [])%list.
Proof.
  destruct cond; intros H.
  - apply bind_ok in H. destruct H as [b [s1 [Hb H]]].
    apply py_join_ok in Hb. subst s1.
    apply bind_ok in H. destruct H as [c [s2 [Hc H]]].
    apply py_join_ok in Hc. subst s2.
    inversion H. split; [reflexivity|].
    rewrite map_app. reflexivity.
  - inversion H. split; [reflexivity|]. rewrite app_nil_r. reflexivity.
Qed.

(** X21. The comparison of the history page agrees with the diff engine.
    It refuses to compare a version with itself.  When it produces rows for
    two versions, the fields listed are, in this order, the text fields
    [business_problem] and [description] whose values differ, followed by
    exactly the field paths [diff_ai_metadata] reports between the metadata
    of the two versions; and it reads nothing but the two versions. *)
Theorem show_differences_agrees_with_diff
    (base_version compare_version : RecordVersion) (db : Store) :
  (String.eqb (v_id base_version) (v_id compare_version) = true ->
   show_differences base_version compare_version db = (Ok None, db))
  /\ (forall (rows : list diff_row) (db' : Store),
        show_differences base_version compare_version db = (Ok (Some rows), db') ->
        db' = db
        /\ v_id base_version <> v_id compare_version
        /\ exists base_meta compare_meta : pydict,
             app.existing_meta_of base_version = PyDict base_meta
             /\ app.existing_meta_of compare_version = PyDict compare_meta
             /\ map (fun e => fst (fst e)) rows
                = (text_fields_changed base_version compare_version
                   ++ map (fun e => fst (fst e))
                          (app.diff_ai_metadata (Some base_meta)
                                                (Some compare_meta)))%list).
Proof.
  split.
  - intros Hid. unfold show_differences. rewrite Hid. reflexivity.
  - intros rows db' H. unfold show_differences in H.
    destruct (String.eqb_spec (v_id base_version) (v_id compare_version))
      as [Heq|Hne]; [discriminate|].
    cbv zeta in H.
    apply bind_ok in H. destruct H as [mb [s1 [Hb H]]].
    apply as_dict_ok in Hb. destruct Hb as [Hmb Hs1]. subst s1.
    apply bind_ok in H. destruct H as [mc [s2 [Hc H]]].
    apply as_dict_ok in Hc. destruct Hc as [Hmc Hs2]. subst s2.
    apply bind_ok in H. destruct H as [rows1 [s3 [Hrow1 H]]].
    apply joined_row_ok in Hrow1. destruct Hrow1 as [Hs3 Hrows1]. subst s3.
    apply bind_ok in H. destruct H as [rows2 [s4 [Hrow2 H]]].
    apply joined_row_ok in Hrow2. destruct Hrow2 as [Hs4 Hrows2]. subst s4.
    inversion H. subst rows2 db'. clear H.
    split; [reflexivity|]. split; [exact Hne|].
    exists mb, mc. split; [exact Hmb|]. split; [exact Hmc|].
    rewrite Hrows2, Hrows1. unfold text_fields_changed, app.diff_ai_metadata.
    destruct (py_ne (dict_get (content base_version) "business_problem" _) _);
      destruct (py_ne (dict_get (content base_version) "description" _) _);
      destruct (py_ne (py_or (dict_get mb "framework_tags" _) _) _);
      destruct (py_ne (py_or (dict_get mb "capability_groups" _) _) _);
      reflexivity.
Qed.

(* ===================================================================== *)
(** ** The rest of the editor                                             *)
(* ===================================================================== *)

Lemma show_editor_create_eq (env : Env) (user : User) (form : CreateForm) (db : Store) :
  show_editor_create env user form db
  = if roles.is_viewer user then (Ok CreateViewerNotice, db)
    else if String.eqb (strip (new_title_input form)) "" then (Ok CreateTitleRequired, db)
    else
      match repository.create_record_with_initial_version
              env (strip (new_title_input form)) "ai_use_case"
              (new_content_of form) user
              (app.status_text (new_status_input form)) db with
      | (Ok r, db') => (Ok (Created r), db')
      | (Raise e, db') => (Raise e, db')
      end.
Proof.
  unfold show_editor_create, bind, ret.
  destruct (roles.is_viewer user); [reflexivity|].
  destruct (String.eqb (strip (new_title_input form)) ""); [reflexivity|].
  destruct (repository.create_record_with_initial_version _ _ _ _ _ _ db)
    as [[r|e] db']; reflexivity.
Qed.

Lemma in_order_by {A : Type} (leb : A -> A -> bool) (l : list A) (x : A) :
  In x (order_by leb l) <-> In x l.
Proof.
  split; intros H.
  - exact (Permutation_in _ (order_by_perm leb l) H).
  - exact (Permutation_in _ (Permutation_sym (order_by_perm leb l)) H).
Qed.

(** X22. The tab "Create New".  A viewer, and a form whose title is blank,
    leave the database untouched.  A record that is created carries the
    stripped, non-blank title, the type "ai_use_case", the status chosen and
    the creator's id; with it comes exactly one version, numbered 1, holding
    the stripped texts and tag lists that are clean; comments and override
    events are untouched.  An admin or plain user finds the record listed
    right away; a creator of any other role finds it listed exactly when it
    was created as "submitted". *)
Theorem create_tab_outcomes (env : Env) (user : User) (form : CreateForm) (db : Store) :
  (roles.is_viewer user = true ->
   show_editor_create env user form db = (Ok CreateViewerNotice, db))
  /\ (roles.is_viewer user = false ->
      strip (new_title_input form) = "" ->
      show_editor_create env user form db = (Ok CreateTitleRequired, db))
  /\ (forall (r : Record_) (db' : Store),
        show_editor_create env user form db = (Ok (Created r), db') ->
        roles.is_viewer user = false
        /\ title r = strip (new_title_input form) /\ title r <> ""
        /\ record_type r = "ai_use_case"
        /\ status r = app.status_text (new_status_input form)
        /\ r_created_by r = u_id user
        /\ records db' = (records db ++ [r])%list
        /\ (exists v : RecordVersion,
              record_versions db' = (record_versions db ++ [v])%list
              /\ v_record_id v = r_id r /\ version_number v = 1
              /\ current_version_id r = Some (v_id v)
              /\ content v = new_content_of form
              /\ Forall (fun t => clean_tag t = true)
                        (parse_tags (new_framework_tags_str form)
                         ++ parse_tags (new_capability_groups_str form))%list)
        /\ comments db' = comments db
        /\ override_events db' = override_events db
        /\ let listed := returned [] (repository.list_records_for_user user db') in
           (roles.is_admin user || roles.is_user user = true -> In r listed)
           /\ (roles.is_admin user || roles.is_user user = false ->
               (In r listed <-> new_status_input form = app.submitted))).
Proof.
  rewrite show_editor_create_eq.
  split; [intros Hv; rewrite Hv; reflexivity|].
  split; [intros Hv Ht; rewrite Hv, Ht; reflexivity|].
  intros r db' H.
  destruct (roles.is_viewer user); [discriminate|].
  destruct (String.eqb_spec (strip (new_title_input form)) "") as [Ht|Ht];
    [discriminate|].
  rewrite create_record_with_initial_version_eq in H. cbv zeta in H.
  destruct (existsb _ (records db)); [discriminate|].
  destruct (existsb _ (record_versions db)); [discriminate|].
  inversion H as [[Hr Hdb]]. clear H.
  split; [reflexivity|].
  split; [reflexivity|]. split; [exact Ht|].
  split; [reflexivity|]. split; [reflexivity|]. split; [reflexivity|].
  split; [reflexivity|].
  split.
  { exists (initial_version_row env (new_content_of form) user).
    repeat split.
    apply Forall_app. split; apply parse_tags_clean. }
  split; [reflexivity|]. split; [reflexivity|].
  cbv zeta. unfold returned. rewrite list_records_for_user_eq. cbn [fst records].
  set (r0 := initial_record_row env _ _ user _).
  split.
  - intros Hrole. apply in_order_by.
    destruct (roles.is_admin user).
    + apply in_or_app. right. left. reflexivity.
    + simpl in Hrole. rewrite Hrole. apply filter_In. split.
      * apply in_or_app. right. left. reflexivity.
      * unfold authored_by, r0. simpl. apply String.eqb_refl.
  - intros Hrole. apply orb_false_iff in Hrole. destruct Hrole as [Ha Hu].
    rewrite Ha, Hu. rewrite in_order_by, filter_In.
    unfold not_draft, r0. cbn [status initial_record_row].
    split.
    + intros [_ Hnd]. destruct (new_status_input form); [discriminate|reflexivity].
    + intros Hs. rewrite Hs. split; [|reflexivity].
      apply in_or_app. right. left. reflexivity.
Qed.

Lemma show_editor_comments_card
    (env : Env) (user : User) (selected : nat) (editing_comment_id : option string)
    (event : comment_event) (db db' : Store) (out : comment_page * option string) :
  show_editor_comments env user selected editing_comment_id event db = (Ok out, db') ->
  (db' = db /\ snd out = editing_comment_id
   /\ (fst out = CommentViewerNotice \/ fst out = CommentNoRecords
       \/ fst out = CommentRecordNotFound \/ fst out = CommentNoCurrentVersion))
  \/ (roles.is_viewer user = false
      /\ exists (listed rec_row : Record_) (current : RecordVersion),
           In listed (returned [] (repository.list_records_for_user user db))
           /\ r_id listed = r_id rec_row
           /\ repository.get_record_by_id (r_id rec_row) db = (Ok (Some rec_row), db)
           /\ repository.get_current_version (r_id rec_row) db
              = (Ok (Some current), db)
           /\ comment_card env user rec_row current editing_comment_id event db
              = (Ok out, db')).
Proof.
  unfold show_editor_comments. intros H.
  destruct (roles.is_viewer user);
    [inversion H; left; simpl; tauto|].
  apply bind_ok in H. destruct H as [recs [s1 [Hlist H]]].
  assert (Hreturned : returned [] (repository.list_records_for_user user db) = recs)
    by (unfold returned; rewrite Hlist; reflexivity).
  rewrite list_records_for_user_eq in Hlist. inversion Hlist as [[Hrecs Hs1]].
  clear Hlist. subst s1.
  destruct recs as [|r0 recs'] eqn:Erecs;
    [inversion H; left; simpl; tauto|].
  destruct (selected_record_listed (r0 :: recs') selected) as [listed [Hin Hsel]];
    [discriminate|].
  cbv zeta in Hsel. rewrite Hsel in H.
  apply bind_ok in H. destruct H as [record [s2 [Hrec H]]].
  rewrite get_record_by_id_eq in Hrec. inversion Hrec as [[Hrecord Hs2]].
  clear Hrec. subst s2.
  destruct (find _ (records db)) as [rec_row|] eqn:Hfound;
    [|subst record; inversion H; left; simpl; tauto].
  subst record.
  assert (Hid : r_id rec_row = r_id listed).
  { apply find_some in Hfound. apply String.eqb_eq. exact (proj2 Hfound). }
  apply bind_ok in H. destruct H as [current [s3 [Hcur H]]].
  assert (Hs3 : s3 = db)
    by (rewrite get_current_version_eq in Hcur; inversion Hcur; reflexivity).
  subst s3.
  destruct current as [current|]; [|inversion H; left; simpl; tauto].
  apply bind_ok in H. destruct H as [old_meta [s4 [Hdict H]]].
  apply as_dict_ok in Hdict. destruct Hdict as [Hmeta Hs4]. subst s4.
  apply bind_ok in H. destruct H as [u1 [s5 [Hj1 H]]].
  apply check_joinable_ok in Hj1. subst s5.
  apply bind_ok in H. destruct H as [u2 [s6 [Hj2 H]]].
  apply check_joinable_ok in Hj2. subst s6.
  right. split; [reflexivity|].
  exists listed, rec_row, current. rewrite Hreturned.
  split; [exact Hin|]. split; [symmetry; exact Hid|].
  split; [rewrite get_record_by_id_eq, Hid, Hfound; reflexivity|].
  split; [exact Hcur | exact H].
Qed.

Lemma comment_card_cases
    (env : Env) (user : User) (record : Record_) (current : RecordVersion)
    (editing_comment_id ed' : option string) (event : comment_event)
    (db db' : Store) (p : comment_page) :
  comment_card env user record current editing_comment_id event db
  = (Ok (p, ed'), db') ->
  let listed := returned [] (repository.list_comments_for_record (r_id record) db) in
  match p with
  | EditingStarted =>
      db' = db
      /\ exists (i : nat) (c : Comment),
           event = PressEdit i /\ nth_error listed i = Some c
           /\ can_manage user c = true /\ ed' = Some (c_id c)
  | CommentDeleted =>
      ed' = editing_comment_id
      /\ exists (i : nat) (c : Comment),
           event = PressDelete i /\ nth_error listed i = Some c
           /\ can_manage user c = true
           /\ repository.delete_comment (c_id c) db = (Ok tt, db')
  | CommentUpdated =>
      ed' = None
      /\ exists (id edit_text : string),
           event = PressSaveChanges edit_text /\ editing_comment_id = Some id
           /\ id <> "" /\ strip edit_text <> ""
           /\ repository.update_comment env id (strip edit_text) db = (Ok tt, db')
  | EditCancelled =>
      db' = db /\ ed' = None /\ event = PressCancelEdit
      /\ is_editing editing_comment_id = true
  | CommentPosted c =>
      ed' = editing_comment_id /\ is_editing editing_comment_id = false
      /\ exists comment_text : string,
           event = PressPost comment_text /\ strip comment_text <> ""
           /\ repository.add_comment env (r_id record) (Some (v_id current))
                (strip comment_text) user db = (Ok c, db')
  | CommentEmpty | NotOnThePage => db' = db /\ ed' = editing_comment_id
  | _ => False
  end.
Proof.
  unfold comment_card. intros H. cbv zeta.
  apply bind_ok in H. destruct H as [listed [s1 [Hlist H]]].
  assert (Hreturned :
            returned [] (repository.list_comments_for_record (r_id record) db)
            = listed)
    by (unfold returned; rewrite Hlist; reflexivity).
  rewrite list_comments_for_record_eq in Hlist. inversion Hlist as [[Hl Hs1]].
  clear Hlist. subst s1. rewrite Hreturned. clear Hreturned Hl.
  destruct event as [i|i|edit_text| |comment_text].
  - destruct (nth_error listed i) as [c|] eqn:Hnth.
    + destruct (can_manage user c) eqn:Hcan; inversion H; subst.
      * split; [reflexivity|]. exists i, c. repeat split; assumption.
      * split; reflexivity.
    + inversion H. split; reflexivity.
  - destruct (nth_error listed i) as [c|] eqn:Hnth.
    + destruct (can_manage user c) eqn:Hcan.
      * apply bind_ok in H. destruct H as [u [s2 [Hdel H]]].
        inversion H; subst. split; [reflexivity|].
        exists i, c. destruct u. repeat split; assumption.
      * inversion H. split; reflexivity.
    + inversion H. split; reflexivity.
  - destruct editing_comment_id as [id|]; [|inversion H; split; reflexivity].
    unfold is_editing in H.
    destruct (String.eqb_spec id "") as [Hid|Hid]; simpl in H;
      [inversion H; split; reflexivity|].
    destruct (String.eqb_spec (strip edit_text) "") as [Ht|Ht];
      [inversion H; split; reflexivity|].
    apply bind_ok in H. destruct H as [u [s2 [Hup H]]].
    inversion H; subst. split; [reflexivity|].
    exists id, edit_text. destruct u. repeat split; assumption.
  - destruct (is_editing editing_comment_id) eqn:Hed; inversion H; subst.
    + repeat split; reflexivity.
    + split; reflexivity.
  - destruct (is_editing editing_comment_id) eqn:Hed;
      [inversion H; split; reflexivity|].
    destruct (String.eqb_spec (strip comment_text) "") as [Ht|Ht];
      [inversion H; split; reflexivity|].
    apply bind_ok in H. destruct H as [c [s2 [Hadd H]]].
    inversion H; subst. split; [reflexivity|]. split; [reflexivity|].
    exists comment_text. repeat split; assumption.
Qed.

Lemma bind_raise {S A B : Type} (m : M S A) (k : A -> M S B) (s s' : S) (e : exn) :
  bind m k s = (Raise e, s') ->
  m s = (Raise e, s')
  \/ exists (a : A) (s1 : S), m s = (Ok a, s1) /\ k a s1 = (Raise e, s').
Proof.
  unfold bind. destruct (m s) as [[a|e0] s1]; intros H.
  - right. exists a, s1. split; [reflexivity | exact H].
  - left. inversion H. reflexivity.
Qed.

Lemma as_dict_state {S : Type} (v : pyval) (s : S) : snd (app.as_dict v s) = s.
Proof. destruct v; reflexivity. Qed.

Lemma check_joinable_state {S : Type} (v : pyval) (s : S) :
  snd (app.check_joinable v s) = s.
Proof.
  destruct v as [| | | |l|]; try reflexivity.
  simpl. destruct (forallb app.is_str l); reflexivity.
Qed.

Lemma comment_card_raise
    (env : Env) (user : User) (record : Record_) (current : RecordVersion)
    (editing_comment_id : option string) (event : comment_event)
    (db db' : Store) (e : exn) :
  comment_card env user record current editing_comment_id event db
  = (Raise e, db') ->
  db' = db.
Proof.
  unfold comment_card. intros H.
  apply bind_raise in H. destruct H as [H|[listed [s1 [Hlist H]]]];
    [rewrite list_comments_for_record_eq in H; discriminate|].
  rewrite list_comments_for_record_eq in Hlist. inversion Hlist as [[Hl Hs1]].
  clear Hlist Hl. subst s1.
  destruct event as [i|i|edit_text| |comment_text].
  - destruct (nth_error listed i) as [c|]; [|discriminate].
    destruct (can_manage user c); discriminate.
  - destruct (nth_error listed i) as [c|]; [|discriminate].
    destruct (can_manage user c); [|discriminate].
    apply bind_raise in H. destruct H as [H|[u [s2 [_ H]]]]; discriminate.
  - destruct editing_comment_id as [id|]; [|discriminate].
    destruct (is_editing (Some id)); [|discriminate].
    destruct (String.eqb (strip edit_text) ""); [discriminate|].
    apply bind_raise in H. destruct H as [H|[u [s2 [_ H]]]]; discriminate.
  - destruct (is_editing editing_comment_id); discriminate.
  - destruct (is_editing editing_comment_id); [discriminate|].
    destruct (String.eqb (strip comment_text) ""); [discriminate|].
    apply bind_raise in H. destruct H as [H|[c [s2 [_ H]]]]; [|discriminate].
    rewrite add_comment_eq in H. cbv zeta in H.
    destruct (existsb _ (comments db)); [|discriminate].
    inversion H. reflexivity.
Qed.

Lemma show_editor_comments_raise
    (env : Env) (user : User) (selected : nat) (editing_comment_id : option string)
    (event : comment_event) (db db' : Store) (e : exn) :
  show_editor_comments env user selected editing_comment_id event db
  = (Raise e, db') ->
  db' = db.
Proof.
  unfold show_editor_comments. intros H.
  destruct (roles.is_viewer user); [discriminate|].
  apply bind_raise in H. destruct H as [H|[recs [s1 [Hlist H]]]];
    [rewrite list_records_for_user_eq in H; discriminate|].
  rewrite list_records_for_user_eq in Hlist. inversion Hlist as [[Hrecs Hs1]].
  clear Hlist Hrecs. subst s1.
  destruct recs as [|r0 recs']; [discriminate|].
  cbv zeta in H.
  apply bind_raise in H. destruct H as [H|[record [s2 [Hrec H]]]];
    [rewrite get_record_by_id_eq in H; discriminate|].
  rewrite get_record_by_id_eq in Hrec. inversion Hrec as [[Hrecord Hs2]].
  clear Hrec Hrecord. subst s2.
  destruct record as [record|]; [|discriminate].
  apply bind_raise in H. destruct H as [H|[current [s3 [Hcur H]]]];
    [rewrite get_current_version_eq in H; discriminate|].
  assert (Hs3 : s3 = db)
    by (rewrite get_current_version_eq in Hcur; inversion Hcur; reflexivity).
  subst s3.
  destruct current as [current|]; [|discriminate].
  apply bind_raise in H. destruct H as [H|[old_meta [s4 [Hdict H]]]].
  { pose proof (as_dict_state (app.existing_meta_of current) db) as Hs.
    rewrite H in Hs. exact Hs. }
  apply as_dict_ok in Hdict. destruct Hdict as [_ Hs4]. subst s4.
  apply bind_raise in H. destruct H as [H|[u1 [s5 [Hj1 H]]]].
  { pose proof (check_joinable_state
                  (dict_get old_meta "framework_tags" (PyList [])) db) as Hs.
    rewrite H in Hs. exact Hs. }
  apply check_joinable_ok in Hj1. subst s5.
  apply bind_raise in H. destruct H as [H|[u2 [s6 [Hj2 H]]]].
  { pose proof (check_joinable_state
                  (dict_get old_meta "capability_groups" (PyList [])) db) as Hs.
    rewrite H in Hs. exact Hs. }
  apply check_joinable_ok in Hj2. subst s6.
  exact (comment_card_raise _ _ _ _ _ _ _ _ _ H).
Qed.

Lemma listed_comment (record_id : string) (db : Store) (i : nat) (c : Comment) :
  nth_error (returned [] (repository.list_comments_for_record record_id db)) i
  = Some c ->
  In c (comments db) /\ c_record_id c = record_id.
Proof.
  unfold returned. rewrite list_comments_for_record_eq. cbn [fst]. intros H.
  apply nth_error_In in H. apply in_order_by in H. apply filter_In in H.
  destruct H as [Hin Hrec]. split; [exact Hin|].
  apply String.eqb_eq. exact Hrec.
Qed.

Lemma current_version_of_record
    (rec_row : Record_) (current : RecordVersion) (db : Store) :
  repository.get_record_by_id (r_id rec_row) db = (Ok (Some rec_row), db) ->
  repository.get_current_version (r_id rec_row) db = (Ok (Some current), db) ->
  current_version_id rec_row = Some (v_id current)
  /\ In current (record_versions db).
Proof.
  rewrite get_record_by_id_eq, get_current_version_eq. intros Hrec Hcur.
  inversion Hrec as [Hfound]. rewrite Hfound in Hcur.
  destruct (current_version_id rec_row) as [vid|]; [|discriminate].
  inversion Hcur as [Hv]. apply find_some in Hv. destruct Hv as [Hin Hid].
  apply String.eqb_eq in Hid. rewrite Hid. split; [reflexivity | exact Hin].
Qed.

(** X23. A comment posted from the editor.  It is posted only by a user who
    is not a viewer, while no comment is being edited, and with a text that
    is not blank; it holds the stripped text and the user's id, name and
    role; it is attached to a record that the user is shown in the list, and
    to the version that is current for that record at that moment.  The run
    appends this one comment and changes nothing else, and the record's
    comment list shows it afterwards. *)
Theorem posted_comment_is_attached
    (env : Env) (user : User) (selected : nat) (editing_comment_id ed' : option string)
    (event : comment_event) (db db' : Store) (c : Comment) :
  show_editor_comments env user selected editing_comment_id event db
  = (Ok (CommentPosted c, ed'), db') ->
  roles.is_viewer user = false
  /\ is_editing editing_comment_id = false /\ ed' = editing_comment_id
  /\ (exists comment_text : string,
        event = PressPost comment_text /\ text c = strip comment_text)
  /\ text c <> ""
  /\ author_id c = u_id user /\ author_name c = display_name user
  /\ c_role c = role user
  /\ (exists (rec_row : Record_) (current : RecordVersion),
        In (r_id rec_row)
           (map r_id (returned [] (repository.list_records_for_user user db)))
        /\ repository.get_record_by_id (c_record_id c) db = (Ok (Some rec_row), db)
        /\ In current (record_versions db)
        /\ current_version_id rec_row = Some (v_id current)
        /\ c_version_id c = Some (v_id current))
  /\ db' = set_comments (fun t => (t ++ [c])%list) db
  /\ In c (returned [] (repository.list_comments_for_record (c_record_id c) db')).
Proof.
  intros H. apply show_editor_comments_card in H.
  destruct H as [[_ [_ Hp]]|[Hviewer [listed [rec_row [current H]]]]].
  { simpl in Hp. destruct Hp as [Hp|[Hp|[Hp|Hp]]]; discriminate. }
  destruct H as [Hin [Hid [Hrec [Hcur Hcard]]]].
  apply comment_card_cases in Hcard. cbv zeta in Hcard.
  destruct Hcard as [Hed' [Hed [comment_text [Hev [Ht Hadd]]]]].
  rewrite add_comment_eq in Hadd. cbv zeta in Hadd.
  destruct (existsb _ (comments db)); [discriminate|].
  inversion Hadd as [[Hc Hdb]]. clear Hadd.
  destruct (current_version_of_record rec_row current db Hrec Hcur)
    as [Hpointer Hstored].
  split; [exact Hviewer|]. split; [exact Hed|]. split; [exact Hed'|].
  split; [exists comment_text; split; [exact Hev | reflexivity]|].
  split; [exact Ht|].
  split; [reflexivity|]. split; [reflexivity|]. split; [reflexivity|].
  split.
  { exists rec_row, current.
    split; [rewrite <- Hid; apply in_map; exact Hin|].
    split; [exact Hrec|]. split; [exact Hstored|].
    split; [exact Hpointer | reflexivity]. }
  split; [reflexivity|].
  unfold returned. rewrite list_comments_for_record_eq. cbn [fst].
  apply in_order_by. apply filter_In. split.
  - cbn [comments set_comments]. apply in_or_app. right. left. reflexivity.
  - unfold of_comment_record. apply String.eqb_refl.
Qed.

(** X24. What a run of the editor with a widget of the comment card pressed
    does to the database.  A run that raises changes nothing.  A run that
    completes never touches records, versions or override events, and the
    comments are as before unless the run posts a comment, which is then
    appended; or deletes one, which is then a comment of a record listed for
    the user that the user is the author of, or any such comment for an
    admin, and every comment with its id is removed; or saves an edit, which
    rewrites the comment named by the session entry. *)
Theorem comment_runs_touch_only_comments
    (env : Env) (user : User) (selected : nat) (editing_comment_id : option string)
    (event : comment_event) (db : Store) :
  (forall (e : exn) (db' : Store),
      show_editor_comments env user selected editing_comment_id event db
      = (Raise e, db') ->
      db' = db)
  /\ (forall (p : comment_page) (ed' : option string) (db' : Store),
        show_editor_comments env user selected editing_comment_id event db
        = (Ok (p, ed'), db') ->
        records db' = records db
        /\ record_versions db' = record_versions db
        /\ override_events db' = override_events db
        /\ (comments db' = comments db
            \/ (exists c : Comment,
                  p = CommentPosted c /\ comments db' = (comments db ++ [c])%list)
            \/ (exists c : Comment,
                  p = CommentDeleted /\ In c (comments db)
                  /\ (roles.is_admin user = true \/ author_id c = u_id user)
                  /\ In (c_record_id c)
                        (map r_id (returned []
                                     (repository.list_records_for_user user db)))
                  /\ comments db'
                     = filter (fun x => negb (String.eqb (c_id x) (c_id c)))
                              (comments db))
            \/ (exists (id edit_text : string),
                  p = CommentUpdated /\ editing_comment_id = Some id
                  /\ event = PressSaveChanges edit_text
                  /\ strip edit_text <> ""
                  /\ map comment_identity (comments db')
                     = map comment_identity (comments db)
                  /\ forall x : Comment,
                       In x (comments db') ->
                       (c_id x = id /\ text x = strip edit_text)
                       \/ (c_id x <> id /\ In x (comments db))))).
Proof.
  split; [intros e db'; apply show_editor_comments_raise|].
  intros p ed' db' H. apply show_editor_comments_card in H.
  destruct H as [[Hdb _]|[Hviewer [listed [rec_row [current H]]]]].
  { subst db'. repeat split. left. reflexivity. }
  destruct H as [Hin [Hid [Hrec [Hcur Hcard]]]].
  apply comment_card_cases in Hcard. cbv zeta in Hcard.
  destruct p; try contradiction;
    try (destruct Hcard as [Hdb _]; subst db'; repeat split; left; reflexivity).
  - destruct Hcard as [_ [i [c [Hev [Hnth [Hcan Hdel]]]]]].
    rewrite delete_comment_eq in Hdel. inversion Hdel as [Hdb]. clear Hdel.
    repeat split. right. right. left.
    apply listed_comment in Hnth. destruct Hnth as [Hstored Hof].
    exists c. split; [reflexivity|]. split; [exact Hstored|].
    split.
    { unfold can_manage in Hcan. apply orb_true_iff in Hcan.
      destruct Hcan as [Ha|Hb]; [left; exact Ha|].
      right. apply String.eqb_eq. exact Hb. }
    split; [rewrite Hof, <- Hid; apply in_map; exact Hin | reflexivity].
  - destruct Hcard as [_ [id [edit_text [Hev [Hed [Hne [Ht Hup]]]]]]].
    rewrite update_comment_eq in Hup. inversion Hup as [Hdb]. clear Hup.
    repeat split. right. right. right.
    exists id, edit_text.
    split; [reflexivity|]. split; [exact Hed|]. split; [exact Hev|].
    split; [exact Ht|].
    cbn [comments set_comments]. split.
    + rewrite map_map. apply map_ext. intros x.
      destruct (String.eqb (c_id x) id); reflexivity.
    + intros x Hx. apply in_map_iff in Hx. destruct Hx as [y [Hy Hiny]].
      destruct (String.eqb_spec (c_id y) id) as [Hyid|Hyid]; subst x.
      * left. split; [exact Hyid | reflexivity].
      * right. split; [exact Hyid | exact Hiny].
  - destruct Hcard as [_ [_ [comment_text [Hev [Ht Hadd]]]]].
    rewrite add_comment_eq in Hadd. cbv zeta in Hadd.
    destruct (existsb _ (comments db)); [discriminate|].
    inversion Hadd as [[Hc Hdb]]. clear Hadd.
    repeat split. right. left.
    eexists. split; reflexivity.
Qed.

(** X25. The session entry [editing_comment_id].  A completed run leaves it
    as it was, or clears it when an edit is saved or cancelled, or sets it
    when "Edit" is pressed; it is then the id of a stored comment, of a
    record listed for the user, that the user wrote or, for an admin, of any
    such comment.  An edit is saved only for an entry that is set, and the
    run that saves it looks neither at the author of that comment nor at the
    record it belongs to: if no stored comment has that id the run still
    reports an update and the comments are unchanged. *)
Theorem editing_entry_protocol
    (env : Env) (user : User) (selected : nat) (editing_comment_id ed' : option string)
    (event : comment_event) (db db' : Store) (p : comment_page) :
  show_editor_comments env user selected editing_comment_id event db
  = (Ok (p, ed'), db') ->
  (ed' = editing_comment_id
   \/ (ed' = None /\ (p = CommentUpdated \/ p = EditCancelled))
   \/ (p = EditingStarted
       /\ exists c : Comment,
            ed' = Some (c_id c) /\ In c (comments db)
            /\ (roles.is_admin user = true \/ author_id c = u_id user)
            /\ In (c_record_id c)
                  (map r_id (returned []
                               (repository.list_records_for_user user db)))))
  /\ (p = CommentUpdated ->
      exists id : string,
        editing_comment_id = Some id /\ id <> ""
        /\ (~ In id (map c_id (comments db)) -> comments db' = comments db)).
Proof.
  intros H. apply show_editor_comments_card in H.
  destruct H as [[_ [Hed Hp]]|[Hviewer [listed [rec_row [current H]]]]].
  { simpl in Hed. split; [left; exact Hed|].
    intros Hup. subst p. simpl in Hp.
    destruct Hp as [Hp|[Hp|[Hp|Hp]]]; discriminate. }
  destruct H as [Hin [Hid [Hrec [Hcur Hcard]]]].
  apply comment_card_cases in Hcard. cbv zeta in Hcard.
  destruct p; try contradiction.
  - destruct Hcard as [_ Hed]. split; [left; exact Hed | discriminate].
  - destruct Hcard as [_ [i [c [Hev [Hnth [Hcan Hed]]]]]].
    split; [|discriminate]. right. right. split; [reflexivity|].
    apply listed_comment in Hnth. destruct Hnth as [Hstored Hof].
    exists c. split; [exact Hed|]. split; [exact Hstored|].
    split.
    { unfold can_manage in Hcan. apply orb_true_iff in Hcan.
      destruct Hcan as [Ha|Hb]; [left; exact Ha|].
      right. apply String.eqb_eq. exact Hb. }
    rewrite Hof, <- Hid. apply in_map. exact Hin.
  - destruct Hcard as [Hed _]. split; [left; exact Hed | discriminate].
  - destruct Hcard as [_ Hed]. split; [left; exact Hed | discriminate].
  - destruct Hcard as [Hed [id [edit_text [Hev [Hsome [Hne [Ht Hup]]]]]]].
    split; [right; left; split; [exact Hed | left; reflexivity]|].
    intros _. exists id. split; [exact Hsome|]. split; [exact Hne|].
    intros Hfresh.
    rewrite update_comment_eq in Hup. inversion Hup as [Hdb]. clear Hup.
    cbn [comments set_comments].
    apply (map_unchanged (fun c => String.eqb (c_id c) id)).
    destruct (existsb _ (comments db)) eqn:Hexists; [|reflexivity].
    exfalso. apply Hfresh. apply existsb_exists in Hexists.
    destruct Hexists as [x [Hx Hx_id]]. apply String.eqb_eq in Hx_id.
    rewrite <- Hx_id. apply in_map. exact Hx.
  - destruct Hcard as [_ [Hed _]].
    split; [right; left; split; [exact Hed | right; reflexivity] | discriminate].
  - destruct Hcard as [Hed _]. split; [left; exact Hed | discriminate].
Qed.

(* ===================================================================== *)
(** ** Timestamps of the version store                                    *)
(* ===================================================================== *)

Lemma Forall_snoc {A : Type} (P : A -> Prop) (l : list A) (x : A) :
  Forall P l -> P x -> Forall P (l ++ [x])%list.
Proof.
  intros Hl Hx. apply Forall_app. split; [exact Hl|].
  constructor; [exact Hx | constructor].
Qed.

Lemma repoint_created_at (record_id version_id final_status new_title : string)
    (l : list Record_) :
  Forall (fun r => embeds_utcoffset (r_created_at r) = true) l ->
  Forall (fun r => embeds_utcoffset (r_created_at r) = true)
         (map (repoint record_id version_id final_status new_title) l).
Proof.
  intros H. apply Forall_forall. intros r Hin.
  apply in_map_iff in Hin. destruct Hin as [r0 [Hr Hin0]].
  rewrite Forall_forall in H. specialize (H r0 Hin0).
  subst r. unfold repoint. destruct (repository.has_id record_id r0); exact H.
Qed.

Lemma stamped_run_call (c : call) (db : Store) :
  whole_minute_offset c = true ->
  stamped_with_offset db -> stamped_with_offset (run_call c db).
Proof.
  intros Hmin [Hr [Hv He]].
  destruct c as [env title_arg record_type_arg content_arg user status_arg
                | env record_id new_title content_arg user version_type_arg new_status
                | env record_id version_id text_arg user
                | env comment_id new_text
                | comment_id
                | env record_id version_id overrides user];
    cbn [run_call]; unfold after;
    unfold whole_minute_offset in Hmin; cbn [call_env] in Hmin;
    try (apply Z.eqb_eq in Hmin;
         pose proof (now_toronto_iso_embeds_utcoffset env Hmin) as Hnow).
  - rewrite create_record_with_initial_version_eq. cbv zeta.
    destruct (existsb _ (records db)); [repeat split; assumption|].
    destruct (existsb _ (record_versions db)); [repeat split; assumption|].
    split; [|split]; cbn [snd records record_versions override_events].
    + apply Forall_snoc; [exact Hr | exact Hnow].
    + apply Forall_snoc; [exact Hv | exact Hnow].
    + exact He.
  - rewrite create_new_version_eq.
    destruct (find _ (records db)) as [rec_row|]; [|repeat split; assumption].
    cbv zeta.
    destruct (sqlite_integer _); [|repeat split; assumption].
    destruct (existsb _ (record_versions db)); [repeat split; assumption|].
    split; [|split]; cbn [snd records record_versions override_events].
    + apply repoint_created_at. exact Hr.
    + apply Forall_snoc; [exact Hv | exact Hnow].
    + exact He.
  - rewrite add_comment_eq. cbv zeta.
    destruct (existsb _ (comments db)); repeat split; assumption.
  - repeat split; assumption.
  - repeat split; assumption.
  - pose proof (log_override_events_cases env record_id version_id overrides
                  user db) as Hcases.
    destruct (fresh_ids _ _).
    + rewrite Hcases. split; [|split];
        cbn [snd records record_versions override_events set_override_events].
      * exact Hr.
      * exact Hv.
      * apply Forall_app. split; [exact He|].
        pose proof (override_event_rows_attributed env record_id version_id user
                      (now_toronto_iso env) overrides 0) as Hrows.
        apply Forall_forall. intros e Hin.
        rewrite Forall_forall in Hrows. destruct (Hrows e Hin) as [_ [_ [_ Hat]]].
        rewrite Hat. exact Hnow.
    + destruct Hcases as [msg Hraise]. rewrite Hraise.
      repeat split; assumption.
Qed.

(** X26. Timestamps of the version store.  In a database built from the
    empty one by any history of calls, each made while the UTC offset of
    Toronto is a whole number of minutes, the creation timestamp of every
    record and of every version and the timestamp of every override event
    end in a UTC offset: these writers all stamp with [now_toronto_iso], and
    repointing a record keeps its creation timestamp. *)
Theorem version_store_timestamps_carry_offset (history : list call) :
  forallb whole_minute_offset history = true ->
  stamped_with_offset (run_calls history empty_db).
Proof.
  induction history as [|c history IH] using rev_ind; intros Hmin.
  - repeat split; constructor.
  - rewrite forallb_app in Hmin. apply andb_true_iff in Hmin.
    destruct Hmin as [Hhistory Hc]. simpl in Hc.
    rewrite andb_true_r in Hc.
    rewrite run_calls_snoc. apply stamped_run_call; [exact Hc | exact (IH Hhistory)].
Qed.

(* ===================================================================== *)
(** ** The selection box of the editor                                    *)
(* ===================================================================== *)

Lemma lookup_dict_set {A : Type} (d : list (string * A)) (k k' : string) (v : A) :
  lookup k' (app.dict_set d k v)
  = if String.eqb k' k then Some v else lookup k' d.
Proof.
  induction d as [|[k0 v0] d IH]; simpl.
  - reflexivity.
  - destruct (String.eqb_spec k k0) as [Hk|Hk]; simpl.
    + subst k0. destruct (String.eqb k' k); reflexivity.
    + rewrite IH. destruct (String.eqb_spec k' k0) as [Hk'|Hk'].
      * subst k0. destruct (String.eqb_spec k' k) as [Heq|_]; [|reflexivity].
        symmetry in Heq. contradiction.
      * reflexivity.
Qed.

Lemma find_snoc {A : Type} (p : A -> bool) (l : list A) (x : A) :
  find p (rev (l ++ [x])) = if p x then Some x else find p (rev l).
Proof. rewrite rev_app_distr. reflexivity. Qed.

Lemma record_options_lookup (recs : list Record_) (label : string) :
  lookup label (app.record_options recs)
  = option_map r_id
      (find (fun r => String.eqb (app.record_label r) label) (rev recs)).
Proof.
  unfold app.record_options.
  induction recs as [|r recs IH] using rev_ind.
  - reflexivity.
  - rewrite fold_left_app. cbn [fold_left].
    rewrite lookup_dict_set, find_snoc, IH.
    rewrite (String.eqb_sym label).
    destruct (String.eqb (app.record_label r) label); reflexivity.
Qed.

Lemma selected_label_listed (recs : list Record_) (selected : nat) :
  recs <> [] ->
  let options := app.record_options recs in
  exists id : string,
    lookup (nth selected (map fst options) (hd "" (map fst options))) options
    = Some id.
Proof.
  intros Hne options. apply lookup_key_in.
  destruct recs as [|r0 recs']; [contradiction Hne; reflexivity|].
  destruct (map fst options) as [|k ks] eqn:Hk.
  - exfalso. apply (record_options_nonempty r0 recs').
    fold options. destruct options; [reflexivity | discriminate].
  - cbn [hd]. destruct (Nat.lt_ge_cases selected (List.length (k :: ks))) as [Hlt|Hge].
    + apply nth_In. exact Hlt.
    + rewrite nth_overflow by exact Hge. left. reflexivity.
Qed.

Lemma unique_by_id (recs : list Record_) (r1 r2 : Record_) :
  NoDup (map r_id recs) -> In r1 recs -> In r2 recs -> r_id r1 = r_id r2 -> r1 = r2.
Proof.
  induction recs as [|r recs IH]; simpl; intros Hnd H1 H2 Hid.
  - destruct H1.
  - inversion Hnd as [|x l Hnotin Hnd']. subst x l.
    destruct H1 as [H1|H1], H2 as [H2|H2].
    + congruence.
    + subst r1. exfalso. apply Hnotin. rewrite Hid. apply in_map. exact H2.
    + subst r2. exfalso. apply Hnotin. rewrite <- Hid. apply in_map. exact H1.
    + exact (IH Hnd' H1 H2 Hid).
Qed.

(** X27. The selection box of the editor is keyed by label.  The id behind
    a label is that of the last listed record with this label.  So of two
    listed records with the same title, status and creator name, the one
    listed first can never be selected: whatever entry is chosen, the editor
    works on another record. *)
Theorem same_label_hides_earlier_record
    (recs before middle after : list Record_) (r1 r2 : Record_) :
  (forall label : string,
      lookup label (app.record_options recs)
      = option_map r_id
          (find (fun r => String.eqb (app.record_label r) label) (rev recs)))
  /\ (recs = (before ++ r1 :: middle ++ r2 :: after)%list ->
      NoDup (map r_id recs) ->
      app.record_label r1 = app.record_label r2 ->
      forall selected : nat, selected_record_id recs selected <> r_id r1).
Proof.
  split; [intros label; apply record_options_lookup|].
  intros Hrecs Hnd Hlabel selected Hsel.
  unfold selected_record_id in Hsel. cbv zeta in Hsel.
  destruct (selected_label_listed recs selected) as [id Hid].
  { rewrite Hrecs. destruct before; discriminate. }
  cbv zeta in Hid. rewrite Hid in Hsel. subst id.
  rewrite record_options_lookup in Hid.
  set (label := nth selected _ _) in Hid.
  destruct (find _ (rev recs)) as [r|] eqn:Hfind; [|discriminate].
  inversion Hid as [Hr]. clear Hid.
  pose proof (find_some _ _ Hfind) as [Hin Hl].
  apply in_rev in Hin. apply String.eqb_eq in Hl.
  assert (Hin1 : In r1 recs).
  { rewrite Hrecs. apply in_or_app. right. left. reflexivity. }
  assert (Heq : r = r1) by exact (unique_by_id recs r r1 Hnd Hin Hin1 Hr).
  subst r.
  assert (Hrev : rev recs
                 = (rev after ++ r2 :: rev middle ++ r1 :: rev before)%list).
  { rewrite Hrecs. rewrite rev_app_distr. simpl. rewrite rev_app_distr. simpl.
    repeat (rewrite <- app_assoc; simpl). reflexivity. }
  rewrite Hrev in Hfind.
  assert (Hearly : exists r, find (fun r => String.eqb (app.record_label r) label)
                                  (rev after ++ [r2]) = Some r).
  { destruct (find _ (rev after ++ [r2])%list) as [r|] eqn:Hf; [exists r; reflexivity|].
    exfalso.
    assert (Hin2 : In r2 (rev after ++ [r2])%list)
      by (apply in_or_app; right; left; reflexivity).
    pose proof (find_none _ _ Hf r2 Hin2) as H2. cbv beta in H2.
    rewrite <- Hlabel, Hl, String.eqb_refl in H2. discriminate. }
  destruct Hearly as [r Hr2].
  change (rev after ++ r2 :: rev middle ++ r1 :: rev before)%list
    with (rev after ++ [r2] ++ (rev middle ++ r1 :: rev before))%list in Hfind.
  rewrite app_assoc in Hfind.
  rewrite (find_app_some _ _ _ _ Hr2) in Hfind.
  inversion Hfind as [Hrr]. subst r.
  apply find_some in Hr2. destruct Hr2 as [Hin_late _].
  (* r1 occurs both before and after the middle: its id is listed twice *)
  rewrite Hrecs in Hnd. rewrite map_app in Hnd. cbn [map] in Hnd.
  apply NoDup_remove_2 in Hnd.
  apply Hnd. apply in_or_app. right.
  rewrite map_app. apply in_or_app. right. apply in_map.
  apply in_app_or in Hin_late. destruct Hin_late as [Hlate|[Hlate|[]]].
  - right. apply in_rev. exact Hlate.
  - left. exact Hlate.
Qed.

(* ===================================================================== *)
(** * The further properties in the worked scenario                       *)
(* ===================================================================== *)

(** Deleting the comment added at noon gives back the three records as they
    were. *)
Lemma add_then_delete_comment_witness :
  repository.delete_comment "com-1" (snd noon_comment) = (Ok tt, three_records_db).
Proof.
  assert (Hadd : repository.add_comment noon_in_toronto "rec-1" None "Looks good."
                   user_x three_records_db
                 = (Ok (returned no_comment noon_comment), snd noon_comment))
    by (vm_compute; reflexivity).
  apply add_then_delete_comment in Hadd.
  assert (Hid : c_id (returned no_comment noon_comment) = "com-1")
    by (vm_compute; reflexivity).
  rewrite Hid in Hadd. exact Hadd.
Defined.

(** Logging an override for the first record leaves the override history of
    the second as it was. *)
Lemma list_overrides_after_logging_witness :
  returned [] (repository.list_overrides_for_record "rec-2" (snd logged_override))
  = returned [] (repository.list_overrides_for_record "rec-2" three_records_db).
Proof.
  assert (Hlog : repository.log_override_events
                   (env_at ["ev-1"; "ev-2"] 1700000501000000)
                   "rec-1" "ver-1" capability_override admin_y three_records_db
                 = (Ok tt, snd logged_override))
    by (vm_compute; reflexivity).
  apply list_overrides_after_logging in Hlog.
  destruct Hlog as [_ Hother].
  apply Hother. discriminate.
Defined.


(** After its two revisions the first record points at a version that
    [get_current_version] returns. *)
Lemma current_version_is_latest_and_lineage_linear_witness :
  exists latest : RecordVersion,
    repository.get_current_version "rec-1" (run_calls (three_records ++ revisions) empty_db)
    = (Ok (Some latest), run_calls (three_records ++ revisions) empty_db)
    /\ current_version_id first_record = Some (v_id latest)
    /\ version_type (hd no_version
                        (returned [] (repository.list_versions_for_record "rec-1"
                           (run_calls (three_records ++ revisions) empty_db))))
       = "draft".
Proof.
  assert (Hrec : repository.get_record_by_id "rec-1"
                   (run_calls (three_records ++ revisions) empty_db)
                 = (Ok (Some first_record),
                    run_calls (three_records ++ revisions) empty_db))
    by (vm_compute; reflexivity).
  apply current_version_is_latest_and_lineage_linear in Hrec.
  destruct Hrec as [first [latest [earlier [later
                     [Hlist [Hsplit [Hcur [Hpointer [_ [_ [Hdraft _]]]]]]]]]]].
  exists latest. split; [exact Hcur|]. split; [exact Hpointer|].
  unfold returned. rewrite Hlist, Hsplit. exact Hdraft.
Defined.

(** The third revision of the first record leaves the versions of the second
    as they were. *)
Lemma create_new_version_isolation_witness :
  returned [] (repository.list_versions_for_record "rec-2" (snd third_revision))
  = returned [] (repository.list_versions_for_record "rec-2" revised_db).
Proof.
  assert (Hrev : repository.create_new_version
                   (env_at ["ver-6"] 1700000300000000) "rec-1" "Fraud Detection v4"
                   (content_of [] ["NLP"]) user_x "edit" None revised_db
                 = (Ok (returned no_version third_revision), snd third_revision))
    by (vm_compute; reflexivity).
  apply create_new_version_isolation in Hrev.
  destruct Hrev as [Hother _].
  destruct (Hother "rec-2") as [_ [Hversions _]]; [discriminate|].
  exact Hversions.
Defined.

(** Seeding the empty database a second time, with other identifiers and
    another user, changes nothing. *)
Lemma ensure_demo_data_seeds_once_witness :
  ensure_demo_data (env_at ["rec-3"; "ver-3"] 1700000120000000)
                   (env_at ["rec-4"; "ver-4"] 1700000180000000) admin_y
    (snd (ensure_demo_data (env_at ["rec-1"; "ver-1"] 1700000000000000)
                           (env_at ["rec-2"; "ver-2"] 1700000060000000)
                           user_x empty_db))
  = (Ok tt,
     snd (ensure_demo_data (env_at ["rec-1"; "ver-1"] 1700000000000000)
                           (env_at ["rec-2"; "ver-2"] 1700000060000000)
                           user_x empty_db)).
Proof.
  assert (Hseed : ensure_demo_data (env_at ["rec-1"; "ver-1"] 1700000000000000)
                    (env_at ["rec-2"; "ver-2"] 1700000060000000) user_x empty_db
                  = (Ok tt,
                     snd (ensure_demo_data
                            (env_at ["rec-1"; "ver-1"] 1700000000000000)
                            (env_at ["rec-2"; "ver-2"] 1700000060000000)
                            user_x empty_db)))
    by (vm_compute; reflexivity).
  destruct (ensure_demo_data_seeds_once
              (env_at ["rec-1"; "ver-1"] 1700000000000000)
              (env_at ["rec-2"; "ver-2"] 1700000060000000) user_x empty_db)
    as [_ [Honce _]].
  destruct (Honce _ Hseed) as [_ Hagain].
  apply Hagain.
Defined.

(** Two tags shown in the field and parsed again. *)
Lemma tags_round_trip_witness :
  parse_tags (str_join ", " ["Risk & Governance"; "NLP"])
  = ["Risk & Governance"; "NLP"].
Proof.
  apply (proj1 tags_round_trip). vm_compute. reflexivity.
Defined.

(** A key [notes] in front of the old document does not change the diff. *)
Lemma diff_ai_metadata_insensitive_witness :
  app.diff_ai_metadata
    (Some (("notes", PyStr "reviewed") :: tags_meta ["Risk & Governance"] []))
    (Some (tags_meta [] ["NLP"]))
  = app.diff_ai_metadata (Some (tags_meta ["Risk & Governance"] []))
                         (Some (tags_meta [] ["NLP"])).
Proof.
  destruct (diff_ai_metadata_insensitive
              "notes" (PyStr "reviewed") (tags_meta ["Risk & Governance"] [])
              (Some (tags_meta [] ["NLP"]))) as [Hkey _].
  destruct Hkey as [Hold _]; [discriminate | discriminate | exact Hold].
Defined.

(** What user X saves is a version of a record X created. *)
Lemma editor_saves_only_listed_records_witness :
  exists r : Record_,
    In r (records three_records_db)
    /\ r_id r = v_record_id (saved_version user_save)
    /\ r_created_by r = "user-1".
Proof.
  assert (Hsave :
            app.show_editor (env_at ["ver-8"] 1700000500000000)
              (env_at ["ev-1"; "ev-2"] 1700000501000000)
              user_x 1 capability_change three_records_db
            = (Ok (app.Saved (saved_version user_save)), snd user_save))
    by (vm_compute; reflexivity).
  apply editor_saves_only_listed_records in Hsave.
  destruct Hsave as [_ [r [_ [Hstored [Hid [Hown _]]]]]].
  exists r. split; [exact Hstored|]. split; [exact Hid|].
  apply Hown. reflexivity.
Defined.

(** The admin who changes title and status but leaves the tags alone saves
    an "edit", and nothing is logged. *)
Lemma untouched_tags_save_is_edit_witness :
  version_type (saved_version admin_retitle) = "edit"
  /\ override_events (snd admin_retitle) = override_events three_records_db.
Proof.
  assert (Hsave :
            app.show_editor (env_at ["ver-8"] 1700000500000000)
              (env_at ["ev-1"; "ev-2"] 1700000501000000)
              admin_y 2 retitle three_records_db
            = (Ok (app.Saved (saved_version admin_retitle)), snd admin_retitle))
    by (vm_compute; reflexivity).
  assert (Hcur : repository.get_current_version
                   (v_record_id (saved_version admin_retitle)) three_records_db
                 = (Ok (Some (current_of "rec-1" three_records_db)),
                    three_records_db))
    by (vm_compute; reflexivity).
  assert (Hmeta : app.existing_meta_of (current_of "rec-1" three_records_db)
                  = PyDict (tags_meta ["Risk & Governance"] ["Fraud Detection"]))
    by (vm_compute; reflexivity).
  destruct (untouched_tags_save_is_edit _ _ _ _ _ _ _ _ _ _
              ["Risk & Governance"] ["Fraud Detection"] Hsave Hcur Hmeta)
    as [Htype [Hevents _]];
    try (vm_compute; reflexivity).
  split; [exact Htype | exact Hevents].
Defined.

(** The admin's save leaves the first record with the title of the form and
    with the saved version as its current one. *)
Lemma editor_save_records_the_form_witness :
  repository.get_current_version (v_record_id (saved_version admin_retitle))
                                 (snd admin_retitle)
  = (Ok (Some (saved_version admin_retitle)), snd admin_retitle)
  /\ exists r' : Record_,
       repository.get_record_by_id (v_record_id (saved_version admin_retitle))
                                   (snd admin_retitle)
       = (Ok (Some r'), snd admin_retitle)
       /\ title r' = strip (app.title_input retitle).
Proof.
  assert (Hsave :
            app.show_editor (env_at ["ver-8"] 1700000500000000)
              (env_at ["ev-1"; "ev-2"] 1700000501000000)
              admin_y 2 retitle three_records_db
            = (Ok (app.Saved (saved_version admin_retitle)), snd admin_retitle))
    by (vm_compute; reflexivity).
  apply editor_save_records_the_form in Hsave.
  destruct Hsave as [_ [_ [_ [_ [Hcur [r' [Hrec [Htitle _]]]]]]]].
  split; [exact Hcur|].
  exists r'. split; [exact Hrec | exact Htitle].
Defined.

(** The admin's override of the capability groups is listed in the override
    history of the record. *)
Lemma override_history_names_the_version_witness :
  exists events : list OverrideEvent,
    override_events (snd admin_save)
    = (override_events three_records_db ++ events)%list
    /\ events <> []
    /\ Forall (fun e =>
                 In e (returned [] (repository.list_overrides_for_record
                                      (v_record_id (saved_version admin_save))
                                      (snd admin_save)))
                 /\ override_row_version
                      (returned [] (repository.list_versions_for_record
                                      (v_record_id (saved_version admin_save))
                                      (snd admin_save))) e
                    = PyInt (version_number (saved_version admin_save)))
              events.
Proof.
  assert (Hsave :
            app.show_editor (env_at ["ver-8"] 1700000500000000)
              (env_at ["ev-1"; "ev-2"] 1700000501000000)
              admin_y 2 capability_change three_records_db
            = (Ok (app.Saved (saved_version admin_save)), snd admin_save))
    by (vm_compute; reflexivity).
  apply override_history_names_the_version in Hsave.
  - exact Hsave.
  - vm_compute. reflexivity.
Defined.

(** The draft the auditor creates is not in the list the auditor is shown
    afterwards, while the tags typed as "Service Delivery, , NLP " are
    stored clean. *)
Lemma create_tab_outcomes_witness :
  ~ In (created_record auditor_create)
       (returned [] (repository.list_records_for_user auditor (snd auditor_create)))
  /\ title (created_record auditor_create) = "Chatbot".
Proof.
  assert (Hrun : show_editor_create (env_at ["rec-4"; "ver-4"] 1700000600000000)
                   auditor new_use_case three_records_db
                 = (Ok (Created (created_record auditor_create)), snd auditor_create))
    by (vm_compute; reflexivity).
  destruct (create_tab_outcomes (env_at ["rec-4"; "ver-4"] 1700000600000000)
              auditor new_use_case three_records_db) as [_ [_ Hcreated]].
  destruct (Hcreated _ _ Hrun)
    as [_ [Htitle [_ [_ [_ [_ [_ [_ [_ [_ Hlisted]]]]]]]]]].
  cbv zeta in Hlisted. destruct Hlisted as [_ Hother].
  split.
  - intros Hin.
    assert (Hrole : roles.is_admin auditor || roles.is_user auditor = false)
      by (vm_compute; reflexivity).
    pose proof (proj1 (Hother Hrole) Hin) as Hstatus.
    vm_compute in Hstatus. discriminate.
  - rewrite Htitle. vm_compute. reflexivity.
Defined.

(** The admin's comment is attached to the admin's record and its current
    version, with the text stripped. *)
Lemma posted_comment_is_attached_witness :
  text (posted admin_post) <> ""
  /\ author_id (posted admin_post) = u_id admin_y
  /\ In (posted admin_post)
        (returned [] (repository.list_comments_for_record
                        (c_record_id (posted admin_post)) (snd admin_post))).
Proof.
  assert (Hrun : show_editor_comments (env_at ["com-1"] 1700000700000000) admin_y 0
                   None (PressPost "  Needs a privacy review. ") three_records_db
                 = (Ok (CommentPosted (posted admin_post), None), snd admin_post))
    by (vm_compute; reflexivity).
  apply posted_comment_is_attached in Hrun.
  destruct Hrun as [_ [_ [_ [_ [Htext [Hauthor [_ [_ [_ [_ Hlisted]]]]]]]]]].
  split; [exact Htext|]. split; [exact Hauthor | exact Hlisted].
Defined.

(** User X saves the edit that the admin began: the run touches the comments
    only, and every comment it leaves is the rewritten one or was there
    before. *)
Lemma comment_runs_touch_only_comments_witness :
  records (snd user_overwrite) = records (snd admin_post)
  /\ record_versions (snd user_overwrite) = record_versions (snd admin_post)
  /\ override_events (snd user_overwrite) = override_events (snd admin_post)
  /\ comments (snd user_overwrite) <> comments (snd admin_post).
Proof.
  assert (Hrun : show_editor_comments (env_at [] 1700000820000000) user_x 0
                   (Some "com-1") (PressSaveChanges "Approved.") (snd admin_post)
                 = (Ok (CommentUpdated, None), snd user_overwrite))
    by (vm_compute; reflexivity).
  destruct (comment_runs_touch_only_comments (env_at [] 1700000820000000)
              user_x 0 (Some "com-1") (PressSaveChanges "Approved.")
              (snd admin_post)) as [_ Hok].
  destruct (Hok _ _ _ Hrun) as [Hr [Hv [He _]]].
  split; [exact Hr|]. split; [exact Hv|]. split; [exact He|].
  vm_compute. discriminate.
Defined.

(** The admin presses "Edit": the session entry then names a stored
    comment, here the admin's own. *)
Lemma editing_entry_protocol_witness :
  exists c : Comment,
    Some "com-1" = Some (c_id c) /\ In c (comments (snd admin_post))
    /\ (roles.is_admin admin_y = true \/ author_id c = u_id admin_y).
Proof.
  assert (Hrun : show_editor_comments (env_at [] 1700000760000000) admin_y 0 None
                   (PressEdit 0) (snd admin_post)
                 = (Ok (EditingStarted, Some "com-1"), snd admin_post))
    by (vm_compute; reflexivity).
  apply editing_entry_protocol in Hrun.
  destruct Hrun as [[Hsame|[[Hcleared _]|[_ [c [Hentry [Hstored [Hcan _]]]]]]] _].
  - discriminate.
  - discriminate.
  - exists c. split; [exact Hentry|]. split; [exact Hstored | exact Hcan].
Defined.

(** The three records and the two revisions were all stamped with an
    offset. *)
Lemma version_store_timestamps_carry_offset_witness :
  stamped_with_offset (run_calls (three_records ++ revisions) empty_db).
Proof.
  apply version_store_timestamps_carry_offset. vm_compute. reflexivity.
Defined.

(** With two drafts of user X titled "Fraud Detection", the first entry of
    the selection box leads to the older one; the newer one, listed first,
    is out of reach. *)
Lemma same_label_hides_earlier_record_witness :
  selected_record_id twin_records 0 <> r_id (nth 0 twin_records no_record)
  /\ selected_record_id twin_records 1 <> r_id (nth 0 twin_records no_record)
  /\ selected_record_id twin_records 2 <> r_id (nth 0 twin_records no_record).
Proof.
  destruct (same_label_hides_earlier_record twin_records []
              [nth 1 twin_records no_record] []
              (nth 0 twin_records no_record) (nth 2 twin_records no_record))
    as [_ Hhidden].
  assert (Hrecs : twin_records
                  = ([] ++ nth 0 twin_records no_record
                        :: [nth 1 twin_records no_record]
                        ++ nth 2 twin_records no_record :: [])%list)
    by (vm_compute; reflexivity).
  assert (Hids : NoDup (map r_id twin_records)).
  { vm_compute. repeat constructor; simpl; intuition discriminate. }
  assert (Hlabel : app.record_label (nth 0 twin_records no_record)
                   = app.record_label (nth 2 twin_records no_record))
    by (vm_compute; reflexivity).
  pose proof (Hhidden Hrecs Hids Hlabel) as H.
  split; [apply H|]. split; apply H.
Defined.
